(** * Bollinger-band futures bot: trade lifecycle, sizing and persistent state

    A shallow embedding of the parts of the bot that its specification makes
    claims about, and the proofs that settle them:

    - [decimal]: the values of Python's [decimal.Decimal] that prices,
      quantities and amounts take, with the operations the bot applies;
    - [persistent_state]: [convert_to_json_serializable] and the
      [PersistentState] class (persistent_state.py);
    - [trade_manager]: the rounding helpers of [TradeManager]
      (trade_manager.py);
    - [bb_signal_utils], [BB_buy], [signal_processor]: signal evaluation,
      sizing guards and bracket validation;
    - [pending_order_manager], [position_manager]: fill processing,
      emergency close and closure accounting;
    - [main_bot_loop]: one tick of [run_bot];
    - [trade_manager_methods]: the methods of [TradeManager] that build and
      send requests (trade_manager.py);
    - [binance_utils]: [get_trade_closure_details] (binance_utils.py);
    - [pending_order_fill_check]: [_check_entry_order_fill]
      (pending_order_manager.py).

    Modelling conventions.

    - A [Decimal] is a finite decimal number [(-1)^sign * int * 10^exp], as
      [as_tuple()] shows it.  NaN and the infinities are not prices or amounts
      and are left out.  Arithmetic is exact: the rounding of results to the
      context precision (the bot sets [getcontext().prec = 18]) is not
      modelled, so every statement below is about operands whose results fit
      in that precision.
    - Python dictionaries are finite maps ([gmap]), so two documents that
      differ only in the order of their keys are equal.
    - Logging and chat notifications have no effect on the state and are
      dropped.  Calls to the exchange are recorded as events; what the exchange
      answers is an input of the function that asks. *)

From Stdlib Require Import ZArith NArith QArith Qabs Qpower Lia Lqa.
From Stdlib Require Import Ascii String DecimalN DecimalFacts.
From stdpp Require Import base option list strings gmap fin_maps.

Set Warnings "-register-all".
Local Open Scope Z_scope.

(** ** Python's [decimal.Decimal], finite values *)

Module decimal.

(** [Decimal(sign, int, exp)]: [_sign], [_int] (a digit string without leading
    zeros, i.e. a natural number) and [_exp]. *)
Record Decimal : Type := mkDecimal {
  d_sign : bool;
  d_int : N;
  d_exp : Z
}.

Definition Decimal_eq_dec (a b : Decimal) : {a = b} + {a <> b}.
Proof. decide equality; [apply Z.eq_dec | apply N.eq_dec | apply Bool.bool_dec]. Defined.

(** The signed coefficient. *)
Definition signed_int (d : Decimal) : Z :=
  if d_sign d then - Z.of_N (d_int d) else Z.of_N (d_int d).

(** The number a [Decimal] denotes. *)
Definition Decimal_Q (d : Decimal) : Q :=
  (inject_Z (signed_int d) * Qpower (10 # 1) (d_exp d))%Q.

(** [Decimal(0)], [Decimal('0')]. *)
Definition Decimal_0 : Decimal := mkDecimal false 0 0.

(** [Decimal(n)] for a Python [int]. *)
Definition Decimal_of_Z (z : Z) : Decimal := mkDecimal (z <? 0) (Z.abs_N z) 0.

(** Rebuild a [Decimal] from a signed coefficient; [zero_sign] is the sign a
    zero result takes. *)
Definition of_signed (zero_sign : bool) (z : Z) (e : Z) : Decimal :=
  mkDecimal (if z =? 0 then zero_sign else z <? 0) (Z.abs_N z) e.

(** *** Comparisons: by numeric value, as [__lt__], [__le__], [__eq__]. *)

Definition Decimal_le (a b : Decimal) : bool := Qle_bool (Decimal_Q a) (Decimal_Q b).
Definition Decimal_lt (a b : Decimal) : bool := negb (Qle_bool (Decimal_Q b) (Decimal_Q a)).
Definition Decimal_gt (a b : Decimal) : bool := Decimal_lt b a.
Definition Decimal_ge (a b : Decimal) : bool := Decimal_le b a.
Definition Decimal_eq (a b : Decimal) : bool := Qeq_bool (Decimal_Q a) (Decimal_Q b).
Definition Decimal_ne (a b : Decimal) : bool := negb (Decimal_eq a b).

(** [bool(d)]: a [Decimal] is falsy exactly when it is a zero. *)
Definition Decimal_bool (d : Decimal) : bool := negb (d_int d =? 0)%N.

(** Truthiness of an [Optional[Decimal]]. *)
Definition opt_truthy (o : option Decimal) : bool :=
  match o with Some d => Decimal_bool d | None => false end.

(** *** Arithmetic *)

(** [__neg__]: the negation of a zero is the positive zero. *)
Definition Decimal_neg (a : Decimal) : Decimal :=
  mkDecimal (if (d_int a =? 0)%N then false else negb (d_sign a)) (d_int a) (d_exp a).

(** [copy_negate]: flips the sign bit, also of a zero. *)
Definition copy_negate (a : Decimal) : Decimal :=
  mkDecimal (negb (d_sign a)) (d_int a) (d_exp a).

(** [__abs__]. *)
Definition Decimal_abs (a : Decimal) : Decimal :=
  mkDecimal false (d_int a) (d_exp a).

(** [__add__]: the exponent of the result is the smaller exponent; a zero
    sum is negative only when both operands are negative zeros. *)
Definition Decimal_add (a b : Decimal) : Decimal :=
  let e := Z.min (d_exp a) (d_exp b) in
  let za := signed_int a * 10 ^ (d_exp a - e) in
  let zb := signed_int b * 10 ^ (d_exp b - e) in
  of_signed (d_sign a && d_sign b) (za + zb) e.

(** [__sub__] is [self + other.copy_negate()]. *)
Definition Decimal_sub (a b : Decimal) : Decimal := Decimal_add a (copy_negate b).

(** [__mul__]. *)
Definition Decimal_mul (a b : Decimal) : Decimal :=
  mkDecimal (xorb (d_sign a) (d_sign b)) (d_int a * d_int b) (d_exp a + d_exp b).

(** [to_integral_value(rounding=ROUND_DOWN)]: a value with a non-negative
    exponent is returned as it is, otherwise the fraction digits are cut. *)
Definition to_integral_value_ROUND_DOWN (a : Decimal) : Decimal :=
  if 0 <=? d_exp a then a
  else mkDecimal (d_sign a) (d_int a / 10 ^ Z.to_N (- d_exp a))%N 0.

(** Strip at most [fuel] trailing zeros of a coefficient, counting them. *)
Fixpoint strip_zeros (fuel : nat) (c : N) (e : Z) : N * Z :=
  match fuel with
  | O => (c, e)
  | S fuel' =>
      if (negb (c =? 0) && (c mod 10 =? 0))%N
      then strip_zeros fuel' (c / 10)%N (e + 1)
      else (c, e)
  end.

(** [(a / b).to_integral_value(rounding=ROUND_DOWN)] with the quotient taken
    exactly.  An exact quotient keeps the exponent closest to the ideal one
    [a.exp - b.exp], as [__truediv__] does; any other quotient is cut at the
    decimal point.  Callers never pass a zero divisor. *)
Definition div_to_integral_ROUND_DOWN (a b : Decimal) : Decimal :=
  let ideal := d_exp a - d_exp b in
  let num := if 0 <=? ideal then (d_int a * 10 ^ Z.to_N ideal)%N else d_int a in
  let den := if 0 <=? ideal then d_int b else (d_int b * 10 ^ Z.to_N (- ideal))%N in
  let sign := xorb (d_sign a) (d_sign b) in
  if (d_int a =? 0)%N then
    mkDecimal sign 0 (Z.max 0 ideal)
  else if (num mod den =? 0)%N && (0 <? ideal) then
    let '(c, e) := strip_zeros (Z.to_nat ideal) (num / den)%N 0 in
    mkDecimal sign c e
  else mkDecimal sign (num / den)%N 0.

(** Division of a coefficient by [10^k], rounding half to even. *)
Definition round_half_even (c : N) (k : N) : N :=
  let p := (10 ^ k)%N in
  let q := (c / p)%N in
  let r := (c mod p)%N in
  match (2 * r ?= p)%N with
  | Lt => q
  | Gt => (q + 1)%N
  | Eq => if N.even q then q else (q + 1)%N
  end.

(** [a.quantize(Decimal('1e<e>'))] with the context's ROUND_HALF_EVEN. *)
Definition quantize (a : Decimal) (e : Z) : Decimal :=
  if e <=? d_exp a
  then mkDecimal (d_sign a) (d_int a * 10 ^ Z.to_N (d_exp a - e))%N e
  else mkDecimal (d_sign a) (round_half_even (d_int a) (Z.to_N (e - d_exp a))) e.

(** *** [str(d)] and [Decimal(s)] *)

Definition digit_char (n : nat) : ascii :=
  match n with
  | 0%nat => "0" | 1%nat => "1" | 2%nat => "2" | 3%nat => "3" | 4%nat => "4"
  | 5%nat => "5" | 6%nat => "6" | 7%nat => "7" | 8%nat => "8" | _ => "9"
  end%char.

(** The digit characters of an unsigned decimal numeral. *)
Fixpoint uint_chars (u : Init.Decimal.uint) : list ascii :=
  match u with
  | Init.Decimal.Nil => []
  | Init.Decimal.D0 u => "0"%char :: uint_chars u
  | Init.Decimal.D1 u => "1"%char :: uint_chars u
  | Init.Decimal.D2 u => "2"%char :: uint_chars u
  | Init.Decimal.D3 u => "3"%char :: uint_chars u
  | Init.Decimal.D4 u => "4"%char :: uint_chars u
  | Init.Decimal.D5 u => "5"%char :: uint_chars u
  | Init.Decimal.D6 u => "6"%char :: uint_chars u
  | Init.Decimal.D7 u => "7"%char :: uint_chars u
  | Init.Decimal.D8 u => "8"%char :: uint_chars u
  | Init.Decimal.D9 u => "9"%char :: uint_chars u
  end.

Definition is_digit (c : ascii) : bool :=
  match c with
  | "0" | "1" | "2" | "3" | "4" | "5" | "6" | "7" | "8" | "9" => true
  | _ => false
  end%char.

Definition cons_digit (c : ascii) (u : Init.Decimal.uint) : option Init.Decimal.uint :=
  match c with
  | "0" => Some (Init.Decimal.D0 u) | "1" => Some (Init.Decimal.D1 u)
  | "2" => Some (Init.Decimal.D2 u) | "3" => Some (Init.Decimal.D3 u)
  | "4" => Some (Init.Decimal.D4 u) | "5" => Some (Init.Decimal.D5 u)
  | "6" => Some (Init.Decimal.D6 u) | "7" => Some (Init.Decimal.D7 u)
  | "8" => Some (Init.Decimal.D8 u) | "9" => Some (Init.Decimal.D9 u)
  | _ => None
  end%char.

Fixpoint chars_uint (l : list ascii) : option Init.Decimal.uint :=
  match l with
  | [] => Some Init.Decimal.Nil
  | c :: l' => match chars_uint l' with
               | Some u => cons_digit c u
               | None => None
               end
  end.

(** [str(n)] for a non-negative [int]: the [_int] field of a [Decimal]. *)
Definition digits_of_N (n : N) : list ascii := uint_chars (N.to_uint n).

(** [int(s)] for a string of digits. *)
Definition N_of_digits (l : list ascii) : option N :=
  match chars_uint l with
  | Some u => Some (N.of_uint u)
  | None => None
  end.

(** The longest prefix of digits, and what follows it. *)
Fixpoint span_digits (l : list ascii) : list ascii * list ascii :=
  match l with
  | c :: l' =>
      if is_digit c then let '(ds, r) := span_digits l' in (c :: ds, r)
      else ([], l)
  | [] => ([], [])
  end.

(** [str(z)] for an [int]. *)
Definition int_chars (z : Z) : list ascii :=
  if z <? 0 then "-"%char :: digits_of_N (Z.abs_N z) else digits_of_N (Z.abs_N z).

(** ["%+d" % z]. *)
Definition signed_chars (z : Z) : list ascii :=
  (if z <? 0 then "-"%char else "+"%char) :: digits_of_N (Z.abs_N z).

(** [Decimal.__str__]: scientific notation of the General Decimal Arithmetic
    specification. *)
Definition Decimal_chars (d : Decimal) : list ascii :=
  let digits := digits_of_N (d_int d) in
  let len := Z.of_nat (length digits) in
  let leftdigits := d_exp d + len in
  let dotplace :=
    if (d_exp d <=? 0) && (-6 <? leftdigits) then leftdigits else 1 in
  let intpart :=
    if dotplace <=? 0 then ["0"%char]
    else if len <=? dotplace
         then digits ++ replicate (Z.to_nat (dotplace - len)) "0"%char
         else take (Z.to_nat dotplace) digits in
  let fracpart :=
    if dotplace <=? 0
    then "."%char :: replicate (Z.to_nat (- dotplace)) "0"%char ++ digits
    else if len <=? dotplace then []
         else "."%char :: drop (Z.to_nat dotplace) digits in
  let exp :=
    if leftdigits =? dotplace then []
    else "E"%char :: signed_chars (leftdigits - dotplace) in
  (if d_sign d then ["-"%char] else []) ++ intpart ++ fracpart ++ exp.

Definition Decimal_str (d : Decimal) : string :=
  string_of_list_ascii (Decimal_chars d).

(** An optional sign in front of a numeral: whether it is a minus, and what
    follows it. *)
Definition strip_sign (l : list ascii) : bool * list ascii :=
  match l with
  | c :: r =>
      if Ascii.eqb c "-"%char then (true, r)
      else if Ascii.eqb c "+"%char then (false, r)
      else (false, l)
  | [] => (false, [])
  end.

(** [int(s)] for an optional sign and at least one digit. *)
Definition Z_of_chars (l : list ascii) : option Z :=
  let '(neg, ds) := strip_sign l in
  match ds with
  | [] => None
  | _ => match N_of_digits ds with
         | Some n => Some (if neg then - Z.of_N n else Z.of_N n)
         | None => None
         end
  end.

(** The exponent part of a numeric string: nothing, or [E] (either case), an
    optional sign and at least one digit, up to the end of the string. *)
Definition parse_exponent (l : list ascii) : option Z :=
  match l with
  | [] => Some 0
  | c :: r =>
      if Ascii.eqb c "E"%char || Ascii.eqb c "e"%char then Z_of_chars r
      else None
  end.

(** [Decimal(s)] for a string: the finite-number branch of the constructor's
    grammar, an optional sign, digits with an optional point (at least one
    digit in all) and an optional exponent.  [None] stands for
    [InvalidOperation].  The constructor is exact: it does not round to the
    context precision.  Blanks around the number and underscores inside it,
    which the constructor drops, are in no string the bot writes and are not
    accepted here. *)
Definition Decimal_of_chars (l : list ascii) : option Decimal :=
  let '(sign, r) := strip_sign l in
  let '(intpart, r1) := span_digits r in
  let '(fracpart, r2) :=
    match r1 with
    | c :: r1' => if Ascii.eqb c "."%char then span_digits r1' else ([], r1)
    | [] => ([], r1)
    end in
  match intpart, fracpart with
  | [], [] => None
  | _, _ =>
      match N_of_digits (intpart ++ fracpart), parse_exponent r2 with
      | Some n, Some e => Some (mkDecimal sign n (e - Z.of_nat (length fracpart)))
      | _, _ => None
      end
  end.

Definition Decimal_of_string (s : string) : option Decimal :=
  Decimal_of_chars (list_ascii_of_string s).

End decimal.

Import decimal.

(** ** persistent_state.py *)

Module persistent_state.

(** A UTC timestamp ([datetime] or [pd.Timestamp]), represented by the text
    its [isoformat()] gives. *)
Record Timestamp : Type := mkTimestamp { isoformat : string }.

(** The Python values that trade payloads and the state file hold.  A [dict]
    has string keys.  Binary floats do not occur in them. *)
Inductive pyval : Type :=
| PNone
| PBool (b : bool)
| PInt (z : Z)
| PStr (s : string)
| PDec (d : Decimal)
| PTs (t : Timestamp)
| PList (l : list pyval)
| PDict (m : gmap string pyval).

Definition is_None (v : pyval) : bool :=
  match v with PNone => true | _ => false end.

Definition is_dict (v : pyval) : bool :=
  match v with PDict _ => true | _ => false end.

(** Truthiness ([if v:], [not v]). *)
Definition truthy (v : pyval) : bool :=
  match v with
  | PNone => false
  | PBool b => b
  | PInt z => negb (z =? 0)
  | PStr s => negb (String.eqb s "")
  | PDec d => Decimal_bool d
  | PTs _ => true
  | PList l => match l with [] => false | _ => true end
  | PDict m => negb (bool_decide (m = ∅))
  end.

(** [d.get(key)] on a value that is a [dict]: [None] when the key is absent. *)
Definition dict_get (m : gmap string pyval) (key : string) : pyval :=
  default PNone (m !! key).

(** [d.get(key, dflt)]. *)
Definition dict_get_default (m : gmap string pyval) (key : string) (dflt : pyval) : pyval :=
  default dflt (m !! key).

(** [convert_to_json_serializable]: recursively turn [Decimal] values into
    [str(obj)] and timestamps into [obj.isoformat()]. *)
Fixpoint convert_to_json_serializable (obj : pyval) : pyval :=
  match obj with
  | PList l => PList (map convert_to_json_serializable l)
  | PDict m => PDict (convert_to_json_serializable <$> m)
  | PDec d => PStr (Decimal_str d)
  | PTs t => PStr (isoformat t)
  | _ => obj
  end.

(** [Decimal(str(value))].  [str] of a [bool], of [None], of a timestamp
    (date and time separated by a blank), of a [list] or of a [dict] is not a
    numeric string. *)
Definition Decimal_of_str_of (value : pyval) : option Decimal :=
  match value with
  | PStr s => Decimal_of_string s
  | PDec d => Decimal_of_string (Decimal_str d)
  | PInt z => Decimal_of_chars (int_chars z)
  | _ => None
  end.

(** [value != Decimal('0')]: numeric for a [Decimal], an [int] or a [bool],
    true for any other type. *)
Definition ne_Decimal_0 (value : pyval) : bool :=
  match value with
  | PDec d => Decimal_ne d Decimal_0
  | PInt z => negb (z =? 0)
  | PBool b => b
  | _ => true
  end.

(** The object: the two dictionaries, and the document held by the file at
    [self.filepath] ([None]: no file).  A file is identified with the JSON
    document in it: [json.load] gives back what [json.dump] wrote. *)
Record PersistentState : Type := mkPersistentState {
  active_trades : gmap string pyval;
  accumulated_losses : gmap string pyval;
  state_file : option pyval
}.

Definition with_file (st : PersistentState) (f : option pyval) : PersistentState :=
  mkPersistentState (active_trades st) (accumulated_losses st) f.

(** The document [save_state] dumps. *)
Definition state_to_save (st : PersistentState) : pyval :=
  let serializable_trades :=
    convert_to_json_serializable <$>
      filter (λ kv, is_None kv.2 = false) (active_trades st) in
  let serializable_accumulated_losses :=
    convert_to_json_serializable (PDict (accumulated_losses st)) in
  PDict (<["active_trades" := PDict serializable_trades]>
         (<["accumulated_losses" := serializable_accumulated_losses]> ∅)).

Definition save_state (st : PersistentState) : PersistentState :=
  with_file st (Some (state_to_save st)).

(** The dictionary comprehension of [load_state] over the saved losses;
    [None] when some [Decimal(str(value))] raises. *)
Definition load_accumulated_losses (m : gmap string pyval) : option (gmap string pyval) :=
  if bool_decide (map_Forall (λ _ v, is_None v = true ∨ is_Some (Decimal_of_str_of v)) m)
  then Some (omap (λ v, if is_None v then None else PDec <$> Decimal_of_str_of v) m)
  else None.

(** [load_state]: the two dictionaries read from the file.  Any exception
    leaves both empty. *)
Definition load_state (file : option pyval) : PersistentState :=
  let empty := mkPersistentState ∅ ∅ file in
  match file with
  | None => empty
  | Some (PDict data) =>
      let loaded_active_trades := dict_get_default data "active_trades" (PDict ∅) in
      let trades := match loaded_active_trades with PDict m => m | _ => ∅ end in
      match dict_get_default data "accumulated_losses" (PDict ∅) with
      | PDict losses =>
          match load_accumulated_losses losses with
          | Some m => mkPersistentState trades m file
          | None => empty
          end
      | _ => mkPersistentState trades ∅ file
      end
  | Some _ => empty
  end.

(** [PersistentState(filepath)]. *)
Definition init (file : option pyval) : PersistentState := load_state file.

Definition valid_key (trade_key : string) : bool := negb (String.eqb trade_key "").

Definition set_active_trade (st : PersistentState) (trade_key : string)
    (trade_details_dict : pyval) : PersistentState :=
  if valid_key trade_key then
    save_state (mkPersistentState (<[trade_key := trade_details_dict]> (active_trades st))
                                  (accumulated_losses st) (state_file st))
  else st.

Definition clear_active_trade (st : PersistentState) (trade_key : string) : PersistentState :=
  if valid_key trade_key then
    let trade_to_clear := dict_get (active_trades st) trade_key in
    let st' := mkPersistentState (delete trade_key (active_trades st))
                                 (accumulated_losses st) (state_file st) in
    if truthy trade_to_clear then save_state st' else st'
  else st.

Definition get_active_trade (st : PersistentState) (trade_key : string) : pyval :=
  if valid_key trade_key then dict_get (active_trades st) trade_key else PNone.

Definition is_side_busy (st : PersistentState) (trade_key : string) : bool :=
  negb (is_None (get_active_trade st trade_key)).

Definition get_accumulated_loss (st : PersistentState) (symbol_key : string) : Decimal :=
  if valid_key symbol_key then
    let loss_str := dict_get (accumulated_losses st) symbol_key in
    if is_None loss_str then Decimal_0
    else match Decimal_of_str_of loss_str with
         | Some d => d
         | None => Decimal_0
         end
  else Decimal_0.

Definition update_accumulated_loss (st : PersistentState) (symbol_key : string)
    (additional_loss_amount : Decimal) : PersistentState :=
  if valid_key symbol_key then
    let additional_loss_amount :=
      if Decimal_lt additional_loss_amount Decimal_0
      then Decimal_abs additional_loss_amount else additional_loss_amount in
    let current_loss := get_accumulated_loss st symbol_key in
    let new_total_loss := Decimal_add current_loss additional_loss_amount in
    save_state (mkPersistentState (active_trades st)
                  (<[symbol_key := PDec new_total_loss]> (accumulated_losses st))
                  (state_file st))
  else st.

Definition reset_accumulated_loss (st : PersistentState) (symbol_key : string) : PersistentState :=
  if valid_key symbol_key then
    match accumulated_losses st !! symbol_key with
    | Some v =>
        if ne_Decimal_0 v then
          save_state (mkPersistentState (active_trades st)
                        (<[symbol_key := PDec Decimal_0]> (accumulated_losses st))
                        (state_file st))
        else st
    | None =>
        save_state (mkPersistentState (active_trades st)
                      (<[symbol_key := PDec Decimal_0]> (accumulated_losses st))
                      (state_file st))
    end
  else st.

End persistent_state.

Import persistent_state.

(** ** Exceptions and effects *)

Module effects.

Inductive exception : Type :=
| InvalidOperation
| KeyError
| TypeError
| ValueError
| AttributeError.

(** The outcome of a Python expression: a value, or an exception. *)
Inductive result (A : Type) : Type :=
| Returned (a : A)
| Raised (e : exception).
Arguments Returned {A} a.
Arguments Raised {A} e.

#[export] Instance result_ret : MRet result := λ A a, Returned a.
#[export] Instance result_bind : MBind result := λ A B f r,
  match r with
  | Returned a => f a
  | Raised e => Raised e
  end.

(** [try: r except Exception: dflt]. *)
Definition try_except {A : Type} (r : result A) (dflt : A) : A :=
  match r with Returned a => a | Raised _ => dflt end.

(** [d[key]]. *)
Definition getitem (d : gmap string pyval) (key : string) : result pyval :=
  match d !! key with
  | Some v => Returned v
  | None => Raised KeyError
  end.

(** [Decimal(value)].  A [list] converts only when it is a triple of a sign,
    digits and an exponent; the payloads hold no such value, and the model
    raises for every list. *)
Definition Decimal_of_value (value : pyval) : result Decimal :=
  match value with
  | PStr s => match Decimal_of_string s with
              | Some d => Returned d
              | None => Raised InvalidOperation
              end
  | PDec d => Returned d
  | PInt z => Returned (Decimal_of_Z z)
  | PBool b => Returned (Decimal_of_Z (if b then 1 else 0))
  | PList _ => Raised ValueError
  | _ => Raised TypeError
  end.

(** [int(value)] for an order id: an [int], a [bool], or a string of digits
    with an optional sign. *)
Definition int_of_value (value : pyval) : result Z :=
  match value with
  | PInt z => Returned z
  | PBool b => Returned (if b then 1 else 0)
  | PDec d => Returned (signed_int (to_integral_value_ROUND_DOWN d) * 10 ^ d_exp (to_integral_value_ROUND_DOWN d))
  | PStr s =>
      match Z_of_chars (list_ascii_of_string s) with
      | Some z => Returned z
      | None => Raised ValueError
      end
  | _ => Raised TypeError
  end.

(** [value == text] for a string literal. *)
Definition eq_str (value : pyval) (text : string) : bool :=
  match value with PStr s => String.eqb s text | _ => false end.

End effects.

Import effects.

(** ** trade_manager.py *)

Module trade_manager.

(** The entry of [symbol_info_cache] for the manager's symbol. *)
Record SymbolInfo : Type := mkSymbolInfo {
  pricePrecision : Z;
  quantityPrecision : Z;
  quoteAsset : string;
  minQty : Decimal;
  stepSize : Decimal;
  minNotional : Decimal;
  tickSize : Decimal
}.

(** [Client.SIDE_BUY], [Client.SIDE_SELL]. *)
Inductive order_side : Type := SIDE_BUY | SIDE_SELL.

(** What [get_trade_closure_details] (binance_utils.py) returns. *)
Record ClosureDetails : Type := mkClosureDetails {
  realized_pnl : Decimal;
  avg_close_price : Decimal;
  closed_quantity : Decimal;
  commission_asset : string
}.

(** A [TradeManager] seen from its callers: the cached symbol information,
    and what each exchange-facing method answers to its arguments during one
    call of a manager function. *)
Record TradeManager : Type := mkTradeManager {
  get_symbol_info_data : option SymbolInfo;
  get_current_market_price : option Decimal;
  market_order_answer : order_side → Decimal → bool → pyval → option (gmap string pyval);
  stop_loss_answer : order_side → Decimal → option (gmap string pyval);
  take_profit_answer : order_side → Decimal → option (gmap string pyval);
  check_order_status : pyval → option (gmap string pyval);
  cancel_answer : pyval → bool;
  fetch_trade_closure_details : Z → Decimal → Decimal → pyval → option ClosureDetails;
  fetch_account_balance : string → option Decimal;
  get_active_position : pyval → option (gmap string pyval)
}.

(** The requests that change something at the exchange. *)
Inductive exchange_call : Type :=
| PlaceMarketOrder (side : order_side) (quantity : Decimal) (reduce_only : bool)
    (position_side_for_hedge : pyval)
| PlaceStopLossOrder (position_asset_side : order_side) (sl_price : Decimal)
| PlaceTakeProfitOrder (position_asset_side : order_side) (tp_price : Decimal)
| CancelOrderIfOpen (order_id : pyval).

(** [adjust_price_to_tick_size]. *)
Definition adjust_price_to_tick_size (tm : TradeManager) (price : Decimal) : Decimal :=
  match get_symbol_info_data tm with
  | None => price
  | Some s_info =>
      let tick_size := tickSize s_info in
      if Decimal_le tick_size Decimal_0 then price
      else
        let num_decimals := Z.abs (d_exp tick_size) in
        let adjusted_price := Decimal_mul (div_to_integral_ROUND_DOWN price tick_size) tick_size in
        quantize adjusted_price (- num_decimals)
  end.

(** [adjust_quantity_to_step_size]. *)
Definition adjust_quantity_to_step_size (tm : TradeManager) (quantity : Decimal)
    : option Decimal :=
  match get_symbol_info_data tm with
  | None => None
  | Some s_info =>
      let step_size := stepSize s_info in
      let min_qty := minQty s_info in
      if Decimal_lt step_size Decimal_0 then None
      else if Decimal_lt quantity min_qty then None
      else
        let adjusted_quantity :=
          if Decimal_eq step_size Decimal_0
          then to_integral_value_ROUND_DOWN quantity
          else Decimal_mul (div_to_integral_ROUND_DOWN quantity step_size) step_size in
        if Decimal_lt adjusted_quantity min_qty then None
        else Some adjusted_quantity
  end.

End trade_manager.

Import trade_manager.

(** ** The state and exchange effects of the manager functions *)

Module bot.

(** A computation that may change the persistent state, sends requests to the
    exchange and returns or raises.  Changes made before an exception stay. *)
Definition M (A : Type) : Type :=
  PersistentState → result A * PersistentState * list exchange_call.

#[export] Instance M_ret : MRet M := λ A a st, (Returned a, st, []).
#[export] Instance M_bind : MBind M := λ A B f m st,
  match m st with
  | (Returned a, st', calls) =>
      let '(r, st'', calls') := f a st' in (r, st'', calls ++ calls')
  | (Raised e, st', calls) => (Raised e, st', calls)
  end.

Definition lift {A : Type} (r : result A) : M A := λ st, (r, st, []).
Definition call (c : exchange_call) : M unit := λ st, (Returned tt, st, [c]).
Definition gets {A : Type} (f : PersistentState → A) : M A := λ st, (Returned (f st), st, []).
Definition modify (f : PersistentState → PersistentState) : M unit :=
  λ st, (Returned tt, f st, []).

(** The exchange-facing methods of [TradeManager]: the request is recorded
    and the manager's answer returned. *)
Definition place_market_order (tm : TradeManager) (side : order_side) (quantity : Decimal)
    (reduce_only : bool) (position_side_for_hedge : pyval) : M (option (gmap string pyval)) :=
  _ ← call (PlaceMarketOrder side quantity reduce_only position_side_for_hedge);
  mret (market_order_answer tm side quantity reduce_only position_side_for_hedge).

Definition place_stop_loss_order (tm : TradeManager) (position_asset_side : order_side)
    (sl_price : Decimal) : M (option (gmap string pyval)) :=
  _ ← call (PlaceStopLossOrder position_asset_side sl_price);
  mret (stop_loss_answer tm position_asset_side sl_price).

Definition place_take_profit_order (tm : TradeManager) (position_asset_side : order_side)
    (tp_price : Decimal) : M (option (gmap string pyval)) :=
  _ ← call (PlaceTakeProfitOrder position_asset_side tp_price);
  mret (take_profit_answer tm position_asset_side tp_price).

Definition cancel_order_if_open (tm : TradeManager) (order_id : pyval) : M bool :=
  _ ← call (CancelOrderIfOpen order_id);
  mret (cancel_answer tm order_id).

(** [resp and resp.get('orderId')]: an answer that carries an order id. *)
Definition has_order_id (resp : option (gmap string pyval)) : bool :=
  match resp with
  | Some d => truthy (PDict d) && truthy (dict_get d "orderId")
  | None => false
  end.

(** An [Optional[dict]] as a stored value. *)
Definition opt_dict (o : option (gmap string pyval)) : pyval :=
  match o with Some d => PDict d | None => PNone end.

End bot.

Import bot.

(** ** bb_signal_utils.py *)

Module bb_signal_utils.

(** The dictionary [validate_and_calculate_trade_params] returns. *)
Record trade_params : Type := mkTradeParams {
  p_timestamp : Timestamp;
  p_entry : Decimal;
  p_sl : Decimal;
  p_tp : Decimal;
  p_signal_type : string
}.

(** [validate_and_calculate_trade_params].  [rr_multiplier_val] is
    [Decimal(str(risk_reward_multiplier))]; the target monetary risk is only
    logged.  [None] is the function's [return None]. *)
Definition validate_and_calculate_trade_params
    (signal_type_str : string)
    (entry_price_target stop_loss_price_ref : Decimal)
    (timestamp_of_signal : Timestamp)
    (tm : TradeManager)
    (calculated_trade_quantity : option Decimal)
    (rr_multiplier_val : Decimal) : option trade_params :=
  let actual_sl_price := stop_loss_price_ref in
  match calculated_trade_quantity with
  | None => None
  | Some quantity =>
  if negb (Decimal_bool quantity) || Decimal_le quantity Decimal_0 then None
  else
    let sl_is_valid_vs_entry :=
      if String.eqb signal_type_str "COMPRA" then Decimal_lt actual_sl_price entry_price_target
      else if String.eqb signal_type_str "VENTA" then Decimal_gt actual_sl_price entry_price_target
      else false in
    if negb sl_is_valid_vs_entry then None
    else
      let risk_per_unit := Decimal_abs (Decimal_sub entry_price_target actual_sl_price) in
      let min_tick_size :=
        match get_symbol_info_data tm with
        | Some s_info_local => tickSize s_info_local
        | None => mkDecimal false 1 (-8)
        end in
      if Decimal_lt risk_per_unit min_tick_size then None
      else
        let tp_price_calculated :=
          if String.eqb signal_type_str "COMPRA"
          then Some (Decimal_add entry_price_target (Decimal_mul rr_multiplier_val risk_per_unit))
          else if String.eqb signal_type_str "VENTA"
          then Some (Decimal_sub entry_price_target (Decimal_mul rr_multiplier_val risk_per_unit))
          else None in
        match tp_price_calculated with
        | None => None
        | Some tp_price_calculated =>
            let adjusted_tp_price := adjust_price_to_tick_size tm tp_price_calculated in
            let tp_is_valid_vs_entry :=
              if String.eqb signal_type_str "COMPRA"
              then Decimal_gt adjusted_tp_price entry_price_target
              else if String.eqb signal_type_str "VENTA"
              then Decimal_lt adjusted_tp_price entry_price_target
              else false in
            if negb tp_is_valid_vs_entry then None
            else Some (mkTradeParams timestamp_of_signal entry_price_target
                         actual_sl_price adjusted_tp_price signal_type_str)
        end
  end.

End bb_signal_utils.

Import bb_signal_utils.

(** ** The market-data provider, as its readers see it *)

Module websocket_data_provider.

(** A row of the candle table: its index (the open time, UTC) and its close. *)
Record Candle : Type := mkCandle {
  name : Timestamp;
  close : Decimal
}.

(** What the provider answers for a symbol and an interval: the candle table
    ([None] or empty when there is no data), the bands of the last closed
    candle ([None] when unavailable; a band may be absent or [None]), and one
    band by name. *)
Record WebsocketDataProvider : Type := mkWebsocketDataProvider {
  get_dataframe : string → string → option (list Candle);
  get_contextual_bollinger_bands : string → string → option (gmap string (option Decimal));
  get_specific_contextual_band_value : string → string → string → option Decimal
}.

(** [str(v)] for a band value that may be [None]. *)
Definition str_of_band (v : option Decimal) : string :=
  match v with Some d => Decimal_str d | None => "None" end.

End websocket_data_provider.

Import websocket_data_provider.

(** ** BB_buy.py *)

Module BB_buy.

(** The dictionary of raw signal components. *)
Record raw_signal_components : Type := mkRawSignal {
  signal_detected : bool;
  entry_price_target : Decimal;
  stop_loss_price_ref : Decimal;
  timestamp_of_signal_utc : Timestamp;
  signal_type : string;
  current_price_trigger_interval : Decimal;
  bbm_orig_main_tf : Decimal;
  bbl_orig_main_tf : Decimal
}.



End BB_buy.

Import BB_buy.

(** ** signal_processor.py *)

Module signal_processor.

(** The outcome of the risk and quantity derivation of one loop iteration
    (lines 119-200 of [process_signals_and_initiate_trade]): the base risk,
    the effective risk and the quantity it leads to, each possibly [None].
    The derivation divides amounts; what follows it does not. *)
Record sizing : Type := mkSizing {
  R_base_monetary_risk : option Decimal;
  effective_target_monetary_risk : option Decimal;
  calculated_trade_quantity : option Decimal
}.

(** "Validar y Ajustar Cantidad Calculada": the quantity the iteration goes
    on with, or [None] when it [continue]s. *)
Definition final_adjusted_quantity (tm : TradeManager) (s_info : SymbolInfo)
    (entry_price_target : Decimal) (calculated_trade_quantity : option Decimal)
    : option Decimal :=
  let min_notional_symbol := minNotional s_info in
  let min_qty_symbol := minQty s_info in
  match calculated_trade_quantity with
  | None => None
  | Some quantity =>
      if negb (Decimal_bool quantity) || Decimal_le quantity Decimal_0 then None
      else
        match adjust_quantity_to_step_size tm quantity with
        | None => None
        | Some final_adjusted_quantity =>
            if negb (Decimal_bool final_adjusted_quantity)
               || Decimal_le final_adjusted_quantity Decimal_0 then None
            else if Decimal_lt final_adjusted_quantity min_qty_symbol then None
            else
              let notional_value := Decimal_mul final_adjusted_quantity entry_price_target in
              if Decimal_lt notional_value min_notional_symbol then None
              else Some final_adjusted_quantity
        end
  end.

(** [str(x)] for an [Optional[Decimal]]. *)
Definition str_opt (x : option Decimal) : string :=
  match x with Some d => Decimal_str d | None => "None" end.

(** [str(bands.get(key))]. *)
Definition str_band_get (bands : gmap string (option Decimal)) (key : string) : string :=
  match bands !! key with Some v => str_of_band v | None => "None" end.

(** The payload of a new slot (lines 250-283). *)
Definition initial_trade_details (st : PersistentState) (wdp : option WebsocketDataProvider)
    (current_time_utc : Timestamp) (leverage : Z)
    (symbol interval_principal_str signal_type_str state_key : string)
    (stop_loss_price_ref : Decimal) (sz : sizing)
    (validated_trade_params : trade_params) (final_adjusted_quantity : Decimal)
    : gmap string pyval :=
  let bands_5m_ctx :=
    match wdp with
    | Some wdp =>
        match get_contextual_bollinger_bands wdp symbol interval_principal_str with
        | Some bands => if bool_decide (bands = ∅) then None else Some bands
        | None => None
        end
    | None => None
    end in
  let band key :=
    match bands_5m_ctx with
    | Some bands => str_band_get bands key
    | None => "None"%string
    end in
  list_to_map [
    ("status", PStr "PENDING_DYNAMIC_LIMIT");
    ("symbol", PStr symbol);
    ("signal_type", PStr signal_type_str);
    ("position_side_hedge_mode",
       PStr (if String.eqb signal_type_str "BUY" then "LONG" else "SHORT"));
    ("target_entry_price", PStr (Decimal_str (p_entry validated_trade_params)));
    ("target_sl_price", PStr (Decimal_str (p_sl validated_trade_params)));
    ("target_tp_price", PStr (Decimal_str (p_tp validated_trade_params)));
    ("quantity", PStr (Decimal_str final_adjusted_quantity));
    ("leverage", PInt leverage);
    ("timestamp_signal_iso", PStr (isoformat (p_timestamp validated_trade_params)));
    ("last_1m_update_timestamp_iso", PStr (isoformat current_time_utc));
    ("last_5m_bb_update_timestamp_iso", PStr (isoformat current_time_utc));
    ("current_entry_order_id", PNone);
    ("entry_order_response_initial", PNone);
    ("gate_band_5m_lower_str", PStr (band "BBL_new"));
    ("gate_band_5m_upper_str", PStr (band "BBU_new"));
    ("pre_check_bbl_orig_primary_str", PStr (band "BBL_orig"));
    ("pre_check_bbu_orig_primary_str", PStr (band "BBU_orig"));
    ("pre_check_bbm_15m_str", PStr (Decimal_str stop_loss_price_ref));
    ("gating_bbm_orig_5m_str", PStr (band "BBM_orig"));
    ("target_monetary_risk_trade",
       PStr (match effective_target_monetary_risk sz with
             | Some r => Decimal_str r
             | None => str_opt (R_base_monetary_risk sz)
             end));
    ("accumulated_loss_at_entry", PStr (Decimal_str (get_accumulated_loss st state_key)))
  ].

(** One iteration of the loop over [("BUY", symbol_LONG)] and
    [("SELL", symbol_SHORT)], for a symbol whose information [s_info] could be
    fetched.  [raw_signal_components] is what the evaluator of that side
    returned, [sizing_outcome] what the risk and quantity derivation gave
    ([None] when the derivation itself [continue]s). *)
Definition process_side (st : PersistentState) (tm : TradeManager) (s_info : SymbolInfo)
    (wdp : option WebsocketDataProvider) (current_time_utc : Timestamp) (leverage : Z)
    (rrr_multiplier_global : Decimal)
    (symbol interval_principal_str signal_type_str state_key : string)
    (raw_signal : option raw_signal_components) (sizing_outcome : option sizing)
    : PersistentState :=
  if is_side_busy st state_key then st
  else
    match raw_signal, sizing_outcome with
    | Some raw, Some sz =>
        if negb (signal_detected raw) then st
        else
          let actual_sl_to_use_for_trade := stop_loss_price_ref raw in
          match final_adjusted_quantity tm s_info (entry_price_target raw)
                  (calculated_trade_quantity sz) with
          | None => st
          | Some quantity =>
              match validate_and_calculate_trade_params signal_type_str
                      (entry_price_target raw) actual_sl_to_use_for_trade
                      (timestamp_of_signal_utc raw) tm (Some quantity)
                      rrr_multiplier_global with
              | Some validated_trade_params =>
                  set_active_trade st state_key
                    (PDict (initial_trade_details st wdp current_time_utc leverage symbol
                              interval_principal_str signal_type_str state_key
                              (stop_loss_price_ref raw) sz validated_trade_params quantity))
              | None => st
              end
          end
    | _, _ => st
    end.

(** [process_signals_and_initiate_trade]: both sides in turn, from what the
    two evaluators and the two derivations gave. *)
Definition process_signals_and_initiate_trade (st : PersistentState) (tm : TradeManager)
    (wdp : option WebsocketDataProvider) (current_time_utc : Timestamp) (leverage : Z)
    (rrr_multiplier_global : Decimal) (symbol interval_principal_str : string)
    (raw_buy raw_sell : option raw_signal_components)
    (sz_buy sz_sell : option sizing) : PersistentState :=
  match get_symbol_info_data tm with
  | None => st
  | Some s_info =>
      let st1 := process_side st tm s_info wdp current_time_utc leverage
                   rrr_multiplier_global symbol interval_principal_str
                   "BUY" (symbol ++ "_LONG") raw_buy sz_buy in
      process_side st1 tm s_info wdp current_time_utc leverage
        rrr_multiplier_global symbol interval_principal_str
        "SELL" (symbol ++ "_SHORT") raw_sell sz_sell
  end.

End signal_processor.

Import signal_processor.

(** ** pending_order_manager.py *)

Module pending_order_manager.

(** [_handle_emergency_close].  Returns the pair [(trade, True)]. *)
Definition _handle_emergency_close (trade_details_for_side : gmap string pyval)
    (side_being_managed : string) (tm : TradeManager) : M (pyval * bool) :=
  quantity_to_close ← lift (q ← getitem trade_details_for_side "quantity"; Decimal_of_value q);
  signal_type_to_close ← lift (getitem trade_details_for_side "signal_type");
  let market_close_side :=
    if eq_str signal_type_to_close "BUY" then SIDE_SELL else SIDE_BUY in
  let position_side_config_to_close :=
    dict_get trade_details_for_side "position_side_hedge_mode" in
  close_order_response ← place_market_order tm market_close_side quantity_to_close true
                            position_side_config_to_close;
  _ ← modify (λ bot_state, clear_active_trade bot_state side_being_managed);
  trade ← gets (λ bot_state, get_active_trade bot_state side_being_managed);
  mret (trade, true).

(** The actual entry price of step 1 of [_process_filled_order]: the average
    fill price when it is a positive number, else the stored target, else
    zero.  Both conversions sit in [try ... except Exception]. *)
Definition calculated_actual_entry_price (trade_details_for_side entry_order_info : gmap string pyval)
    : Decimal :=
  let avg_price_str := dict_get entry_order_info "avgPrice" in
  let from_avg :=
    if truthy avg_price_str then
      match Decimal_of_value avg_price_str with
      | Returned price_from_avg =>
          if Decimal_gt price_from_avg Decimal_0 then price_from_avg else Decimal_0
      | Raised _ => Decimal_0
      end
    else Decimal_0 in
  if Decimal_le from_avg Decimal_0 then
    try_except (v ← getitem trade_details_for_side "target_entry_price"; Decimal_of_value v)
      Decimal_0
  else from_avg.

(** Step 2 of [_process_filled_order]: validate and place the stop loss.
    Returns the answer to the placement, if one was made, and whether it
    succeeded. *)
Definition place_sl_after_fill (tm : TradeManager) (signal_type target_sl_price_str : pyval)
    (actual_entry_price : Decimal) (position_asset_side_for_sl_tp : order_side)
    : M (option (gmap string pyval) * bool) :=
  if truthy target_sl_price_str then
    sl_price_decimal ← lift (Decimal_of_value target_sl_price_str);
    let sl_is_valid_vs_entry :=
      (eq_str signal_type "BUY" && Decimal_lt sl_price_decimal actual_entry_price)
      || (eq_str signal_type "SELL" && Decimal_gt sl_price_decimal actual_entry_price) in
    if sl_is_valid_vs_entry then
      let current_market_price := get_current_market_price tm in
      match current_market_price with
      | Some market =>
          if Decimal_bool market then
            let sl_is_safe_to_place_market :=
              (eq_str signal_type "BUY" && Decimal_gt market sl_price_decimal)
              || (eq_str signal_type "SELL" && Decimal_lt market sl_price_decimal) in
            if sl_is_safe_to_place_market then
              sl_order_response_placed ←
                place_stop_loss_order tm position_asset_side_for_sl_tp sl_price_decimal;
              mret (sl_order_response_placed, has_order_id sl_order_response_placed)
            else mret (None, false)
          else mret (None, false)
      | None => mret (None, false)
      end
    else mret (None, false)
  else mret (None, false).

(** Step 4: the take profit, best effort. *)
Definition place_tp_after_fill (tm : TradeManager) (signal_type target_tp_price_str : pyval)
    (actual_entry_price : Decimal) (position_asset_side_for_sl_tp : order_side)
    : M (option (gmap string pyval)) :=
  if truthy target_tp_price_str then
    tp_price_decimal ← lift (Decimal_of_value target_tp_price_str);
    let tp_is_valid_vs_entry :=
      (eq_str signal_type "BUY" && Decimal_gt tp_price_decimal actual_entry_price)
      || (eq_str signal_type "SELL" && Decimal_lt tp_price_decimal actual_entry_price) in
    if tp_is_valid_vs_entry
    then place_take_profit_order tm position_asset_side_for_sl_tp tp_price_decimal
    else mret None
  else mret None.

(** [_process_filled_order]. *)
Definition _process_filled_order (trade_details_for_side : gmap string pyval)
    (side_being_managed : string) (entry_order_info : gmap string pyval)
    (tm : TradeManager) : M (pyval * bool) :=
  let actual_entry_price :=
    calculated_actual_entry_price trade_details_for_side entry_order_info in
  if Decimal_le actual_entry_price Decimal_0 then
    _handle_emergency_close trade_details_for_side side_being_managed tm
  else
    target_sl_price_str ← lift (getitem trade_details_for_side "target_sl_price");
    target_tp_price_str ← lift (getitem trade_details_for_side "target_tp_price");
    quantity ← lift (q ← getitem trade_details_for_side "quantity"; Decimal_of_value q);
    signal_type ← lift (getitem trade_details_for_side "signal_type");
    let position_asset_side_for_sl_tp :=
      if eq_str signal_type "BUY" then SIDE_BUY else SIDE_SELL in
    '(sl_order_response_placed, sl_placement_successful) ←
      place_sl_after_fill tm signal_type target_sl_price_str actual_entry_price
        position_asset_side_for_sl_tp;
    if negb sl_placement_successful then
      _handle_emergency_close trade_details_for_side side_being_managed tm
    else
      tp_order_response_placed ←
        place_tp_after_fill tm signal_type target_tp_price_str actual_entry_price
          position_asset_side_for_sl_tp;
      symbol ← lift (getitem trade_details_for_side "symbol");
      quantity_str ← lift (getitem trade_details_for_side "quantity");
      let final_trade_details : gmap string pyval :=
        list_to_map [
          ("status", PStr "POSITION_OPEN");
          ("symbol", symbol);
          ("side", signal_type);
          ("quantity", quantity_str);
          ("entry_price_actual", PStr (Decimal_str actual_entry_price));
          ("entry_order_response", PDict entry_order_info);
          ("sl_order_response", opt_dict sl_order_response_placed);
          ("tp_order_response", opt_dict tp_order_response_placed);
          ("position_side_hedge_mode",
             dict_get trade_details_for_side "position_side_hedge_mode")
        ] in
      _ ← modify (λ bot_state,
                    set_active_trade bot_state side_being_managed (PDict final_trade_details));
      trade ← gets (λ bot_state, get_active_trade bot_state side_being_managed);
      mret (trade, true).

End pending_order_manager.

Import pending_order_manager.

(** ** position_manager.py *)

Module position_manager.

(** [details.get("orderId") if isinstance(details, dict) else None]. *)
Definition order_id_of (details : pyval) : pyval :=
  match details with PDict d => dict_get d "orderId" | _ => PNone end.

(** [info and info.get('status') == text]. *)
Definition status_is (info : option (gmap string pyval)) (text : string) : bool :=
  match info with
  | Some d => truthy (PDict d) && eq_str (dict_get d "status") text
  | None => false
  end.

(** [info and info.get('status') not in ['NEW', 'PARTIALLY_FILLED',
    'PENDING_CANCEL']]. *)
Definition status_is_gone (info : option (gmap string pyval)) : bool :=
  match info with
  | Some d =>
      truthy (PDict d)
      && negb (eq_str (dict_get d "status") "NEW"
               || eq_str (dict_get d "status") "PARTIALLY_FILLED"
               || eq_str (dict_get d "status") "PENDING_CANCEL")
  | None => false
  end.

(** The figures of a closure: realized P&L, average close price and closed
    quantity, from the closure details when there are some, else from the
    order's own status. *)
Definition closure_figures (closure_details : option ClosureDetails)
    (status_info : gmap string pyval) : result (Decimal * Decimal * Decimal) :=
  match closure_details with
  | Some details =>
      Returned (realized_pnl details, avg_close_price details,
                Decimal_abs (closed_quantity details))
  | None =>
      avg ← Decimal_of_value (dict_get_default status_info "avgPrice" (PStr "0"));
      qty ← Decimal_of_value (dict_get_default status_info "executedQty" (PStr "0"));
      Returned (Decimal_0, avg, Decimal_abs qty)
  end.

(** [Decimal(text)] inside [try ... except InvalidOperation: Decimal('0')]. *)
Definition Decimal_or_0 (value : pyval) : result Decimal :=
  match Decimal_of_value value with
  | Raised InvalidOperation => Returned Decimal_0
  | r => r
  end.

(** [details.get(key, {}).get("orderId")]. *)
Definition nested_order_id (trade_details_for_side : gmap string pyval) (key : string)
    : result pyval :=
  match dict_get_default trade_details_for_side key (PDict ∅) with
  | PDict d => Returned (dict_get d "orderId")
  | _ => Raised AttributeError
  end.

(** The end of the three closing branches: destroy the slot and its alert
    sentinel. *)
Definition destroy_slot (side_being_managed : string) : M unit :=
  _ ← modify (λ bot_state, clear_active_trade bot_state side_being_managed);
  let alert_key_no_sl := (side_being_managed ++ "_NO_SL_ALERT_SENT")%string in
  sentinel ← gets (λ bot_state, get_active_trade bot_state alert_key_no_sl);
  if truthy sentinel
  then modify (λ bot_state, clear_active_trade bot_state alert_key_no_sl)
  else mret tt.

(** Check 1, the stop-loss order.  [inl tt]: the position was closed by the
    stop loss and the function returns; [inr (sl_order_id, details)]: go on
    with these. *)
Definition check_sl (use_martingale_config : bool) (tm : TradeManager)
    (trade_details_for_side : gmap string pyval) (side_being_managed : string)
    (sl_order_id tp_order_id original_pos_side_config : pyval)
    (original_entry_price_decimal position_quantity_decimal : Decimal)
    : M (unit + pyval * gmap string pyval) :=
  if truthy sl_order_id then
    let sl_status_info := check_order_status tm sl_order_id in
    if status_is sl_status_info "FILLED" then
      closing_order_id ← lift (int_of_value sl_order_id);
      let closure_details :=
        fetch_trade_closure_details tm closing_order_id original_entry_price_decimal
          position_quantity_decimal original_pos_side_config in
      '(pnl_value, _, _) ← lift (closure_figures closure_details (default ∅ sl_status_info));
      _ ← (if use_martingale_config && Decimal_lt pnl_value Decimal_0
           then modify (λ bot_state,
                  update_accumulated_loss bot_state side_being_managed (Decimal_abs pnl_value))
           else mret tt);
      _ ← (if truthy tp_order_id
           then (_ ← cancel_order_if_open tm tp_order_id; mret tt)
           else mret tt);
      _ ← destroy_slot side_being_managed;
      mret (inl tt)
    else if status_is_gone sl_status_info then
      let details := <["sl_order_response" := PNone]> trade_details_for_side in
      _ ← modify (λ bot_state, set_active_trade bot_state side_being_managed (PDict details));
      mret (inr (PNone, details))
    else mret (inr (sl_order_id, trade_details_for_side))
  else mret (inr (sl_order_id, trade_details_for_side)).

(** Check 2, the take-profit order.  [true]: the position was closed by the
    take profit and the function returns. *)
Definition check_tp (use_martingale_config : bool) (tm : TradeManager)
    (trade_details_for_side : gmap string pyval) (side_being_managed : string)
    (sl_order_id tp_order_id original_pos_side_config : pyval)
    (original_entry_price_decimal position_quantity_decimal : Decimal) : M bool :=
  if truthy tp_order_id then
    let tp_status_info := check_order_status tm tp_order_id in
    if status_is tp_status_info "FILLED" then
      closing_order_id ← lift (int_of_value tp_order_id);
      let closure_details :=
        fetch_trade_closure_details tm closing_order_id original_entry_price_decimal
          position_quantity_decimal original_pos_side_config in
      '(pnl_value, _, _) ← lift (closure_figures closure_details (default ∅ tp_status_info));
      _ ← (if use_martingale_config && Decimal_ge pnl_value Decimal_0 then
             let accumulated_loss_at_entry_str :=
               dict_get_default trade_details_for_side "accumulated_loss_at_entry" (PStr "0") in
             accumulated_loss_when_trade_opened ←
               lift (Decimal_or_0 accumulated_loss_at_entry_str);
             if Decimal_gt accumulated_loss_when_trade_opened Decimal_0
             then modify (λ bot_state, reset_accumulated_loss bot_state side_being_managed)
             else mret tt
           else mret tt);
      _ ← (if truthy sl_order_id
           then (_ ← cancel_order_if_open tm sl_order_id; mret tt)
           else mret tt);
      _ ← destroy_slot side_being_managed;
      mret true
    else mret false
  else mret false.

(** Check 3, when no protective order reported a fill and the exchange shows
    no position. *)
Definition handle_vanished_position (tm : TradeManager)
    (trade_details_for_side : gmap string pyval) (side_being_managed : string) : M unit :=
  trade ← gets (λ bot_state, get_active_trade bot_state side_being_managed);
  if truthy trade then
    current_sl_id_in_state ← lift (nested_order_id trade_details_for_side "sl_order_response");
    current_tp_id_in_state ← lift (nested_order_id trade_details_for_side "tp_order_response");
    _ ← (if truthy current_sl_id_in_state
         then (_ ← cancel_order_if_open tm current_sl_id_in_state; mret tt)
         else mret tt);
    _ ← (if truthy current_tp_id_in_state
         then (_ ← cancel_order_if_open tm current_tp_id_in_state; mret tt)
         else mret tt);
    destroy_slot side_being_managed
  else mret tt.

(** Check 4, the one-shot alert for a position without an active stop loss. *)
Definition check_unprotected (tm : TradeManager) (side_being_managed : string)
    (now_utc : Timestamp) : M unit :=
  trade ← gets (λ bot_state, get_active_trade bot_state side_being_managed);
  final_sl_order_details_from_state ←
    lift (match trade with
          | PDict d => Returned (dict_get_default d "sl_order_response" (PDict ∅))
          | _ => Raised AttributeError
          end);
  let final_sl_order_id_from_state := order_id_of final_sl_order_details_from_state in
  let sl_order_is_currently_active_final_check :=
    truthy final_sl_order_id_from_state
    && (status_is (check_order_status tm final_sl_order_id_from_state) "NEW"
        || status_is (check_order_status tm final_sl_order_id_from_state) "PARTIALLY_FILLED") in
  let alert_key_no_sl := (side_being_managed ++ "_NO_SL_ALERT_SENT")%string in
  sentinel ← gets (λ bot_state, get_active_trade bot_state alert_key_no_sl);
  if negb sl_order_is_currently_active_final_check then
    if negb (truthy sentinel) then
      modify (λ bot_state,
        set_active_trade bot_state alert_key_no_sl
          (PDict {[ "alert_sent_timestamp" := PStr (isoformat now_utc) ]}))
    else mret tt
  else
    if truthy sentinel
    then modify (λ bot_state, clear_active_trade bot_state alert_key_no_sl)
    else mret tt.

(** [manage_active_position].  The trailing-stop block only logs. *)
Definition manage_active_position (use_martingale_config : bool) (now_utc : Timestamp)
    (trade_details_for_side : gmap string pyval) (side_being_managed : string)
    (tm : TradeManager) : M unit :=
  if negb (truthy (PDict trade_details_for_side)) then mret tt
  else
    let sl_order_details := dict_get trade_details_for_side "sl_order_response" in
    let tp_order_details := dict_get trade_details_for_side "tp_order_response" in
    let sl_order_id := order_id_of sl_order_details in
    let tp_order_id := order_id_of tp_order_details in
    let original_entry_price_str :=
      dict_get_default trade_details_for_side "entry_price_actual" (PStr "0") in
    let position_quantity_str :=
      dict_get_default trade_details_for_side "quantity" (PStr "0") in
    let original_pos_side_config :=
      dict_get_default trade_details_for_side "position_side_hedge_mode" (PStr "N/A") in
    '(original_entry_price_decimal, position_quantity_decimal) ←
      lift (match (e ← Decimal_of_value original_entry_price_str;
                   q ← Decimal_of_value position_quantity_str;
                   Returned (e, q)) with
            | Raised InvalidOperation => Returned (Decimal_0, Decimal_0)
            | r => r
            end);
    after_sl ← check_sl use_martingale_config tm trade_details_for_side side_being_managed
                 sl_order_id tp_order_id original_pos_side_config
                 original_entry_price_decimal position_quantity_decimal;
    match after_sl with
    | inl _ => mret tt
    | inr (sl_order_id, trade_details_for_side) =>
        closed_by_tp ← check_tp use_martingale_config tm trade_details_for_side
                         side_being_managed sl_order_id tp_order_id original_pos_side_config
                         original_entry_price_decimal position_quantity_decimal;
        if closed_by_tp : bool then mret tt
        else
          let current_position_on_exchange := get_active_position tm original_pos_side_config in
          let no_position :=
            match current_position_on_exchange with
            | Some position =>
                negb (truthy (PDict position))
                || negb (ne_Decimal_0 (dict_get_default position "amount" (PDec Decimal_0)))
            | None => true
            end in
          if no_position
          then handle_vanished_position tm trade_details_for_side side_being_managed
          else check_unprotected tm side_being_managed now_utc
    end.

End position_manager.

Import position_manager.

(** ** main_bot_loop.py *)

Module main_bot_loop.

(** What one tick hands to the three managers, in order. *)
Inductive dispatch : Type :=
| ManagePendingOrder (state_key : string)
| ManageActivePosition (state_key : string)
| ProcessSignals (symbol : string).

(** A handler changes the state and returns or raises. *)
Definition handler : Type := PersistentState → result unit * PersistentState.

Section tick.

(** The three managers, as the loop calls them for a symbol. *)
Variable manage_pending_order : pyval → string → string → handler.
Variable manage_active_position : pyval → string → string → handler.
Variable process_signals_and_initiate_trade : string → handler.

(** [TradeManager(binance_client, symbol)] followed by [set_leverage]: the
    boolean [set_leverage] returns, or an exception of either. *)
Variable set_leverage : string → result bool.

(** Run a handler, recording the dispatch. *)
Definition run (d : dispatch) (h : handler) (st : PersistentState)
    : result unit * PersistentState * list dispatch :=
  let '(r, st') := h st in (r, st', [d]).

(** The dispatch of one slot: [if trade: if status == ...]. *)
Definition dispatch_slot (trade : pyval) (state_key symbol : string) (st : PersistentState)
    : result unit * PersistentState * list dispatch :=
  if truthy trade then
    match trade with
    | PDict d =>
        if eq_str (dict_get d "status") "PENDING_DYNAMIC_LIMIT"
        then run (ManagePendingOrder state_key) (manage_pending_order trade state_key symbol) st
        else if eq_str (dict_get d "status") "POSITION_OPEN"
        then run (ManageActivePosition state_key) (manage_active_position trade state_key symbol) st
        else (Returned tt, st, [])
    | _ => (Raised AttributeError, st, [])
    end
  else (Returned tt, st, []).

(** The body of the loop over the symbols, inside its [try]: an exception
    ends the work on this symbol and is swallowed. *)
Definition process_symbol (symbol : string) (st : PersistentState)
    : PersistentState * list dispatch :=
  match set_leverage symbol with
  | Returned true =>
      let state_key_long := (symbol ++ "_LONG")%string in
      let state_key_short := (symbol ++ "_SHORT")%string in
      let active_long_trade := get_active_trade st state_key_long in
      let active_short_trade := get_active_trade st state_key_short in
      match dispatch_slot active_long_trade state_key_long symbol st with
      | (Returned _, st1, t1) =>
          match dispatch_slot active_short_trade state_key_short symbol st1 with
          | (Returned _, st2, t2) =>
              let '(_, st3, t3) :=
                run (ProcessSignals symbol) (process_signals_and_initiate_trade symbol) st2 in
              (st3, t1 ++ t2 ++ t3)
          | (Raised _, st2, t2) => (st2, t1 ++ t2)
          end
      | (Raised _, st1, t1) => (st1, t1)
      end
  | _ => (st, [])
  end.

Fixpoint process_symbols (symbols : list string) (st : PersistentState)
    : PersistentState * list dispatch :=
  match symbols with
  | [] => (st, [])
  | symbol :: rest =>
      let '(st1, t1) := process_symbol symbol st in
      let '(st2, t2) := process_symbols rest st1 in
      (st2, t1 ++ t2)
  end.

(** One iteration of the [while True] of [run_bot], after the periodic reload
    of the symbol configuration.  [all_configured_symbols_map] lists each
    symbol with its ["active"] entry ([None] when absent);
    [telegram_bot_manager] is [None] when there is no control channel, else
    what [is_bot_globally_enabled()] answers.  Market-data subscriptions and
    sleeping are left out. *)
Definition tick (all_configured_symbols_map : list (string * option bool))
    (telegram_bot_manager : option bool) (st : PersistentState)
    : PersistentState * list dispatch :=
  let symbols_to_process_runtime :=
    map fst (filter (λ sp, default true sp.2 = true) all_configured_symbols_map) in
  match symbols_to_process_runtime with
  | [] => (st, [])
  | _ =>
      match telegram_bot_manager with
      | Some false => (st, [])
      | _ => process_symbols symbols_to_process_runtime st
      end
  end.

End tick.

End main_bot_loop.

Import main_bot_loop.

(** ** trade_manager.py: the methods that talk to the exchange *)
Module trade_manager_methods.

(** The exceptions of a client call that the methods tell apart:
    [BinanceAPIException] and [BinanceOrderException] with their [code], and
    any other exception. *)
Inductive client_exception : Type :=
| BinanceAPIException (code : Z)
| BinanceOrderException (code : Z)
| OtherException.

(** What a client call gives. *)
Inductive answer (A : Type) : Type :=
| Answer (a : A)
| Throws (e : client_exception).
Arguments Answer {A} a.
Arguments Throws {A} e.

(** An order identifier as callers hold it: the exchange's integer, or its
    text. *)
Inductive order_ref : Type := IdInt (n : Z) | IdStr (s : string).

(** Truthiness of an optional identifier. *)
Definition ref_truthy (o : option order_ref) : bool :=
  match o with
  | Some (IdInt n) => negb (n =? 0)
  | Some (IdStr s) => negb (String.eqb s "")
  | None => false
  end.

(** [str(order_id)]. *)
Definition ref_str (r : order_ref) : string :=
  match r with
  | IdInt n => string_of_list_ascii (int_chars n)
  | IdStr s => s
  end.

Definition ref_value (o : option order_ref) : pyval :=
  match o with
  | Some (IdInt n) => PInt n
  | Some (IdStr s) => PStr s
  | None => PNone
  end.

(** The order a status or cancel request names: [orderId=str(order_id)], or
    [origClientOrderId=str(client_order_id)]. *)
Inductive order_selector : Type :=
| ByOrderId (order_id : pyval)
| ByClientOrderId (client_order_id : pyval).

(** The python-binance client, by what its calls answer. *)
Record Client : Type := mkClient {
  futures_get_position_mode : answer pyval;
  futures_create_order : gmap string pyval → answer (gmap string pyval);
  futures_get_order : string → order_selector → answer (gmap string pyval);
  futures_cancel_order : string → order_selector → answer pyval;
  futures_mark_price : string → answer pyval;
  futures_change_leverage : string → Z → answer pyval
}.

(** The requests that change something at the exchange. *)
Inductive client_request : Type :=
| CreateOrder (params : gmap string pyval)
| CancelOrder (symbol : string) (order : order_selector)
| ChangeLeverage (symbol : string) (leverage : Z).

(** A [TradeManager] object: its client, its symbol (upper case), and what
    [get_symbol_info_data] gives for a symbol, from the cache or by fetching:
    the information, [None] when the fetch raised [ValueError], or the
    exception of the client that the fetch lets through. *)
Record TradeManagerObject : Type := mkTradeManagerObject {
  client : Client;
  symbol : string;
  get_symbol_info_data : string → answer (option SymbolInfo)
}.

(** What a method does: it returns, or lets an exception through. *)
Inductive reply (A : Type) : Type :=
| Returns (a : A)
| RaisesClient (e : client_exception)
| RaisesValueError.
Arguments Returns {A} a.
Arguments RaisesClient {A} e.
Arguments RaisesValueError {A}.

(** Constants of python-binance. *)
Definition SIDE_BUY : string := "BUY".
Definition SIDE_SELL : string := "SELL".
Definition ORDER_TYPE_MARKET : string := "MARKET".
Definition FUTURE_ORDER_TYPE_STOP_MARKET : string := "STOP_MARKET".
Definition FUTURE_ORDER_TYPE_TAKE_PROFIT_MARKET : string := "TAKE_PROFIT_MARKET".

(** [str.upper] on the letters of ASCII; symbols have no other letters. *)
Definition upper_ascii (c : ascii) : ascii :=
  let n := nat_of_ascii c in
  if (97 <=? n)%nat && (n <=? 122)%nat then ascii_of_nat (n - 32) else c.

Definition upper (s : string) : string :=
  string_of_list_ascii (map upper_ascii (list_ascii_of_string s)).

(** [symbol_target.upper() if symbol_target else self.symbol]. *)
Definition target_of (self : TradeManagerObject) (symbol_target : option string) : string :=
  match symbol_target with
  | Some s => if String.eqb s "" then symbol self else upper s
  | None => symbol self
  end.

(** The two rounding helpers read only the symbol information. *)
Definition with_info (s_info : option SymbolInfo) : TradeManager :=
  mkTradeManager s_info None (λ _ _ _ _, None) (λ _ _, None) (λ _ _, None)
    (λ _, None) (λ _, false) (λ _ _ _ _, None) (λ _, None) (λ _, None).

(** [f"{d:.{precision}f}"]: the value rounded half-even to [precision]
    decimals, in fixed notation; a negative precision is an invalid format
    ([None]: [ValueError]). *)
Definition format_f (precision : Z) (d : Decimal) : option (list ascii) :=
  if precision <? 0 then None
  else
    let r := quantize d (- precision) in
    let digits := digits_of_N (d_int r) in
    let len := length digits in
    let p := Z.to_nat precision in
    let intpart := if (len <=? p)%nat then ["0"%char] else take (len - p) digits in
    let fracpart :=
      if (len <=? p)%nat then replicate (p - len) "0"%char ++ digits
      else drop (len - p) digits in
    Some ((if d_sign r then ["-"%char] else []) ++ intpart
          ++ (if (p =? 0)%nat then [] else "."%char :: fracpart)).

(** [_format_order_price] and [_format_order_quantity], for the symbol
    information at hand. *)
Definition format_with (precision_of : SymbolInfo → Z) (s_info : option SymbolInfo)
    (d : Decimal) : option string :=
  match s_info with
  | None => Some (Decimal_str d)
  | Some s_info => string_of_list_ascii <$> format_f (precision_of s_info) d
  end.

Definition _format_order_price : option SymbolInfo → Decimal → option string :=
  format_with pricePrecision.

Definition _format_order_quantity : option SymbolInfo → Decimal → option string :=
  format_with quantityPrecision.

(** [is_hedge_mode_active]: the [dualSidePosition] entry of the answer, and
    [False] on any exception. *)
Definition is_hedge_mode_active (self : TradeManagerObject) : pyval :=
  match futures_get_position_mode (client self) with
  | Answer (PDict d) => dict_get_default d "dualSidePosition" (PBool false)
  | _ => PBool false
  end.

(** The dictionaries the methods return on an error.  Their [error_message]
    and [message] entries, texts for the log, are left out. *)
Definition error_status (status : string) : gmap string pyval :=
  {[ "status" := PStr status ]}.

Definition error_api_order (e : client_exception) : option (gmap string pyval) :=
  match e with
  | BinanceAPIException code | BinanceOrderException code =>
      Some (<["exception_code" := PInt code]> (error_status "ERROR_API_ORDER"))
  | OtherException => None
  end.

(** [set_leverage]. *)
Definition set_leverage (self : TradeManagerObject) (leverage : Z)
    (symbol_arg : option string) : bool * list client_request :=
  let target_symbol := target_of self symbol_arg in
  (match futures_change_leverage (client self) target_symbol leverage with
   | Answer _ => true
   | Throws (BinanceAPIException code) => code =? -4043
   | Throws _ => false
   end, [ChangeLeverage target_symbol leverage]).

(** [place_market_order]. *)
Definition place_market_order (self : TradeManagerObject) (side : string)
    (quantity : Decimal) (reduce_only : bool) (client_order_id : pyval)
    (position_side_for_hedge : pyval) (symbol_target : option string)
    : reply (option (gmap string pyval)) * list client_request :=
  let target := target_of self symbol_target in
  match get_symbol_info_data self target with
  | Throws e => (RaisesClient e, [])
  | Answer None => (Returns (Some (error_status "ERROR_SYMBOL_INFO")), [])
  | Answer (Some s_info) =>
      let adj_quantity := adjust_quantity_to_step_size (with_info (Some s_info)) quantity in
      match adj_quantity with
      | None => (Returns (Some (error_status "ERROR_ADJUSTMENT")), [])
      | Some adj_quantity =>
          if negb (Decimal_bool adj_quantity) || Decimal_le adj_quantity Decimal_0
          then (Returns (Some (error_status "ERROR_ADJUSTMENT")), [])
          else
            match _format_order_quantity (Some s_info) adj_quantity with
            | None => (RaisesValueError, [])
            | Some quantity_text =>
                let params : gmap string pyval :=
                  {[ "symbol" := PStr target; "side" := PStr side;
                     "type" := PStr ORDER_TYPE_MARKET; "quantity" := PStr quantity_text ]} in
                let params :=
                  if truthy (is_hedge_mode_active self) && truthy position_side_for_hedge
                  then <["positionSide" := position_side_for_hedge]> params
                  else if reduce_only then <["reduceOnly" := PStr "true"]> params
                  else params in
                let params :=
                  if truthy client_order_id
                  then <["newClientOrderId" := client_order_id]> params else params in
                (match futures_create_order (client self) params with
                 | Answer order_response => Returns (Some order_response)
                 | Throws OtherException => Returns (Some (error_status "ERROR_UNEXPECTED"))
                 | Throws e => Returns (error_api_order e)
                 end, [CreateOrder params])
            end
      end
  end.

(** The common body of [place_stop_loss_order] and
    [place_take_profit_order], which differ in the order type. *)
Definition place_protective_order (order_type : string) (self : TradeManagerObject)
    (position_asset_side : string) (trigger_price : Decimal)
    (symbol_target : option string) (client_order_id : pyval)
    : reply (option (gmap string pyval)) * list client_request :=
  let target := target_of self symbol_target in
  let order_side := if String.eqb position_asset_side SIDE_BUY then SIDE_SELL else SIDE_BUY in
  match get_symbol_info_data self target with
  | Throws e => (RaisesClient e, [])
  | Answer s_info =>
      let adj_price := adjust_price_to_tick_size (with_info s_info) trigger_price in
      if negb (Decimal_bool adj_price)
      then (Returns (Some (error_status "ERROR_ADJUSTMENT")), [])
      else
        match _format_order_price s_info adj_price with
        | None => (RaisesValueError, [])
        | Some price_text =>
            let params : gmap string pyval :=
              {[ "symbol" := PStr target; "side" := PStr order_side;
                 "type" := PStr order_type; "stopPrice" := PStr price_text;
                 "closePosition" := PStr "true" ]} in
            let params :=
              if truthy client_order_id
              then <["newClientOrderId" := client_order_id]> params else params in
            let params :=
              if truthy (is_hedge_mode_active self)
              then <["positionSide" :=
                       PStr (if String.eqb position_asset_side SIDE_BUY
                             then "LONG" else "SHORT")]> params
              else params in
            (match futures_create_order (client self) params with
             | Answer order_response => Returns (Some order_response)
             | Throws e => Returns (error_api_order e)
             end, [CreateOrder params])
        end
  end.

Definition place_stop_loss_order := place_protective_order FUTURE_ORDER_TYPE_STOP_MARKET.
Definition place_take_profit_order :=
  place_protective_order FUTURE_ORDER_TYPE_TAKE_PROFIT_MARKET.


(** The [orderId] entry of the dictionaries [check_order_status] returns on
    an error. *)
Definition order_id_text (order_id : option order_ref) : pyval :=
  if ref_truthy order_id
  then match order_id with Some r => PStr (ref_str r) | None => PNone end
  else PNone.

(** [check_order_status]. *)
Definition check_order_status (self : TradeManagerObject) (order_id client_order_id
    : option order_ref) (symbol_target : option string) : option (gmap string pyval) :=
  let target := target_of self symbol_target in
  let selector :=
    if ref_truthy order_id then Some (ByOrderId (ref_value order_id))
    else if ref_truthy client_order_id then Some (ByClientOrderId (ref_value client_order_id))
    else None in
  match selector with
  | None => None
  | Some selector =>
      match futures_get_order (client self) target selector with
      | Answer order => Some order
      | Throws (BinanceAPIException code) =>
          if code =? -2013
          then Some (<["orderId" := order_id_text order_id]>
                     (error_status "NOT_FOUND_OR_DELETED"))
          else Some (<["exception_code" := PInt code]>
                     (<["orderId" := order_id_text order_id]>
                      (error_status "ERROR_API_CHECK")))
      | Throws _ =>
          Some (<["orderId" := order_id_text order_id]>
                (error_status "ERROR_UNEXPECTED_CHECK"))
      end
  end.

Definition status_in (status : pyval) (names : list string) : bool :=
  existsb (eq_str status) names.

(** [cancel_order_if_open]. *)
Definition cancel_order_if_open (self : TradeManagerObject) (order_id client_order_id
    : option order_ref) (symbol_target : option string) : bool * list client_request :=
  let target := target_of self symbol_target in
  if negb (ref_truthy order_id) && negb (ref_truthy client_order_id) then (false, [])
  else
    match check_order_status self order_id client_order_id (Some target) with
    | Some order_info =>
        if truthy (PDict order_info) && truthy (dict_get order_info "status") then
          let status := dict_get order_info "status" in
          let id_for_cancel_op :=
            dict_get_default order_info "orderId" (ref_value order_id) in
          if status_in status ["NEW"; "PARTIALLY_FILLED"; "PENDING_CANCEL"]%string then
            let selector :=
              if truthy id_for_cancel_op then Some (ByOrderId id_for_cancel_op)
              else if ref_truthy client_order_id
              then Some (ByClientOrderId (ref_value client_order_id))
              else None in
            match selector with
            | None => (false, [])
            | Some selector =>
                (match futures_cancel_order (client self) target selector with
                 | Answer _ => true
                 | Throws (BinanceAPIException code) => code =? -2011
                 | Throws _ => false
                 end, [CancelOrder target selector])
            end
          else if status_in status ["FILLED"; "CANCELED"; "EXPIRED"; "REJECTED";
                                    "NOT_FOUND_OR_DELETED"]%string
          then (true, [])
          else (false, [])
        else (false, [])
    | None => (false, [])
    end.

(** [get_current_market_price]. *)
Definition get_current_market_price (self : TradeManagerObject)
    (symbol_target : option string) : option Decimal :=
  match futures_mark_price (client self) (target_of self symbol_target) with
  | Answer (PDict mark_price_info) =>
      let price_str := dict_get mark_price_info "markPrice" in
      if truthy price_str then
        match Decimal_of_value price_str with
        | Returned price => Some price
        | Raised _ => None
        end
      else None
  | _ => None
  end.

End trade_manager_methods.

Module TM := trade_manager_methods.

(** ** binance_utils.py *)
Module binance_utils.

(** The two client calls of [get_trade_closure_details], by what they
    answer: [futures_get_order(symbol, orderId)] and
    [futures_account_trades(symbol, startTime, endTime, limit=100)]. *)
Record Client : Type := mkClient {
  futures_get_order : string → Z → TM.answer (gmap string pyval);
  futures_account_trades : string → Z → Z → TM.answer (list (gmap string pyval))
}.












Section closure.

(** [a / b]: the quotient rounded to the precision of the context, which
    the model of [Decimal] does not describe. *)
Variable divide : Decimal → Decimal → Decimal.


End closure.

End binance_utils.

Module BU := binance_utils.

(** ** pending_order_manager.py: the fill check *)
Module pending_order_fill_check.

(** [entry_status in ["CANCELED", "EXPIRED", "REJECTED",
    "NOT_FOUND_OR_DELETED"]]. *)
Definition is_final_unfilled (entry_status : pyval) : bool :=
  eq_str entry_status "CANCELED" || eq_str entry_status "EXPIRED"
  || eq_str entry_status "REJECTED" || eq_str entry_status "NOT_FOUND_OR_DELETED".

(** [_check_entry_order_fill].  Returns the pair of the payload and the flag
    that tells [manage_pending_order] to stop.  The payload is the dictionary
    of the slot, so clearing its order id changes it in place before it is
    stored; the test that the stored id is still the one just read compares
    a value with itself. *)
Definition _check_entry_order_fill (trade_details_for_side : gmap string pyval)
    (side_being_managed : string) (tm : TradeManager) : M (pyval * bool) :=
  let current_entry_order_id := dict_get trade_details_for_side "current_entry_order_id" in
  if negb (truthy current_entry_order_id) then mret (PDict trade_details_for_side, false)
  else
    match check_order_status tm current_entry_order_id with
    | Some entry_order_info =>
        if truthy (PDict entry_order_info) then
          let entry_status := dict_get entry_order_info "status" in
          if eq_str entry_status "FILLED" then
            _process_filled_order trade_details_for_side side_being_managed
              entry_order_info tm
          else if is_final_unfilled entry_status then
            let details :=
              <["entry_order_response_initial" := PNone]>
                (<["current_entry_order_id" := PNone]> trade_details_for_side) in
            _ ← modify (λ bot_state,
                          set_active_trade bot_state side_being_managed (PDict details));
            mret (PDict details, false)
          else mret (PDict trade_details_for_side, false)
        else mret (PDict trade_details_for_side, false)
    | None => mret (PDict trade_details_for_side, false)
    end.

End pending_order_fill_check.

Import pending_order_fill_check.

(** * Vocabulary of the properties *)

Local Abbreviation pow10 e := (Qpower (10 # 1) e).

Fixpoint pysize (v : pyval) : nat :=
  match v with
  | PList l => S (foldr (λ x acc, pysize x + acc)%nat 0%nat l)
  | PDict m => S (map_fold (λ _ x acc, pysize x + acc)%nat 0%nat m)
  | _ => 1%nat
  end.

(** The state uses only decimals for its accumulated losses. *)
Definition only_decimals (m : gmap string pyval) : Prop :=
  map_Forall (λ _ v, ∃ d, v = PDec d) m.





(** The tick a candidate is measured against. *)
Definition min_tick_size (tm : TradeManager) : Decimal :=
  match get_symbol_info_data tm with
  | Some s_info => tickSize s_info
  | None => mkDecimal false 1 (-8)
  end.

(** The take profit of a long bracket: [entry + K * |entry - sl|], rounded to
    the tick. *)
Definition long_take_profit (tm : TradeManager) (entry sl k : Decimal) : Decimal :=
  adjust_price_to_tick_size tm
    (Decimal_add entry (Decimal_mul k (Decimal_abs (Decimal_sub entry sl)))).


(** Unfold the monad operations of a manager function. *)
Ltac run_M :=
  cbv [mbind mret M_bind M_ret result_bind result_ret lift call gets modify
       place_market_order place_stop_loss_order place_take_profit_order
       cancel_order_if_open].

(** The side of the market order that closes a position opened by a signal. *)
Definition closing_side (signal_type : pyval) : order_side :=
  if eq_str signal_type "BUY" then SIDE_SELL else SIDE_BUY.

(** The side of the position a signal opens. *)
Definition position_side (signal_type : pyval) : order_side :=
  if eq_str signal_type "BUY" then SIDE_BUY else SIDE_SELL.

(** The stop loss is on the right side of a price: below it for a BUY, above
    it for a SELL. *)
Definition sl_beyond (signal_type : pyval) (sl price : Decimal) : bool :=
  (eq_str signal_type "BUY" && Decimal_lt sl price)
  || (eq_str signal_type "SELL" && Decimal_gt sl price).

(** The ways the placement of the stop loss after a fill fails. *)
Inductive sl_placement_fails (tm : TradeManager) (signal_type target_sl_price : pyval)
    (entry : Decimal) : Prop :=
| sl_target_missing :
    truthy target_sl_price = false →
    sl_placement_fails tm signal_type target_sl_price entry
| sl_invalid_vs_entry (sl : Decimal) :
    truthy target_sl_price = true →
    Decimal_of_value target_sl_price = Returned sl →
    sl_beyond signal_type sl entry = false →
    sl_placement_fails tm signal_type target_sl_price entry
| sl_market_price_unavailable (sl : Decimal) :
    truthy target_sl_price = true →
    Decimal_of_value target_sl_price = Returned sl →
    sl_beyond signal_type sl entry = true →
    opt_truthy (get_current_market_price tm) = false →
    sl_placement_fails tm signal_type target_sl_price entry
| sl_market_past_sl (sl market : Decimal) :
    truthy target_sl_price = true →
    Decimal_of_value target_sl_price = Returned sl →
    sl_beyond signal_type sl entry = true →
    get_current_market_price tm = Some market →
    Decimal_bool market = true →
    sl_beyond signal_type sl market = false →
    sl_placement_fails tm signal_type target_sl_price entry
| sl_order_rejected (sl market : Decimal) :
    truthy target_sl_price = true →
    Decimal_of_value target_sl_price = Returned sl →
    sl_beyond signal_type sl entry = true →
    get_current_market_price tm = Some market →
    Decimal_bool market = true →
    sl_beyond signal_type sl market = true →
    has_order_id (stop_loss_answer tm (position_side signal_type) sl) = false →
    sl_placement_fails tm signal_type target_sl_price entry.

(** A payload written by the fill path: its status is [POSITION_OPEN] and its
    stop-loss answer is the one the exchange gave to a stop-market placement
    among [calls], with an order id in it. *)
Definition open_with_confirmed_sl (tm : TradeManager) (calls : list exchange_call)
    (payload : gmap string pyval) : Prop :=
  payload !! "status" = Some (PStr "POSITION_OPEN")
  ∧ ∃ side sl resp,
      payload !! "sl_order_response" = Some (PDict resp)
      ∧ truthy (dict_get resp "orderId") = true
      ∧ stop_loss_answer tm side sl = Some resp
      ∧ PlaceStopLossOrder side sl ∈ calls.

(** A pending payload with the fields the fill path reads. *)
Record pending_fields (td : gmap string pyval) (signal_type target_sl_price : pyval)
    (quantity : Decimal) : Prop := mkPendingFields {
  pf_signal_type : td !! "signal_type" = Some signal_type;
  pf_target_sl_price : td !! "target_sl_price" = Some target_sl_price;
  pf_target_tp_price : is_Some (td !! "target_tp_price");
  pf_quantity : ∃ vq, td !! "quantity" = Some vq ∧ Decimal_of_value vq = Returned quantity
}.

(** The order id stored under [field] of an open position's payload. *)
Definition stored_order_id (td : gmap string pyval) (field : string) : pyval :=
  order_id_of (dict_get td field).

(** The entry price and the quantity of an open position's payload convert to
    [entry] and [quantity]. *)
Definition position_figures (td : gmap string pyval) (entry quantity : Decimal) : Prop :=
  Decimal_of_value (dict_get_default td "entry_price_actual" (PStr "0")) = Returned entry
  ∧ Decimal_of_value (dict_get_default td "quantity" (PStr "0")) = Returned quantity.


(** The stop-loss order has not been reported as FILLED. *)
Definition sl_not_filled (tm : TradeManager) (td : gmap string pyval) : Prop :=
  truthy (stored_order_id td "sl_order_response")
  && status_is (check_order_status tm (stored_order_id td "sl_order_response")) "FILLED"
  = false.


(** The file holds the document of the dictionaries in memory. *)
Definition file_in_sync (st : PersistentState) : Prop :=
  state_file st = Some (state_to_save st).

(** What a restart of the bot reads: a new [PersistentState] on the same
    file. *)
Definition restart (st : PersistentState) : PersistentState := init (state_file st).


(** A computation that, however it ends, leaves the accumulated losses as
    they were. *)
Definition keeps_losses {A : Type} (m : M A) : Prop :=
  ∀ st r st' calls, m st = (r, st', calls) → accumulated_losses st' = accumulated_losses st.

(** The take-profit order has not been reported as FILLED. *)
Definition tp_not_filled (tm : TradeManager) (td : gmap string pyval) : Prop :=
  truthy (stored_order_id td "tp_order_response")
  && status_is (check_order_status tm (stored_order_id td "tp_order_response")) "FILLED"
  = false.

(** The exchange reports no position on the side of the payload: no answer,
    an empty one, or a zero amount. *)
Definition no_position_on_exchange (tm : TradeManager) (td : gmap string pyval) : bool :=
  match get_active_position tm
          (dict_get_default td "position_side_hedge_mode" (PStr "N/A")) with
  | Some position =>
      negb (truthy (PDict position))
      || negb (ne_Decimal_0 (dict_get_default position "amount" (PDec Decimal_0)))
  | None => true
  end.

(** The payload has no stop-loss order id, or the order is reported neither
    FILLED nor in a final state. *)
Definition sl_still_open (tm : TradeManager) (td : gmap string pyval) : Prop :=
  let sl_order_id := stored_order_id td "sl_order_response" in
  truthy sl_order_id = false
  ∨ (status_is (check_order_status tm sl_order_id) "FILLED" = false
     ∧ status_is_gone (check_order_status tm sl_order_id) = false).

(** The stop-loss order of the payload is reported in a final state other
    than FILLED (cancelled, expired, rejected). *)
Definition sl_gone (tm : TradeManager) (td : gmap string pyval) : Prop :=
  let sl_order_id := stored_order_id td "sl_order_response" in
  truthy sl_order_id = true
  ∧ status_is (check_order_status tm sl_order_id) "FILLED" = false
  ∧ status_is_gone (check_order_status tm sl_order_id) = true.

(** The cancel request for an order id, if there is one. *)
Definition cancel_of (order_id : pyval) : list exchange_call :=
  if truthy order_id then [CancelOrderIfOpen order_id] else [].

(** The key of the one-shot alert sentinel of a slot. *)
Definition alert_key_no_sl (key : string) : string := (key ++ "_NO_SL_ALERT_SENT")%string.


Local Abbreviation p10 e := (Qpower (10 # 1) e).

(** The account is in hedge mode and the caller names a position side. *)
Definition hedged (self : TM.TradeManagerObject) (position_side_for_hedge : pyval) : bool :=
  truthy (TM.is_hedge_mode_active self) && truthy position_side_for_hedge.

(** The market order a request asks for. *)
Record market_request (self : TM.TradeManagerObject) (side : string) (quantity : Decimal)
    (reduce_only : bool) (position_side_for_hedge : pyval) (target : string)
    (params : gmap string pyval) : Prop := mkMarketRequest {
  mr_symbol : params !! "symbol"%string = Some (PStr target);
  mr_side : params !! "side"%string = Some (PStr side);
  mr_type : params !! "type"%string = Some (PStr "MARKET");
  mr_position_side :
    params !! "positionSide"%string
    = if hedged self position_side_for_hedge then Some position_side_for_hedge else None;
  mr_reduce_only :
    params !! "reduceOnly"%string
    = if negb (hedged self position_side_for_hedge) && reduce_only
      then Some (PStr "true") else None;
  mr_quantity :
    ∃ s_info adjusted text,
      TM.get_symbol_info_data self target = TM.Answer (Some s_info)
      ∧ adjust_quantity_to_step_size (TM.with_info (Some s_info)) quantity = Some adjusted
      ∧ (0 < Decimal_Q adjusted)%Q
      ∧ TM._format_order_quantity (Some s_info) adjusted = Some text
      ∧ params !! "quantity"%string = Some (PStr text)
}.

(** The stop or take-profit order a request asks for. *)
Record protective_request (order_type : string) (self : TM.TradeManagerObject)
    (position_asset_side : string) (trigger_price : Decimal) (target : string)
    (params : gmap string pyval) : Prop := mkProtectiveRequest {
  pr_symbol : params !! "symbol"%string = Some (PStr target);
  pr_type : params !! "type"%string = Some (PStr order_type);
  pr_side :
    params !! "side"%string
    = Some (PStr (if String.eqb position_asset_side "BUY" then "SELL" else "BUY"));
  pr_close_position : params !! "closePosition"%string = Some (PStr "true");
  pr_no_quantity : params !! "quantity"%string = None;
  pr_position_side :
    params !! "positionSide"%string
    = if truthy (TM.is_hedge_mode_active self)
      then Some (PStr (if String.eqb position_asset_side "BUY" then "LONG" else "SHORT"))
      else None;
  pr_stop_price :
    ∃ s_info text,
      TM.get_symbol_info_data self target = TM.Answer s_info
      ∧ Decimal_bool (adjust_price_to_tick_size (TM.with_info s_info) trigger_price) = true
      ∧ TM._format_order_price s_info
          (adjust_price_to_tick_size (TM.with_info s_info) trigger_price) = Some text
      ∧ params !! "stopPrice"%string = Some (PStr text)
}.

(** The statuses of an order that can still be cancelled, and the final
    ones. *)
Definition open_statuses : list string := ["NEW"; "PARTIALLY_FILLED"; "PENDING_CANCEL"]%string.
Definition final_statuses : list string :=
  ["FILLED"; "CANCELED"; "EXPIRED"; "REJECTED"; "NOT_FOUND_OR_DELETED"]%string.

(** The object's own symbol is in upper case, as [__init__] stores it. *)
Definition symbol_is_upper (self : TM.TradeManagerObject) : Prop :=
  TM.upper (TM.symbol self) = TM.symbol self.






(** The entry order of a pending payload is reported with the given status. *)
Definition entry_order_status (tm : TradeManager) (td : gmap string pyval)
    (status : pyval) : Prop :=
  truthy (dict_get td "current_entry_order_id") = true
  ∧ ∃ info, check_order_status tm (dict_get td "current_entry_order_id") = Some info
            ∧ truthy (PDict info) = true ∧ dict_get info "status" = status.

(** * Concrete inputs *)

Module examples.

(** A manager that knows no symbol information and answers nothing. *)
Definition silent_manager : TradeManager :=
  mkTradeManager None None (λ _ _ _ _, None) (λ _ _, None) (λ _ _, None)
    (λ _, None) (λ _, false) (λ _ _ _ _, None) (λ _, None) (λ _, None).

(** The pending LONG payload of a filled limit order. *)
Definition pending_long : gmap string pyval :=
  list_to_map [
    ("status", PStr "PENDING_DYNAMIC_LIMIT"); ("symbol", PStr "BTCUSDT");
    ("signal_type", PStr "BUY"); ("quantity", PStr "0.5");
    ("target_entry_price", PStr "100.0"); ("target_sl_price", PStr "99.0");
    ("target_tp_price", PStr "103.0"); ("position_side_hedge_mode", PStr "LONG");
    ("accumulated_loss_at_entry", PStr "3.0")
  ].

Definition filled_entry : gmap string pyval :=
  list_to_map [("orderId", PInt 11); ("status", PStr "FILLED"); ("avgPrice", PStr "100.0")].

(** The market trades at 100.5 and the exchange rejects the stop order. *)
Definition rejecting_manager : TradeManager :=
  mkTradeManager None (Some (mkDecimal false 1005 (-1)))
    (λ _ _ _ _, None) (λ _ _, None) (λ _ _, None)
    (λ _, None) (λ _, false) (λ _ _ _ _, None) (λ _, None) (λ _, None).

(** The market trades at 100.5 and the exchange accepts both protective
    orders. *)
Definition accepting_manager : TradeManager :=
  mkTradeManager None (Some (mkDecimal false 1005 (-1)))
    (λ _ _ _ _, None)
    (λ _ _, Some {[ "orderId" := PInt 21 ]}) (λ _ _, Some {[ "orderId" := PInt 22 ]})
    (λ _, None) (λ _, false) (λ _ _ _ _, None) (λ _, None) (λ _, None).

Definition state_with_pending_long : PersistentState :=
  mkPersistentState {[ "BTCUSDT_LONG" := PDict pending_long ]} ∅ None.

End examples.

Module closure_examples.

(** An open LONG position with both protective orders, opened when the
    accumulated loss of its slot was 3.0. *)
Definition open_long : gmap string pyval :=
  list_to_map [
    ("status", PStr "POSITION_OPEN"); ("symbol", PStr "BTCUSDT");
    ("side", PStr "BUY"); ("quantity", PStr "0.5");
    ("entry_price_actual", PStr "100.0");
    ("sl_order_response", PDict {[ "orderId" := PInt 21 ]});
    ("tp_order_response", PDict {[ "orderId" := PInt 22 ]});
    ("position_side_hedge_mode", PStr "LONG");
    ("accumulated_loss_at_entry", PStr "3.0")
  ].

Definition state_with_open_long : PersistentState :=
  mkPersistentState {[ "BTCUSDT_LONG" := PDict open_long ]}
    {[ "BTCUSDT_LONG" := PDec (mkDecimal false 30 (-1)) ]} None.

Definition status_answer (filled : Z) (order_id : pyval) : option (gmap string pyval) :=
  match order_id with
  | PInt n => Some {[ "status" := PStr (if n =? filled then "FILLED" else "NEW") ]}
  | _ => None
  end.

(** The order [filled] is reported FILLED, the other one NEW, and the closure
    realized [pnl]. *)
Definition closing_manager (filled : Z) (pnl : Decimal) : TradeManager :=
  mkTradeManager None None (λ _ _ _ _, None) (λ _ _, None) (λ _ _, None)
    (status_answer filled) (λ _, true)
    (λ _ _ _ _, Some (mkClosureDetails pnl (mkDecimal false 990 (-1))
                        (mkDecimal false 5 (-1)) "USDT"))
    (λ _, None) (λ _, None).

Definition now : Timestamp := mkTimestamp "2024-05-01T12:00:00+00:00".

End closure_examples.

Module loop_examples.

(** Handlers that leave the state as it is. *)
Definition idle : handler := λ st, (Returned tt, st).

Definition one_symbol : list (string * option bool) := [("BTCUSDT"%string, None)].

(** One tick over [one_symbol] with idle handlers and a leverage that can be
    set, from the state with the open LONG position. *)
Definition tick_with_flag (telegram_bot_manager : option bool)
    : PersistentState * list dispatch :=
  tick (λ _ _ _, idle) (λ _ _ _, idle) (λ _, idle) (λ _, Returned true)
    one_symbol telegram_bot_manager closure_examples.state_with_open_long.

End loop_examples.

Module sizing_examples.

(** A manager whose cached symbol information is [s_info]. *)
Definition manager_of (s_info : SymbolInfo) : TradeManager :=
  mkTradeManager (Some s_info) None (λ _ _ _ _, None) (λ _ _, None) (λ _ _, None)
    (λ _, None) (λ _, false) (λ _ _ _ _, None) (λ _, None) (λ _, None).


(** Step 0.001, minimum quantity 0.001, minimum notional 5, tick 0.1. *)
Definition btc : SymbolInfo :=
  mkSymbolInfo 1 3 "USDT" (mkDecimal false 1 (-3)) (mkDecimal false 1 (-3))
    (mkDecimal false 5 0) (mkDecimal false 1 (-1)).

End sizing_examples.

Module state_examples.

(** A state with a pending LONG payload that holds a [Decimal] and a
    timestamp, and an accumulated loss of 3.0 for the LONG slot. *)
Definition mixed_state : PersistentState :=
  mkPersistentState
    {[ "BTCUSDT_LONG" :=
         PDict {[ "quantity" := PDec (mkDecimal false 5 (-1));
                  "opened" := PTs (mkTimestamp "2024-05-01T12:00:00+00:00") ]} ]}
    {[ "BTCUSDT_LONG" := PDec (mkDecimal false 30 (-1)) ]}
    None.

End state_examples.

Module signal_examples.



End signal_examples.

Module closure_details_examples.







End closure_details_examples.

Module restart_examples.

Definition loss_3 : gmap string pyval :=
  {[ "BTCUSDT_LONG" := PDec (mkDecimal false 30 (-1)) ]}.

(** A state with a loss of 3.0 for the LONG slot, as its file has it. *)
Definition saved : PersistentState :=
  save_state (mkPersistentState ∅ loss_3 None).

(** A state whose LONG slot holds an empty payload, as its file has it. *)
Definition saved_empty_payload : PersistentState :=
  save_state (mkPersistentState {[ "BTCUSDT_LONG" := PDict ∅ ]} ∅ None).



End restart_examples.

Module vanished_examples.

(** Both protective orders are reported NEW and the exchange shows no
    position. *)
Definition flat_manager : TradeManager := closure_examples.closing_manager 0 Decimal_0.

(** The stop order 21 is reported CANCELED, every other order NEW, and the
    exchange shows no position. *)
Definition sl_canceled_manager : TradeManager :=
  mkTradeManager None None (λ _ _ _ _, None) (λ _ _, None) (λ _ _, None)
    (λ order_id,
       match order_id with
       | PInt n => Some {[ "status" := PStr (if n =? 21 then "CANCELED" else "NEW") ]}
       | _ => None
       end)
    (λ _, true) (λ _ _ _ _, None) (λ _, None) (λ _, None).

(** An open LONG position whose payload has no stop order. *)
Definition unprotected_long : gmap string pyval :=
  list_to_map [
    ("status", PStr "POSITION_OPEN"); ("symbol", PStr "BTCUSDT");
    ("side", PStr "BUY"); ("quantity", PStr "0.5");
    ("entry_price_actual", PStr "100.0");
    ("tp_order_response", PDict {[ "orderId" := PInt 22 ]});
    ("position_side_hedge_mode", PStr "LONG")
  ].

Definition state_with_unprotected_long : PersistentState :=
  mkPersistentState {[ "BTCUSDT_LONG" := PDict unprotected_long ]} ∅ None.

(** Every order is reported NEW and the exchange shows a position of 0.5. *)
Definition holding_manager : TradeManager :=
  mkTradeManager None None (λ _ _ _ _, None) (λ _ _, None) (λ _ _, None)
    (closure_examples.status_answer 0) (λ _, true) (λ _ _ _ _, None) (λ _, None)
    (λ _, Some {[ "amount" := PDec (mkDecimal false 5 (-1)) ]}).

Definition later : Timestamp := mkTimestamp "2024-05-01T12:00:10+00:00".

End vanished_examples.

Module client_examples.

(** The exchange knows the order 21, in the given status, and no other. *)
Definition get_order (status_of_21 : string) (symbol : string) (order : TM.order_selector)
    : TM.answer (gmap string pyval) :=
  match order with
  | TM.ByOrderId (PInt 21) =>
      TM.Answer (<["orderId" := PInt 21]> {[ "status" := PStr status_of_21 ]})
  | _ => TM.Throws (TM.BinanceAPIException (-2013))
  end.

(** An exchange that accepts every order and cancellation. *)
Definition exchange (hedge : bool) (status_of_21 : string) : TM.Client :=
  TM.mkClient (TM.Answer (PDict {[ "dualSidePosition" := PBool hedge ]}))
    (λ params, TM.Answer (<["orderId" := PInt 31]> params))
    (get_order status_of_21) (λ _ _, TM.Answer PNone)
    (λ _, TM.Throws TM.OtherException) (λ _ _, TM.Answer PNone).

Definition manager (hedge : bool) (status_of_21 : string) : TM.TradeManagerObject :=
  TM.mkTradeManagerObject (exchange hedge status_of_21) "BTCUSDT"
    (λ _, TM.Answer (Some sizing_examples.btc)).

End client_examples.

Module fill_examples.

(** The payload stored when the pending LONG order of [examples] is filled
    at 100.0 and both protective orders are accepted. *)
Definition opened_long : gmap string pyval :=
  list_to_map [
    ("status", PStr "POSITION_OPEN"); ("symbol", PStr "BTCUSDT");
    ("side", PStr "BUY"); ("quantity", PStr "0.5");
    ("entry_price_actual", PStr "100.0");
    ("entry_order_response", PDict examples.filled_entry);
    ("sl_order_response", PDict {[ "orderId" := PInt 21 ]});
    ("tp_order_response", PDict {[ "orderId" := PInt 22 ]});
    ("position_side_hedge_mode", PStr "LONG")
  ].

End fill_examples.

Module fill_check_examples.

(** The pending LONG payload of [examples], with the limit order 21 placed
    for it. *)
Definition pending_with_order : gmap string pyval :=
  <["current_entry_order_id" := PInt 21]> examples.pending_long.

End fill_check_examples.

(** * Properties *)

Section digits.

Lemma chars_uint_chars (u : Init.Decimal.uint) : chars_uint (uint_chars u) = Some u.
Proof. induction u; simpl; rewrite ?IHu; reflexivity. Qed.

Lemma uint_chars_digits (u : Init.Decimal.uint) : Forall (λ c, is_digit c = true) (uint_chars u).
Proof. induction u; simpl; constructor; auto. Qed.

Lemma N_of_digits_of_N (n : N) : N_of_digits (digits_of_N n) = Some n.
Proof.
  unfold N_of_digits, digits_of_N. rewrite chars_uint_chars.
  f_equal. apply DecimalN.Unsigned.of_to.
Qed.

Lemma digits_of_N_digits (n : N) : Forall (λ c, is_digit c = true) (digits_of_N n).
Proof. apply uint_chars_digits. Qed.

Lemma digits_of_N_nonempty (n : N) : digits_of_N n ≠ [].
Proof.
  intros H. pose proof (N_of_digits_of_N n) as Hn. rewrite H in Hn.
  cbn in Hn. injection Hn as <-. discriminate H.
Qed.

Lemma N_of_digits_leading_zeros (k : nat) (l : list ascii) :
  N_of_digits (replicate k "0"%char ++ l) = N_of_digits l.
Proof.
  induction k as [|k IH]; [reflexivity|].
  unfold N_of_digits in *. simpl.
  destruct (chars_uint (replicate k "0"%char ++ l)) as [u|] eqn:E;
    destruct (chars_uint l) as [u'|] eqn:E'; simpl; try congruence.
Qed.

Lemma span_digits_app (ds r : list ascii) :
  Forall (λ c, is_digit c = true) ds →
  match r with [] => True | c :: _ => is_digit c = false end →
  span_digits (ds ++ r) = (ds, r).
Proof.
  intros Hds Hr. induction Hds as [|c ds Hc _ IH]; simpl.
  - destruct r as [|c r]; [reflexivity|]. simpl. rewrite Hr. reflexivity.
  - rewrite Hc, IH. reflexivity.
Qed.

Lemma strip_sign_digit (c : ascii) (l : list ascii) :
  is_digit c = true → strip_sign (c :: l) = (false, c :: l).
Proof.
  intros H. unfold strip_sign.
  destruct (Ascii.eqb c "-") eqn:E1.
  - apply Ascii.eqb_eq in E1. subst. discriminate.
  - destruct (Ascii.eqb c "+") eqn:E2; [|reflexivity].
    apply Ascii.eqb_eq in E2. subst. discriminate.
Qed.

End digits.

Lemma Z_of_chars_signed (z : Z) : Z_of_chars (signed_chars z) = Some z.
Proof.
  unfold Z_of_chars, signed_chars.
  destruct (z <? 0) eqn:Hz; cbn [strip_sign Ascii.eqb Bool.eqb];
    (destruct (digits_of_N (Z.abs_N z)) as [|c ds] eqn:E;
      [exfalso; exact (digits_of_N_nonempty _ E)|]);
    rewrite <- E, N_of_digits_of_N; f_equal; lia.
Qed.

Lemma parse_exponent_signed (z : Z) :
  parse_exponent ("E"%char :: signed_chars z) = Some z.
Proof. cbn [parse_exponent Ascii.eqb Bool.eqb orb]. apply Z_of_chars_signed. Qed.

(** The parser on a numeral laid out as the printer does. *)
Lemma Decimal_of_chars_layout (sign hasdot : bool) (ip fp ex : list ascii) (n : N) (e : Z) :
  Forall (λ c, is_digit c = true) ip →
  Forall (λ c, is_digit c = true) fp →
  ip ≠ [] →
  (hasdot = false → fp = []) →
  N_of_digits (ip ++ fp) = Some n →
  parse_exponent ex = Some e →
  (ex = [] ∨ ∃ r, ex = "E"%char :: r) →
  Decimal_of_chars ((if sign then ["-"%char] else []) ++ ip
                    ++ (if hasdot then "."%char :: fp else []) ++ ex)
  = Some (mkDecimal sign n (e - Z.of_nat (length fp))).
Proof.
  intros Hip Hfp Hne Hdot Hn He Hex.
  unfold Decimal_of_chars.
  assert (Hs : strip_sign ((if sign then ["-"%char] else []) ++ ip
                 ++ (if hasdot then "."%char :: fp else []) ++ ex)
               = (sign, ip ++ (if hasdot then "."%char :: fp else []) ++ ex)).
  { destruct sign; [reflexivity|]. simpl.
    destruct ip as [|c ip']; [done|]. apply strip_sign_digit.
    by inversion Hip. }
  rewrite Hs.
  rewrite (span_digits_app ip); [|done|].
  2:{ destruct hasdot; [reflexivity|]. destruct Hex as [->|[r ->]]; simpl; done. }
  assert (Hfr : match (if hasdot then "."%char :: fp else []) ++ ex with
                | c :: r1' => if Ascii.eqb c "."%char then span_digits r1'
                              else ([], (if hasdot then "."%char :: fp else []) ++ ex)
                | [] => ([], (if hasdot then "."%char :: fp else []) ++ ex)
                end = (fp, ex)).
  { destruct hasdot.
    - cbn [app Ascii.eqb Bool.eqb]. apply span_digits_app; [done|].
      destruct Hex as [->|[r ->]]; done.
    - rewrite (Hdot eq_refl). destruct Hex as [->|[r ->]]; reflexivity. }
  rewrite Hfr.
  destruct ip as [|c ip']; [done|].
  rewrite Hn, He. reflexivity.
Qed.

Theorem Decimal_of_chars_chars (d : Decimal) :
  Decimal_of_chars (Decimal_chars d) = Some d.
Proof.
  destruct d as [sign n e]. unfold Decimal_chars. cbv zeta. cbn [d_sign d_int d_exp].
  pose proof (digits_of_N_digits n) as Hd.
  pose proof (digits_of_N_nonempty n) as Hne.
  pose proof (N_of_digits_of_N n) as Hn.
  set (digits := digits_of_N n) in *.
  assert (Hlen : (0 < length digits)%nat) by (destruct digits; [done|simpl; lia]).
  set (len := Z.of_nat (length digits)).
  assert (Hlen' : 0 < len) by (unfold len; lia).
  destruct ((e <=? 0) && (-6 <? e + len)) eqn:Hplain.
  - (* no exponent *)
    apply andb_prop in Hplain as [He Hl]. apply Z.leb_le in He. apply Z.ltb_lt in Hl.
    rewrite Z.eqb_refl.
    destruct (e + len <=? 0) eqn:Hdp.
    + apply Z.leb_le in Hdp.
      etrans; [refine (Decimal_of_chars_layout sign true ["0"%char]
                 (replicate (Z.to_nat (- (e + len))) "0"%char ++ digits) [] n 0
                 _ _ _ _ _ _ _)|].
      * repeat constructor.
      * apply Forall_app; split; [|done]. apply Forall_replicate. reflexivity.
      * done.
      * done.
      * change (N_of_digits (replicate (S (Z.to_nat (- (e + len)))) "0"%char ++ digits) = Some n).
        by rewrite N_of_digits_leading_zeros.
      * reflexivity.
      * by left.
      * f_equal. f_equal. rewrite length_app, length_replicate. unfold len. lia.
    + apply Z.leb_gt in Hdp.
      destruct (len <=? e + len) eqn:Hge.
      * apply Z.leb_le in Hge. assert (e = 0) as -> by lia.
        replace (Z.to_nat (0 + len - len)) with 0%nat by lia. cbn [replicate].
        rewrite (app_nil_r digits).
        etrans; [refine (Decimal_of_chars_layout sign false digits [] [] n 0
                   _ _ _ _ _ _ _)|]; try done.
        -- by rewrite app_nil_r.
        -- by left.
      * apply Z.leb_gt in Hge.
        etrans; [refine (Decimal_of_chars_layout sign true (take (Z.to_nat (e + len)) digits)
                   (drop (Z.to_nat (e + len)) digits) [] n 0 _ _ _ _ _ _ _)|].
        -- by apply Forall_take.
        -- by apply Forall_drop.
        -- intros Ht. apply (f_equal length) in Ht. rewrite length_take in Ht.
           cbn [length] in Ht. unfold len in *. lia.
        -- done.
        -- by rewrite take_drop.
        -- reflexivity.
        -- by left.
        -- f_equal. f_equal. rewrite length_drop. unfold len. lia.
  - (* scientific notation *)
    assert (Hsci : 0 < e ∨ e + len <= -6).
    { apply andb_false_iff in Hplain as [H|H]; [apply Z.leb_gt in H|apply Z.ltb_ge in H]; lia. }
    assert (Hne1 : (e + len =? 1) = false) by (apply Z.eqb_neq; lia).
    rewrite Hne1. change (1 <=? 0) with false. cbv iota.
    destruct (len <=? 1) eqn:H1.
    + apply Z.leb_le in H1. assert (len = 1) as Hl1 by lia. rewrite Hl1.
      change (Z.to_nat (1 - 1)) with 0%nat. cbn [replicate].
      rewrite (app_nil_r digits).
      etrans; [refine (Decimal_of_chars_layout sign false digits []
                 ("E"%char :: signed_chars (e + 1 - 1)) n (e + 1 - 1)
                 _ _ _ _ _ _ _)|]; try done.
      * by rewrite app_nil_r.
      * apply parse_exponent_signed.
      * right. eauto.
      * f_equal. f_equal. simpl. lia.
    + apply Z.leb_gt in H1.
      etrans; [refine (Decimal_of_chars_layout sign true (take (Z.to_nat 1) digits)
                 (drop (Z.to_nat 1) digits)
                 ("E"%char :: signed_chars (e + len - 1)) n (e + len - 1)
                 _ _ _ _ _ _ _)|].
      * by apply Forall_take.
      * by apply Forall_drop.
      * intros Ht. apply (f_equal length) in Ht. rewrite length_take in Ht.
        cbn [length] in Ht. unfold len in *. lia.
      * done.
      * by rewrite take_drop.
      * apply parse_exponent_signed.
      * right. eauto.
      * f_equal. f_equal. rewrite length_drop. unfold len. lia.
Qed.

Theorem Decimal_of_string_str (d : Decimal) :
  Decimal_of_string (Decimal_str d) = Some d.
Proof.
  unfold Decimal_of_string, Decimal_str.
  rewrite list_ascii_of_string_of_list_ascii. apply Decimal_of_chars_chars.
Qed.

Section value.

Lemma pow10_pos (e : Z) : (0 < pow10 e)%Q.
Proof. apply Qpower_0_lt. reflexivity. Qed.

Lemma pow10_plus (a b : Z) : (pow10 (a + b) == pow10 a * pow10 b)%Q.
Proof. apply Qpower_plus. discriminate. Qed.

Lemma pow10_inject (k : Z) : 0 <= k → (inject_Z (10 ^ k) == pow10 k)%Q.
Proof. intros Hk. rewrite Zpower_Qpower by done. reflexivity. Qed.

Lemma signed_int_of_signed (zs : bool) (z e : Z) : signed_int (of_signed zs z e) = z.
Proof.
  unfold signed_int, of_signed. cbn [d_sign d_int].
  rewrite N2Z.inj_abs_N.
  destruct (z =? 0) eqn:E.
  - apply Z.eqb_eq in E. subst. by destruct zs.
  - apply Z.eqb_neq in E. destruct (z <? 0) eqn:E'.
    + apply Z.ltb_lt in E'. lia.
    + apply Z.ltb_ge in E'. lia.
Qed.

Lemma Decimal_Q_of_signed (zs : bool) (z e : Z) :
  (Decimal_Q (of_signed zs z e) == inject_Z z * pow10 e)%Q.
Proof. unfold Decimal_Q. rewrite signed_int_of_signed. reflexivity. Qed.

Lemma Decimal_Q_0 : (Decimal_Q Decimal_0 == 0)%Q.
Proof. reflexivity. Qed.

Lemma Decimal_Q_add (a b : Decimal) :
  (Decimal_Q (Decimal_add a b) == Decimal_Q a + Decimal_Q b)%Q.
Proof.
  unfold Decimal_add. rewrite Decimal_Q_of_signed. unfold Decimal_Q.
  set (e := Z.min (d_exp a) (d_exp b)).
  assert (Ha : (pow10 (d_exp a) == pow10 (d_exp a - e) * pow10 e)%Q).
  { rewrite <- pow10_plus. replace (d_exp a - e + e) with (d_exp a) by lia. reflexivity. }
  assert (Hb : (pow10 (d_exp b) == pow10 (d_exp b - e) * pow10 e)%Q).
  { rewrite <- pow10_plus. replace (d_exp b - e + e) with (d_exp b) by lia. reflexivity. }
  rewrite Ha, Hb, inject_Z_plus, !inject_Z_mult.
  rewrite !pow10_inject by lia. ring.
Qed.

Lemma signed_int_copy_negate (a : Decimal) : signed_int (copy_negate a) = - signed_int a.
Proof. unfold signed_int, copy_negate. cbn. destruct (d_sign a); cbn; lia. Qed.

Lemma Decimal_Q_copy_negate (a : Decimal) :
  (Decimal_Q (copy_negate a) == - Decimal_Q a)%Q.
Proof.
  unfold Decimal_Q. rewrite signed_int_copy_negate. cbn [d_exp copy_negate].
  rewrite inject_Z_opp. ring.
Qed.

Lemma Decimal_Q_sub (a b : Decimal) :
  (Decimal_Q (Decimal_sub a b) == Decimal_Q a - Decimal_Q b)%Q.
Proof.
  unfold Decimal_sub. rewrite Decimal_Q_add, Decimal_Q_copy_negate. ring.
Qed.


Lemma Decimal_Q_abs (a : Decimal) :
  (Decimal_Q (Decimal_abs a) == Qabs (Decimal_Q a))%Q.
Proof.
  unfold Decimal_Q, Decimal_abs. cbn [d_exp].
  rewrite Qabs_Qmult. rewrite (Qabs_pos (pow10 (d_exp a))) by (apply Qlt_le_weak, pow10_pos).
  apply Qmult_comp; [|reflexivity].
  unfold signed_int. cbn [d_sign d_int].
  destruct (d_sign a).
  - rewrite inject_Z_opp, Qabs_opp. symmetry. apply Qabs_pos.
    change 0%Q with (inject_Z 0). rewrite <- Zle_Qle. lia.
  - symmetry. apply Qabs_pos. change 0%Q with (inject_Z 0). rewrite <- Zle_Qle. lia.
Qed.


Lemma Decimal_lt_spec (a b : Decimal) :
  Decimal_lt a b = true ↔ (Decimal_Q a < Decimal_Q b)%Q.
Proof.
  unfold Decimal_lt. rewrite negb_true_iff.
  destruct (Qle_bool (Decimal_Q b) (Decimal_Q a)) eqn:E.
  - apply Qle_bool_iff in E. split; [done|]. intros H. exfalso. lra.
  - split; [|done]. intros _. apply Qnot_le_lt. intros H.
    apply Qle_bool_iff in H. congruence.
Qed.

Lemma Decimal_le_spec (a b : Decimal) :
  Decimal_le a b = true ↔ (Decimal_Q a <= Decimal_Q b)%Q.
Proof. apply Qle_bool_iff. Qed.

Lemma Decimal_gt_spec (a b : Decimal) :
  Decimal_gt a b = true ↔ (Decimal_Q b < Decimal_Q a)%Q.
Proof. apply Decimal_lt_spec. Qed.

Lemma Decimal_ge_spec (a b : Decimal) :
  Decimal_ge a b = true ↔ (Decimal_Q b <= Decimal_Q a)%Q.
Proof. apply Decimal_le_spec. Qed.


Lemma Decimal_lt_false (a b : Decimal) :
  Decimal_lt a b = false ↔ (Decimal_Q b <= Decimal_Q a)%Q.
Proof.
  unfold Decimal_lt. rewrite negb_false_iff. apply Qle_bool_iff.
Qed.

Lemma Decimal_le_false (a b : Decimal) :
  Decimal_le a b = false ↔ (Decimal_Q b < Decimal_Q a)%Q.
Proof.
  rewrite <- Decimal_lt_spec. unfold Decimal_lt, Decimal_le.
  destruct (Qle_bool (Decimal_Q a) (Decimal_Q b)); simpl; split; congruence.
Qed.

(** A zero coefficient is the number zero, and conversely. *)
Lemma Decimal_bool_spec (a : Decimal) :
  Decimal_bool a = false ↔ (Decimal_Q a == 0)%Q.
Proof.
  unfold Decimal_bool, Decimal_Q. rewrite negb_false_iff, N.eqb_eq.
  split.
  - intros H. unfold signed_int. rewrite H.
    destruct (d_sign a); cbn [Z.of_N Z.opp]; apply Qmult_0_l.
  - intros H. apply Qmult_integral in H as [H|H].
    + unfold signed_int in H. unfold Qeq in H. cbn in H.
      destruct (d_sign a); lia.
    + pose proof (pow10_pos (d_exp a)). lra.
Qed.

End value.

Section nested_induction.

Lemma pysize_list_elem (l : list pyval) (v : pyval) :
  v ∈ l → (pysize v < pysize (PList l))%nat.
Proof. simpl. induction 1; simpl in *; lia. Qed.

Lemma pysize_dict_elem (m : gmap string pyval) (k : string) (v : pyval) :
  m !! k = Some v → (pysize v < pysize (PDict m))%nat.
Proof.
  simpl. revert k v.
  induction m as [|i x m Hi Hfold IH] using map_first_key_ind; intros k v Hk.
  - by rewrite lookup_empty in Hk.
  - rewrite map_fold_insert_first_key by done.
    destruct (decide (i = k)) as [->|Hne].
    + rewrite lookup_insert_eq in Hk. injection Hk as ->. lia.
    + rewrite lookup_insert_ne in Hk by done. specialize (IH _ _ Hk). lia.
Qed.

(** Induction on a value with the hypothesis for every item of a list and
    every value of a dictionary. *)
Lemma pyval_nested_ind (P : pyval → Prop) :
  P PNone → (∀ b, P (PBool b)) → (∀ z, P (PInt z)) → (∀ s, P (PStr s)) →
  (∀ d, P (PDec d)) → (∀ t, P (PTs t)) →
  (∀ l, Forall P l → P (PList l)) →
  (∀ m, map_Forall (λ _, P) m → P (PDict m)) →
  ∀ v, P v.
Proof.
  intros HN HB HI HS HD HT HL HM v.
  remember (pysize v) as n eqn:Hn. revert v Hn.
  induction n as [n IH] using lt_wf_ind. intros v ->.
  destruct v; auto.
  - apply HL. apply Forall_forall. intros x Hx.
    apply (IH (pysize x)); [by apply pysize_list_elem|done].
  - apply HM. intros k x Hk.
    apply (IH (pysize x)); [by eapply pysize_dict_elem|done].
Qed.

End nested_induction.

Section conversion.

Lemma convert_idempotent (v : pyval) :
  convert_to_json_serializable (convert_to_json_serializable v)
  = convert_to_json_serializable v.
Proof.
  induction v as [| | | | | |l IH|m IH] using pyval_nested_ind; try reflexivity.
  - simpl. f_equal. rewrite map_map. apply map_ext_Forall. done.
  - simpl. f_equal. rewrite <- map_fmap_compose. apply map_fmap_ext.
    intros k x Hk. apply (IH k x Hk).
Qed.

Lemma convert_is_None (v : pyval) :
  is_None (convert_to_json_serializable v) = is_None v.
Proof. by destruct v. Qed.

Lemma Decimal_of_str_of_PDec (d : Decimal) : Decimal_of_str_of (PDec d) = Some d.
Proof. apply Decimal_of_string_str. Qed.

End conversion.

Section round_trip.

Lemma state_to_save_lookup_trades (st : PersistentState) :
  dict_get_default
    (<["active_trades" := PDict (convert_to_json_serializable <$>
         filter (λ kv, is_None kv.2 = false) (active_trades st))]>
     (<["accumulated_losses" := convert_to_json_serializable (PDict (accumulated_losses st))]> ∅))
    "active_trades" (PDict ∅)
  = PDict (convert_to_json_serializable <$>
             filter (λ kv, is_None kv.2 = false) (active_trades st)).
Proof. unfold dict_get_default. by rewrite lookup_insert_eq. Qed.

Lemma load_saved_losses (m : gmap string pyval) :
  only_decimals m →
  load_accumulated_losses (convert_to_json_serializable <$> m) = Some m.
Proof.
  intros Hm. unfold load_accumulated_losses.
  rewrite bool_decide_eq_true_2.
  - f_equal. apply map_eq. intros k.
    rewrite lookup_omap, lookup_fmap.
    destruct (m !! k) as [v|] eqn:Hk; [|reflexivity].
    destruct (Hm k v Hk) as [d ->]. cbn.
    change (Decimal_of_string (Decimal_str d)) with (Decimal_of_str_of (PDec d)).
    by rewrite Decimal_of_str_of_PDec.
  - intros k v Hk. rewrite lookup_fmap in Hk.
    destruct (m !! k) as [v'|] eqn:Hk'; [|done]. injection Hk as <-.
    destruct (Hm k v' Hk') as [d ->]. right. cbn.
    change (Decimal_of_string (Decimal_str d)) with (Decimal_of_str_of (PDec d)).
    rewrite Decimal_of_str_of_PDec. eauto.
Qed.

(** What [load_state] reads from a file [save_state] wrote. *)
Lemma load_state_saved (st : PersistentState) :
  only_decimals (accumulated_losses st) →
  load_state (Some (state_to_save st))
  = mkPersistentState
      (convert_to_json_serializable <$>
         filter (λ kv, is_None kv.2 = false) (active_trades st))
      (accumulated_losses st)
      (Some (state_to_save st)).
Proof.
  intros Hd. unfold load_state, state_to_save at 1.
  rewrite state_to_save_lookup_trades.
  unfold dict_get_default. rewrite lookup_insert_ne by done. rewrite lookup_insert_eq.
  cbn [default convert_to_json_serializable id].
  by rewrite load_saved_losses.
Qed.

Lemma saved_trades_fixpoint (m : gmap string pyval) :
  let saved := convert_to_json_serializable <$> filter (λ kv, is_None kv.2 = false) m in
  convert_to_json_serializable <$> filter (λ kv, is_None kv.2 = false) saved = saved.
Proof.
  intros saved.
  assert (Hf : filter (λ kv : string * pyval, is_None kv.2 = false) saved = saved).
  { apply map_filter_id. intros k v Hk. unfold saved in Hk.
    rewrite lookup_fmap in Hk.
    destruct (filter _ m !! k) as [v'|] eqn:Hk'; [|done]. injection Hk as <-.
    apply map_lookup_filter_Some in Hk' as [_ Hn]. cbn in *.
    by rewrite convert_is_None. }
  rewrite Hf. unfold saved. rewrite <- map_fmap_compose.
  apply map_fmap_ext. intros k v _. apply convert_idempotent.
Qed.

Lemma save_load_save_document (st : PersistentState) :
  only_decimals (accumulated_losses st) →
  state_to_save (load_state (Some (state_to_save st))) = state_to_save st.
Proof.
  intros Hd. rewrite load_state_saved by done.
  unfold state_to_save at 1. cbn [active_trades accumulated_losses].
  rewrite saved_trades_fixpoint. reflexivity.
Qed.

End round_trip.

Section losses.

Lemma valid_key_spec (k : string) : valid_key k = true ↔ k ≠ ""%string.
Proof.
  unfold valid_key. rewrite negb_true_iff. split.
  - intros H ->. by rewrite String.eqb_refl in H.
  - intros H. by apply String.eqb_neq.
Qed.

Lemma valid_key_app (a b : string) : b ≠ ""%string → valid_key (a ++ b)%string = true.
Proof.
  intros Hb. apply valid_key_spec. intros H.
  destruct a; simpl in H; [done|discriminate].
Qed.



Lemma accumulated_losses_save_state (st : PersistentState) :
  accumulated_losses (save_state st) = accumulated_losses st.
Proof. reflexivity. Qed.

Lemma accumulated_losses_set_active_trade (st : PersistentState) (k : string) (v : pyval) :
  accumulated_losses (set_active_trade st k v) = accumulated_losses st.
Proof. unfold set_active_trade. by destruct (valid_key k). Qed.

Lemma accumulated_losses_clear_active_trade (st : PersistentState) (k : string) :
  accumulated_losses (clear_active_trade st k) = accumulated_losses st.
Proof.
  unfold clear_active_trade. destruct (valid_key k); [|done].
  by destruct (truthy _).
Qed.

Lemma active_trades_clear_active_trade (st : PersistentState) (k : string) :
  valid_key k = true →
  active_trades (clear_active_trade st k) = delete k (active_trades st).
Proof.
  intros Hk. unfold clear_active_trade. rewrite Hk. by destruct (truthy _).
Qed.

Lemma active_trades_set_active_trade (st : PersistentState) (k : string) (v : pyval) :
  valid_key k = true →
  active_trades (set_active_trade st k v) = <[k := v]> (active_trades st).
Proof. intros Hk. unfold set_active_trade. by rewrite Hk. Qed.

Lemma active_trades_update_accumulated_loss (st : PersistentState) (k : string) (x : Decimal) :
  active_trades (update_accumulated_loss st k x) = active_trades st.
Proof. unfold update_accumulated_loss. by destruct (valid_key k). Qed.

Lemma active_trades_reset_accumulated_loss (st : PersistentState) (k : string) :
  active_trades (reset_accumulated_loss st k) = active_trades st.
Proof.
  unfold reset_accumulated_loss. destruct (valid_key k); [|done].
  destruct (accumulated_losses st !! k); [|done]. by destruct (ne_Decimal_0 _).
Qed.




Lemma get_update_other (st : PersistentState) (k k' : string) (x : Decimal) :
  k ≠ k' →
  get_accumulated_loss (update_accumulated_loss st k x) k' = get_accumulated_loss st k'.
Proof.
  intros Hne. unfold update_accumulated_loss. destruct (valid_key k) eqn:Hk; [|done].
  unfold get_accumulated_loss, dict_get. cbn [accumulated_losses save_state with_file].
  by rewrite lookup_insert_ne.
Qed.






Lemma get_reset_other (st : PersistentState) (k k' : string) :
  k ≠ k' →
  get_accumulated_loss (reset_accumulated_loss st k) k' = get_accumulated_loss st k'.
Proof.
  intros Hne. unfold reset_accumulated_loss. destruct (valid_key k); [|done].
  destruct (accumulated_losses st !! k) as [v|]; [destruct (ne_Decimal_0 v); [|done]|];
    unfold get_accumulated_loss, dict_get; cbn [accumulated_losses save_state with_file];
    by rewrite lookup_insert_ne.
Qed.

(** When [reset_accumulated_loss] writes, it writes [Decimal('0')]. *)
Lemma reset_stores_Decimal_0 (st : PersistentState) (k : string) :
  valid_key k = true →
  accumulated_losses (reset_accumulated_loss st k) !! k = Some (PDec Decimal_0)
  ∨ (∃ v, accumulated_losses st !! k = Some v ∧ ne_Decimal_0 v = false
          ∧ reset_accumulated_loss st k = st).
Proof.
  intros Hk. unfold reset_accumulated_loss. rewrite Hk.
  destruct (accumulated_losses st !! k) as [v|] eqn:Hs.
  - destruct (ne_Decimal_0 v) eqn:Hv.
    + left. cbn. apply lookup_insert_eq.
    + right. eauto.
  - left. cbn. apply lookup_insert_eq.
Qed.




End losses.

Section step_size.








End step_size.

Section quantity.


End quantity.

Section validation.

Lemma validate_BUY_returns_None (entry_price_target stop_loss_price_ref : Decimal)
    (timestamp_of_signal : Timestamp) (tm : TradeManager)
    (calculated_trade_quantity : option Decimal) (rr_multiplier_val : Decimal) :
  validate_and_calculate_trade_params "BUY" entry_price_target stop_loss_price_ref
    timestamp_of_signal tm calculated_trade_quantity rr_multiplier_val = None.
Proof.
  unfold validate_and_calculate_trade_params.
  destruct calculated_trade_quantity as [q|]; [|done].
  by destruct (negb (Decimal_bool q) || Decimal_le q Decimal_0).
Qed.

Lemma validate_SELL_returns_None (entry_price_target stop_loss_price_ref : Decimal)
    (timestamp_of_signal : Timestamp) (tm : TradeManager)
    (calculated_trade_quantity : option Decimal) (rr_multiplier_val : Decimal) :
  validate_and_calculate_trade_params "SELL" entry_price_target stop_loss_price_ref
    timestamp_of_signal tm calculated_trade_quantity rr_multiplier_val = None.
Proof.
  unfold validate_and_calculate_trade_params.
  destruct calculated_trade_quantity as [q|]; [|done].
  by destruct (negb (Decimal_bool q) || Decimal_le q Decimal_0).
Qed.

Lemma validate_COMPRA_accepts (entry sl quantity k : Decimal) (ts : Timestamp)
    (tm : TradeManager) :
  (0 < Decimal_Q quantity)%Q →
  (Decimal_Q sl < Decimal_Q entry)%Q →
  (Decimal_Q (min_tick_size tm) <= Decimal_Q entry - Decimal_Q sl)%Q →
  (Decimal_Q entry < Decimal_Q (long_take_profit tm entry sl k))%Q →
  validate_and_calculate_trade_params "COMPRA" entry sl ts tm (Some quantity) k
  = Some (mkTradeParams ts entry sl (long_take_profit tm entry sl k) "COMPRA").
Proof.
  intros Hq Hsl Htick Htp. unfold validate_and_calculate_trade_params.
  assert (Hb : Decimal_bool quantity = true).
  { destruct (Decimal_bool quantity) eqn:E; [done|].
    apply Decimal_bool_spec in E. lra. }
  assert (Hle : Decimal_le quantity Decimal_0 = false).
  { apply Decimal_le_false. by rewrite Decimal_Q_0. }
  rewrite Hb, Hle. cbn [negb orb String.eqb Ascii.eqb Bool.eqb andb].
  cbv zeta. cbn [String.eqb Ascii.eqb Bool.eqb].
  assert (H1 : Decimal_lt sl entry = true) by by apply Decimal_lt_spec.
  rewrite H1. cbn [negb].
  fold (min_tick_size tm).
  assert (H2 : Decimal_lt (Decimal_abs (Decimal_sub entry sl)) (min_tick_size tm) = false).
  { apply Decimal_lt_false. rewrite Decimal_Q_abs, Decimal_Q_sub.
    rewrite Qabs_pos by lra. done. }
  rewrite H2.
  fold (long_take_profit tm entry sl k).
  assert (H3 : Decimal_gt (long_take_profit tm entry sl k) entry = true)
    by by apply Decimal_gt_spec.
  rewrite H3. reflexivity.
Qed.

(** With the side names the signal processor uses, no iteration changes the
    state. *)
Lemma process_side_BUY_unchanged (st : PersistentState) (tm : TradeManager)
    (s_info : SymbolInfo) (wdp : option WebsocketDataProvider) (now : Timestamp)
    (leverage : Z) (k : Decimal) (symbol interval state_key : string)
    (raw : option raw_signal_components) (sz : option sizing) :
  process_side st tm s_info wdp now leverage k symbol interval "BUY" state_key raw sz = st.
Proof.
  unfold process_side. destruct (is_side_busy st state_key); [done|].
  destruct raw as [raw|], sz as [sz|]; try done.
  destruct (negb (signal_detected raw)); [done|].
  destruct (final_adjusted_quantity _ _ _ _); [|done].
  by rewrite validate_BUY_returns_None.
Qed.

Lemma process_side_SELL_unchanged (st : PersistentState) (tm : TradeManager)
    (s_info : SymbolInfo) (wdp : option WebsocketDataProvider) (now : Timestamp)
    (leverage : Z) (k : Decimal) (symbol interval state_key : string)
    (raw : option raw_signal_components) (sz : option sizing) :
  process_side st tm s_info wdp now leverage k symbol interval "SELL" state_key raw sz = st.
Proof.
  unfold process_side. destruct (is_side_busy st state_key); [done|].
  destruct raw as [raw|], sz as [sz|]; try done.
  destruct (negb (signal_detected raw)); [done|].
  destruct (final_adjusted_quantity _ _ _ _); [|done].
  by rewrite validate_SELL_returns_None.
Qed.

Lemma process_signals_never_opens (st : PersistentState) (tm : TradeManager)
    (wdp : option WebsocketDataProvider) (now : Timestamp) (leverage : Z) (k : Decimal)
    (symbol interval : string) (raw_buy raw_sell : option raw_signal_components)
    (sz_buy sz_sell : option sizing) :
  process_signals_and_initiate_trade st tm wdp now leverage k symbol interval
    raw_buy raw_sell sz_buy sz_sell = st.
Proof.
  unfold process_signals_and_initiate_trade.
  destruct (get_symbol_info_data tm); [|done].
  by rewrite process_side_BUY_unchanged, process_side_SELL_unchanged.
Qed.


End validation.

Section buy_signal.




End buy_signal.

Section emergency_close.

Lemma get_after_clear (st : PersistentState) (key : string) :
  get_active_trade (clear_active_trade st key) key = PNone.
Proof.
  unfold get_active_trade. destruct (valid_key key) eqn:Hk; [|done].
  unfold dict_get. rewrite active_trades_clear_active_trade by done.
  by rewrite lookup_delete_eq.
Qed.

Lemma emergency_close_run (td : gmap string pyval) (key : string) (tm : TradeManager)
    (st : PersistentState) (vq signal : pyval) (q : Decimal) :
  td !! "quantity" = Some vq → Decimal_of_value vq = Returned q →
  td !! "signal_type" = Some signal →
  _handle_emergency_close td key tm st
  = (Returned (PNone, true), clear_active_trade st key,
     [PlaceMarketOrder (closing_side signal) q true (dict_get td "position_side_hedge_mode")]).
Proof.
  intros Hq Hd Hs. unfold _handle_emergency_close, getitem. run_M.
  rewrite Hq, Hd, Hs. cbn [app]. rewrite get_after_clear. reflexivity.
Qed.

(** Claim C8.  An emergency close of a payload that has a quantity and a
    signal side sends one request to the exchange, a market order on the
    side opposite to the signal for the stored quantity with [reduce_only]
    set; whatever the exchange answers, the slot is then gone from the
    active trades and the accumulated losses are the ones from before. *)
Theorem emergency_close_spec (td : gmap string pyval) (key signal : string)
    (tm : TradeManager) (st : PersistentState) (vq : pyval) (q : Decimal) :
  key ≠ ""%string →
  td !! "quantity" = Some vq → Decimal_of_value vq = Returned q →
  td !! "signal_type" = Some (PStr signal) →
  ∃ st',
    _handle_emergency_close td key tm st
    = (Returned (PNone, true), st',
       [PlaceMarketOrder (if String.eqb signal "BUY" then SIDE_SELL else SIDE_BUY) q true
          (dict_get td "position_side_hedge_mode")])
    ∧ active_trades st' !! key = None
    ∧ accumulated_losses st' = accumulated_losses st.
Proof.
  intros Hk Hq Hd Hs. exists (clear_active_trade st key). split; [|split].
  - by rewrite (emergency_close_run td key tm st vq (PStr signal) q).
  - rewrite active_trades_clear_active_trade by by apply valid_key_spec.
    apply lookup_delete_eq.
  - apply accumulated_losses_clear_active_trade.
Qed.

End emergency_close.

Section fill.

Lemma bind_inv {A B : Type} (m : M A) (f : A → M B) (st st' : PersistentState)
    (r : result B) (calls : list exchange_call) :
  (m ≫= f) st = (r, st', calls) →
  (∃ e, m st = (Raised e, st', calls) ∧ r = Raised e)
  ∨ (∃ a st1 c1 c2, m st = (Returned a, st1, c1) ∧ f a st1 = (r, st', c2)
       ∧ calls = c1 ++ c2).
Proof.
  unfold mbind, M_bind. destruct (m st) as [[[a|e] st1] c1].
  - destruct (f a st1) as [[r' st2] c2] eqn:E. intros [= <- <- <-].
    right. exists a, st1, c1, c2. eauto.
  - intros [= <- <- <-]. left. eauto.
Qed.

Lemma lift_inv {A : Type} (x : result A) (st st' : PersistentState) (r : result A)
    (calls : list exchange_call) :
  lift x st = (r, st', calls) → r = x ∧ st' = st ∧ calls = [].
Proof. unfold lift. by intros [= <- <- <-]. Qed.

Lemma emergency_close_outcome (td : gmap string pyval) (key : string) (tm : TradeManager)
    (st st' : PersistentState) (r : result (pyval * bool)) (calls : list exchange_call) :
  _handle_emergency_close td key tm st = (r, st', calls) →
  (st' = st ∧ ∃ e, r = Raised e) ∨ (st' = clear_active_trade st key ∧ r = Returned (PNone, true)).
Proof.
  unfold _handle_emergency_close, getitem. run_M.
  destruct (td !! "quantity") as [vq|]; [|intros [= <- <- <-]; eauto].
  destruct (Decimal_of_value vq) as [q|e]; [|intros [= <- <- <-]; eauto].
  destruct (td !! "signal_type") as [s|]; [|intros [= <- <- <-]; eauto].
  rewrite get_after_clear. intros [= <- <- <-]. eauto.
Qed.

Lemma place_sl_after_fill_outcome (tm : TradeManager) (signal_type target : pyval)
    (entry : Decimal) (side : order_side) (st st' : PersistentState)
    (r : result (option (gmap string pyval) * bool)) (calls : list exchange_call) :
  place_sl_after_fill tm signal_type target entry side st = (r, st', calls) →
  st' = st
  ∧ ∀ resp, r = Returned (resp, true) →
      ∃ sl, calls = [PlaceStopLossOrder side sl]
            ∧ resp = stop_loss_answer tm side sl ∧ has_order_id resp = true.
Proof.
  unfold place_sl_after_fill. run_M.
  destruct (truthy target); [|intros [= <- <- <-]; split; [done|by intros ? [=]]].
  destruct (Decimal_of_value target) as [sl|e]; [|intros [= <- <- <-]; split; [done|by intros ? [=]]].
  destruct (_ || _); [|intros [= <- <- <-]; split; [done|by intros ? [=]]].
  destruct (get_current_market_price tm) as [market|];
    [|intros [= <- <- <-]; split; [done|by intros ? [=]]].
  destruct (Decimal_bool market); [|intros [= <- <- <-]; split; [done|by intros ? [=]]].
  destruct (_ || _); [|intros [= <- <- <-]; split; [done|by intros ? [=]]].
  intros [= <- <- <-]. split; [done|]. intros resp [= <- H]. eauto.
Qed.

Lemma place_tp_after_fill_state (tm : TradeManager) (signal_type target : pyval)
    (entry : Decimal) (side : order_side) (st st' : PersistentState)
    (r : result (option (gmap string pyval))) (calls : list exchange_call) :
  place_tp_after_fill tm signal_type target entry side st = (r, st', calls) → st' = st.
Proof.
  unfold place_tp_after_fill. run_M.
  destruct (truthy target); [|by intros [= <- <- <-]].
  destruct (Decimal_of_value target) as [tp|e]; [|by intros [= <- <- <-]].
  destruct (_ || _); by intros [= <- <- <-].
Qed.

Lemma has_order_id_Some (resp : option (gmap string pyval)) :
  has_order_id resp = true →
  ∃ d, resp = Some d ∧ truthy (dict_get d "orderId") = true.
Proof.
  destruct resp as [d|]; [|done]. cbn. intros H. apply andb_prop in H as [_ H]. eauto.
Qed.

End fill.

Section fill_outcome.

Lemma process_filled_order_outcome (td : gmap string pyval) (key : string)
    (info : gmap string pyval) (tm : TradeManager) (st st' : PersistentState)
    (r : result (pyval * bool)) (calls : list exchange_call) :
  _process_filled_order td key info tm st = (r, st', calls) →
  st' = st
  ∨ (st' = clear_active_trade st key ∧ r = Returned (PNone, true))
  ∨ ∃ payload, st' = set_active_trade st key (PDict payload)
               ∧ open_with_confirmed_sl tm calls payload.
Proof.
  unfold _process_filled_order. cbv zeta.
  destruct (Decimal_le _ Decimal_0).
  { intros H. apply emergency_close_outcome in H as [[-> _]|[-> ->]]; eauto. }
  intros H.
  apply bind_inv in H as [(? & H & ->)|(? & ? & ? & ? & ? & H & ->)].
    { apply lift_inv in H as (_ & -> & _). eauto. }
  match goal with H1 : lift _ _ = _ |- _ => apply lift_inv in H1 as (_ & -> & ->) end.
  apply bind_inv in H as [(? & H & ->)|(? & ? & ? & ? & ? & H & ->)].
    { apply lift_inv in H as (_ & -> & _). eauto. }
  match goal with H1 : lift _ _ = _ |- _ => apply lift_inv in H1 as (_ & -> & ->) end.
  apply bind_inv in H as [(? & H & ->)|(? & ? & ? & ? & ? & H & ->)].
    { apply lift_inv in H as (_ & -> & _). eauto. }
  match goal with H1 : lift _ _ = _ |- _ => apply lift_inv in H1 as (_ & -> & ->) end.
  apply bind_inv in H as [(? & H & ->)|(? & ? & ? & ? & ? & H & ->)].
    { apply lift_inv in H as (_ & -> & _). eauto. }
  match goal with H1 : lift _ _ = _ |- _ => apply lift_inv in H1 as (_ & -> & ->) end.
  apply bind_inv in H as [(? & H & ->)|(? & ? & ? & ? & ? & H & ->)].
    { apply place_sl_after_fill_outcome in H as [-> _]. eauto. }
  match goal with
  | H1 : place_sl_after_fill _ _ _ _ _ _ = (Returned ?a, _, _) |- _ =>
      destruct a as [resp ok];
      apply place_sl_after_fill_outcome in H1 as [-> Hsl]
  end.
  destruct ok; cbn [negb] in H.
  2:{ apply emergency_close_outcome in H as [[-> _]|[-> ->]]; eauto. }
  destruct (Hsl resp eq_refl) as (sl & -> & Hresp & Hid).
  apply has_order_id_Some in Hid as (d & Hd & Hoid).
  apply bind_inv in H as [(? & H & ->)|(? & ? & ? & ? & ? & H & ->)].
    { apply place_tp_after_fill_state in H as ->. eauto. }
  match goal with
  | H1 : place_tp_after_fill _ _ _ _ _ _ = _ |- _ =>
      apply place_tp_after_fill_state in H1 as ->
  end.
  apply bind_inv in H as [(? & H & ->)|(? & ? & ? & ? & ? & H & ->)].
    { apply lift_inv in H as (_ & -> & _). eauto. }
  match goal with H1 : lift _ _ = _ |- _ => apply lift_inv in H1 as (_ & -> & ->) end.
  apply bind_inv in H as [(? & H & ->)|(? & ? & ? & ? & ? & H & ->)].
    { apply lift_inv in H as (_ & -> & _). eauto. }
  match goal with H1 : lift _ _ = _ |- _ => apply lift_inv in H1 as (_ & -> & ->) end.
  revert H. run_M. intros [= <- <- <-].
  right. right. eexists. split; [reflexivity|].
  split; [reflexivity|].
  eexists _, sl, d. split; [|split; [done|split]].
  - rewrite Hd. reflexivity.
  - rewrite <- Hd. symmetry. exact Hresp.
  - set_solver.
Qed.

End fill_outcome.

Section fill_failure.

Lemma place_sl_after_fill_fails (tm : TradeManager) (signal_type target : pyval)
    (entry : Decimal) (st : PersistentState) :
  sl_placement_fails tm signal_type target entry →
  ∃ resp calls,
    place_sl_after_fill tm signal_type target entry (position_side signal_type) st
    = (Returned (resp, false), st, calls)
    ∧ ∀ c, c ∈ calls → ∃ sl, c = PlaceStopLossOrder (position_side signal_type) sl.
Proof.
  unfold place_sl_after_fill. run_M.
  intros [Ht|sl Ht Hd Hv|sl Ht Hd Hv Hm|sl market Ht Hd Hv Hm Hb Hs
          |sl market Ht Hd Hv Hm Hb Hs Hr];
    unfold sl_beyond, Decimal_gt in *; rewrite Ht; [|rewrite Hd, Hv..].
  - exists None, []. split; [done|]. intros c Hc. by apply elem_of_nil in Hc.
  - exists None, []. split; [done|]. intros c Hc. by apply elem_of_nil in Hc.
  - exists None, []. split; [|intros c Hc; by apply elem_of_nil in Hc].
    destruct (get_current_market_price tm) as [market|]; [|done].
    cbn in Hm. by rewrite Hm.
  - exists None, []. split; [|intros c Hc; by apply elem_of_nil in Hc].
    by rewrite Hm, Hb, Hs.
  - eexists _, _. rewrite Hm, Hb, Hs. cbn [app]. rewrite Hr. split; [reflexivity|].
    intros c Hc. apply list_elem_of_singleton in Hc as ->. eauto.
Qed.

Lemma process_filled_order_sl_failure (td : gmap string pyval) (key : string)
    (info : gmap string pyval) (tm : TradeManager) (st : PersistentState)
    (signal_type target_sl_price : pyval) (quantity : Decimal) :
  pending_fields td signal_type target_sl_price quantity →
  sl_placement_fails tm signal_type target_sl_price
    (calculated_actual_entry_price td info) →
  ∃ calls,
    _process_filled_order td key info tm st
    = (Returned (PNone, true), clear_active_trade st key,
       calls ++ [PlaceMarketOrder (closing_side signal_type) quantity true
                   (dict_get td "position_side_hedge_mode")])
    ∧ ∀ c, c ∈ calls → ∃ sl, c = PlaceStopLossOrder (position_side signal_type) sl.
Proof.
  intros [Hs Hsl [tp Htp] (vq & Hq & Hd)] Hfail.
  pose proof (emergency_close_run td key tm st vq signal_type quantity Hq Hd Hs) as Hec.
  unfold _process_filled_order. cbv zeta.
  destruct (Decimal_le _ Decimal_0).
  { exists []. split; [exact Hec|]. intros c Hc. by apply elem_of_nil in Hc. }
  destruct (place_sl_after_fill_fails tm signal_type target_sl_price _ st Hfail)
    as (resp & calls & Hplace & Hcalls).
  exists calls. split; [|exact Hcalls].
  unfold getitem. rewrite Hs, Hsl, Htp, Hq.
  unfold mbind at 1, M_bind at 1, lift at 1.
  unfold mbind at 1, M_bind at 1, lift at 1.
  unfold mbind at 1, M_bind at 1, lift at 1. cbn [mbind result_bind]. rewrite Hd.
  unfold mbind at 1, M_bind at 1, lift at 1.
  unfold mbind at 1, M_bind at 1.
  unfold position_side in Hplace. rewrite Hplace. cbn [negb].
  rewrite Hec. reflexivity.
Qed.

End fill_failure.

Section fill_theorem.

(** Claim C3.  Whatever [_process_filled_order] does, a slot it leaves
    changed holds a payload with status [POSITION_OPEN] whose stop-loss
    answer is the exchange's answer to a stop-market placement made by the
    call and carries an order id.  When the placement of the stop loss
    fails (no target, target on the wrong side of the entry price, no market
    price, market price already past the target, or order rejected), for a
    payload that has the fields the function reads, the call ends with the
    market order that closes the full quantity in the opposite direction and
    the slot removed. *)
Theorem process_filled_order_sl_mandatory (td : gmap string pyval) (key : string)
    (info : gmap string pyval) (tm : TradeManager) (st st' : PersistentState)
    (r : result (pyval * bool)) (calls : list exchange_call) :
  key ≠ ""%string →
  _process_filled_order td key info tm st = (r, st', calls) →
  (∀ slot, active_trades st' !! key = Some slot →
     active_trades st !! key = Some slot
     ∨ ∃ payload, slot = PDict payload ∧ open_with_confirmed_sl tm calls payload)
  ∧ (∀ signal_type target_sl_price quantity,
       pending_fields td signal_type target_sl_price quantity →
       sl_placement_fails tm signal_type target_sl_price
         (calculated_actual_entry_price td info) →
       r = Returned (PNone, true)
       ∧ active_trades st' !! key = None
       ∧ accumulated_losses st' = accumulated_losses st
       ∧ last calls = Some (PlaceMarketOrder (closing_side signal_type) quantity true
                              (dict_get td "position_side_hedge_mode"))).
Proof.
  intros Hk Hrun. apply valid_key_spec in Hk. split.
  - intros slot Hslot.
    destruct (process_filled_order_outcome _ _ _ _ _ _ _ _ Hrun)
      as [->|[[-> _]|(payload & -> & Hopen)]]; [by left|..].
    + rewrite active_trades_clear_active_trade, lookup_delete_eq in Hslot by done. done.
    + rewrite active_trades_set_active_trade, lookup_insert_eq in Hslot by done.
      injection Hslot as <-. right. eauto.
  - intros signal_type target_sl_price quantity Hf Hfail.
    destruct (process_filled_order_sl_failure td key info tm st _ _ _ Hf Hfail)
      as (c & Heq & _).
    rewrite Heq in Hrun. injection Hrun as <- <- <-.
    split; [done|split; [|split]].
    + by rewrite active_trades_clear_active_trade, lookup_delete_eq.
    + apply accumulated_losses_clear_active_trade.
    + apply last_snoc.
Qed.

End fill_theorem.

Lemma process_filled_order_sl_mandatory_witness :
  let out :=
    _process_filled_order examples.pending_long "BTCUSDT_LONG" examples.filled_entry
      examples.rejecting_manager examples.state_with_pending_long in
  out.1.1 = Returned (PNone, true)
  ∧ active_trades out.1.2 !! "BTCUSDT_LONG"%string = None
  ∧ last out.2
    = Some (PlaceMarketOrder SIDE_SELL (mkDecimal false 5 (-1)) true (PStr "LONG")).
Proof.
  intros out.
  destruct (process_filled_order_sl_mandatory examples.pending_long "BTCUSDT_LONG"
              examples.filled_entry examples.rejecting_manager
              examples.state_with_pending_long out.1.2 out.1.1 out.2) as [_ H].
  - done.
  - subst out. by destruct (_process_filled_order _ _ _ _ _) as [[r st'] calls].
  - destruct (H (PStr "BUY") (PStr "99.0") (mkDecimal false 5 (-1)))
      as (Hr & Hs & _ & Hl).
    + split; [reflexivity..|by eexists|]. exists (PStr "0.5"). split; reflexivity.
    + eapply (sl_order_rejected _ _ _ _ (mkDecimal false 990 (-1))
                (mkDecimal false 1005 (-1))); reflexivity.
    + split; [exact Hr|]. split; [exact Hs|exact Hl].
Defined.

Section closures.


Lemma destroy_slot_run (key : string) (st : PersistentState) :
  ∃ st', destroy_slot key st = (Returned tt, st', [])
         ∧ accumulated_losses st' = accumulated_losses st
         ∧ (valid_key key = true → active_trades st' !! key = None).
Proof.
  unfold destroy_slot. run_M. cbn [app].
  destruct (truthy _).
  - eexists. split; [reflexivity|]. split.
    + by rewrite !accumulated_losses_clear_active_trade.
    + intros Hk.
      rewrite active_trades_clear_active_trade
        by (apply valid_key_app; discriminate).
      rewrite active_trades_clear_active_trade by done.
      apply lookup_delete_None. right. apply lookup_delete_eq.
  - eexists. split; [reflexivity|]. split.
    + by rewrite accumulated_losses_clear_active_trade.
    + intros Hk. rewrite active_trades_clear_active_trade by done.
      apply lookup_delete_eq.
Qed.

Lemma manage_prologue (td : gmap string pyval) (entry quantity : Decimal) :
  position_figures td entry quantity →
  match (e ← Decimal_of_value (dict_get_default td "entry_price_actual" (PStr "0"));
         q ← Decimal_of_value (dict_get_default td "quantity" (PStr "0"));
         Returned (e, q)) with
  | Raised InvalidOperation => Returned (Decimal_0, Decimal_0)
  | r => r
  end = Returned (entry, quantity).
Proof. intros [-> ->]. reflexivity. Qed.




End closures.

Section closure_theorems.



(** The payload the fill path stores for an accepted stop loss: the position
    is open with the order ids of both protective orders, and the
    [accumulated_loss_at_entry] of the pending payload is not carried over. *)
Lemma fill_path_drops_loss_at_entry :
  let out :=
    _process_filled_order examples.pending_long "BTCUSDT_LONG" examples.filled_entry
      examples.accepting_manager examples.state_with_pending_long in
  examples.pending_long !! "accumulated_loss_at_entry"%string = Some (PStr "3.0")
  ∧ ∃ payload,
      active_trades out.1.2 !! "BTCUSDT_LONG"%string = Some (PDict payload)
      ∧ payload !! "status"%string = Some (PStr "POSITION_OPEN")
      ∧ stored_order_id payload "sl_order_response" = PInt 21
      ∧ stored_order_id payload "tp_order_response" = PInt 22
      ∧ payload !! "accumulated_loss_at_entry"%string = None.
Proof.
  intros out. split; [reflexivity|].
  eexists. split; [vm_compute; reflexivity|]. repeat split.
Qed.

End closure_theorems.



Section loop.

Variable manage_pending_order : pyval → string → string → handler.
Variable manage_active_position : pyval → string → string → handler.
Variable process_signals_and_initiate_trade : string → handler.
Variable set_leverage : string → result bool.

(** Claim C2, as amended.  A tick during which the control channel reports
    the bot as disabled hands nothing to any of the three managers and
    leaves the state as it is. *)
Theorem tick_disabled_dispatches_nothing
    (all_configured_symbols_map : list (string * option bool)) (st : PersistentState) :
  tick manage_pending_order manage_active_position process_signals_and_initiate_trade
    set_leverage all_configured_symbols_map (Some false) st = (st, []).
Proof. unfold tick. by destruct (map _ _). Qed.

End loop.

(** Claim C2 as stated fails: with an open LONG position in the state and
    the flag off, the tick dispatches nothing, while the same tick with the
    flag on hands the slot to the position manager. *)
Lemma tick_disabled_skips_open_position :
  (loop_examples.tick_with_flag (Some false)).2 = []
  ∧ ManageActivePosition "BTCUSDT_LONG" ∈ (loop_examples.tick_with_flag (Some true)).2
  ∧ ¬ ManageActivePosition "BTCUSDT_LONG" ∈ (loop_examples.tick_with_flag (Some false)).2.
Proof.
  split; [reflexivity|]. split.
  - vm_compute. apply list_elem_of_here.
  - intros H. vm_compute in H. by apply elem_of_nil in H.
Qed.

Section accepted.


End accepted.



Section state_theorems.

(** Claim C7.  For a state whose accumulated losses are decimals (its trade
    payloads hold any values, decimals and timestamps among them), saving,
    loading what was saved and saving again writes the same document, and
    the accumulated losses read back are the ones saved. *)
Theorem save_load_save (st : PersistentState) :
  only_decimals (accumulated_losses st) →
  state_to_save (load_state (Some (state_to_save st))) = state_to_save st
  ∧ state_file (save_state (load_state (state_file (save_state st))))
    = state_file (save_state st)
  ∧ accumulated_losses (load_state (Some (state_to_save st))) = accumulated_losses st.
Proof.
  intros Hd. split; [by apply save_load_save_document|]. split.
  - cbn [save_state with_file state_file]. f_equal. by apply save_load_save_document.
  - by rewrite load_state_saved.
Qed.


(** Claim C1.  Called with the side name the signal processor passes,
    [validate_and_calculate_trade_params] returns nothing, whatever the
    candidate. *)
Theorem validate_BUY_rejects (entry_price_target stop_loss_price_ref : Decimal)
    (timestamp_of_signal : Timestamp) (tm : TradeManager)
    (calculated_trade_quantity : option Decimal) (rr_multiplier_val : Decimal) :
  validate_and_calculate_trade_params "BUY" entry_price_target stop_loss_price_ref
    timestamp_of_signal tm calculated_trade_quantity rr_multiplier_val = None.
Proof. apply validate_BUY_returns_None. Qed.

(** The candidate entry 100.8, stop loss 100.0, quantity 1.25, K = 10 on a
    tick of 0.1: rejected under the name [BUY], validated with take profit
    108.8 under the name [COMPRA]. *)
Lemma validate_BUY_rejects_valid_candidate :
  let tm := sizing_examples.manager_of sizing_examples.btc in
  let entry := mkDecimal false 1008 (-1) in
  let sl := mkDecimal false 1000 (-1) in
  let quantity := Some (mkDecimal false 125 (-2)) in
  let k := mkDecimal false 100 (-1) in
  validate_and_calculate_trade_params "BUY" entry sl closure_examples.now tm quantity k
  = None
  ∧ validate_and_calculate_trade_params "COMPRA" entry sl closure_examples.now tm quantity k
    = Some (mkTradeParams closure_examples.now entry sl (mkDecimal false 1088 (-1)) "COMPRA").
Proof. split; reflexivity. Qed.

End state_theorems.

Lemma save_load_save_witness :
  state_to_save (load_state (Some (state_to_save state_examples.mixed_state)))
  = state_to_save state_examples.mixed_state
  ∧ accumulated_losses (load_state (Some (state_to_save state_examples.mixed_state)))
    = accumulated_losses state_examples.mixed_state.
Proof.
  destruct (save_load_save state_examples.mixed_state) as (H1 & _ & H2).
  - intros k v Hk. unfold state_examples.mixed_state in Hk.
    cbn [accumulated_losses] in Hk. apply lookup_singleton_Some in Hk as [_ <-]. eauto.
  - split; [exact H1|exact H2].
Defined.



Lemma emergency_close_spec_witness :
  ∃ st',
    _handle_emergency_close examples.pending_long "BTCUSDT_LONG" examples.silent_manager
      examples.state_with_pending_long
    = (Returned (PNone, true), st',
       [PlaceMarketOrder SIDE_SELL (mkDecimal false 5 (-1)) true (PStr "LONG")])
    ∧ active_trades st' !! "BTCUSDT_LONG"%string = None
    ∧ accumulated_losses st' = accumulated_losses examples.state_with_pending_long.
Proof.
  exact (emergency_close_spec examples.pending_long "BTCUSDT_LONG" "BUY"
           examples.silent_manager examples.state_with_pending_long
           (PStr "0.5") (mkDecimal false 5 (-1))
           ltac:(done) eq_refl eq_refl eq_refl).
Defined.

Section state_restart.


Lemma restart_saved (st : PersistentState) :
  only_decimals (accumulated_losses st) → file_in_sync st →
  restart st
  = mkPersistentState
      (convert_to_json_serializable <$>
         filter (λ kv, is_None kv.2 = false) (active_trades st))
      (accumulated_losses st) (state_file st).
Proof.
  intros Hd Hs. unfold restart, init. rewrite Hs. by apply load_state_saved.
Qed.

Lemma get_after_set (st : PersistentState) (k : string) (v : pyval) :
  k ≠ ""%string → get_active_trade (set_active_trade st k v) k = v.
Proof.
  intros Hk. apply valid_key_spec in Hk. unfold get_active_trade, dict_get. rewrite Hk.
  by rewrite active_trades_set_active_trade, lookup_insert_eq.
Qed.

Lemma get_after_set_other (st : PersistentState) (k k' : string) (v : pyval) :
  k ≠ ""%string → k' ≠ k →
  get_active_trade (set_active_trade st k v) k' = get_active_trade st k'.
Proof.
  intros Hk Hne. apply valid_key_spec in Hk. unfold get_active_trade, dict_get.
  destruct (valid_key k'); [|done].
  by rewrite active_trades_set_active_trade, lookup_insert_ne.
Qed.





(** Property X5.  [clear_active_trade] writes the file only when the payload it removed is
    truthy.  A slot that holds an empty dictionary is removed from memory
    and stays in the file, so it is back after a restart. *)
Theorem clear_empty_payload_not_saved (st : PersistentState) (k : string) :
  k ≠ ""%string →
  only_decimals (accumulated_losses st) →
  file_in_sync st →
  active_trades st !! k = Some (PDict ∅) →
  get_active_trade (clear_active_trade st k) k = PNone
  ∧ state_file (clear_active_trade st k) = state_file st
  ∧ get_active_trade (restart (clear_active_trade st k)) k = PDict ∅.
Proof.
  intros Hk Hd Hs Hslot. split; [apply get_after_clear|].
  apply valid_key_spec in Hk.
  assert (Hf : state_file (clear_active_trade st k) = state_file st).
  { unfold clear_active_trade, dict_get. rewrite Hk, Hslot. reflexivity. }
  split; [exact Hf|].
  unfold restart. rewrite Hf. fold (restart st). rewrite restart_saved by done.
  unfold get_active_trade, dict_get. rewrite Hk. cbn [active_trades].
  rewrite lookup_fmap.
  erewrite (proj2 (map_lookup_filter_Some _ _ k (PDict ∅))); [|done].
  cbn. by rewrite fmap_empty.
Qed.

(** Property X6.  [reset_accumulated_loss] is idempotent, and it changes nothing (it does
    not write the file either) when the stored loss already compares equal
    to zero. *)
Theorem reset_accumulated_loss_idempotent (st : PersistentState) (k : string) :
  reset_accumulated_loss (reset_accumulated_loss st k) k = reset_accumulated_loss st k
  ∧ (∀ v, accumulated_losses st !! k = Some v → ne_Decimal_0 v = false →
       reset_accumulated_loss st k = st).
Proof.
  split.
  - destruct (valid_key k) eqn:Hk.
    2:{ unfold reset_accumulated_loss. by rewrite Hk. }
    destruct (reset_stores_Decimal_0 st k Hk) as [H|(v & Hv & Hz & ->)].
    + unfold reset_accumulated_loss at 1. rewrite Hk, H. reflexivity.
    + unfold reset_accumulated_loss. by rewrite Hk, Hv, Hz.
  - intros v Hv Hz. unfold reset_accumulated_loss.
    destruct (valid_key k); [|done]. by rewrite Hv, Hz.
Qed.

(** Property X7.  [update_accumulated_loss] and [reset_accumulated_loss] on one key leave
    the loss of every other key and all active trades as they are. *)
Theorem loss_operations_frame (st : PersistentState) (k k' : string) (x : Decimal) :
  k ≠ k' →
  get_accumulated_loss (update_accumulated_loss st k x) k' = get_accumulated_loss st k'
  ∧ get_accumulated_loss (reset_accumulated_loss st k) k' = get_accumulated_loss st k'
  ∧ active_trades (update_accumulated_loss st k x) = active_trades st
  ∧ active_trades (reset_accumulated_loss st k) = active_trades st.
Proof.
  intros Hne. split; [by apply get_update_other|]. split; [by apply get_reset_other|].
  split; [apply active_trades_update_accumulated_loss
         |apply active_trades_reset_accumulated_loss].
Qed.

End state_restart.

Section validation_bracket.


End validation_bracket.


Section frame.

Lemma keeps_losses_ret {A : Type} (a : A) : keeps_losses (mret a).
Proof. intros st r st' calls. cbv [mret M_ret]. by intros [= <- <- <-]. Qed.

Lemma keeps_losses_lift {A : Type} (x : result A) : keeps_losses (lift x).
Proof. intros st r st' calls. unfold lift. by intros [= <- <- <-]. Qed.

Lemma keeps_losses_gets {A : Type} (f : PersistentState → A) : keeps_losses (gets f).
Proof. intros st r st' calls. unfold gets. by intros [= <- <- <-]. Qed.

Lemma keeps_losses_modify (f : PersistentState → PersistentState) :
  (∀ st, accumulated_losses (f st) = accumulated_losses st) → keeps_losses (modify f).
Proof. intros Hf st r st' calls. unfold modify. intros [= <- <- <-]. apply Hf. Qed.

Lemma keeps_losses_bind {A B : Type} (m : M A) (f : A → M B) :
  keeps_losses m → (∀ a, keeps_losses (f a)) → keeps_losses (m ≫= f).
Proof.
  intros Hm Hf st r st' calls H.
  apply bind_inv in H as [(e & H & _)|(a & st1 & c1 & c2 & H1 & H2 & _)].
  - by eapply Hm.
  - rewrite (Hf a _ _ _ _ H2). by eapply Hm.
Qed.

Lemma keeps_losses_cancel (tm : TradeManager) (order_id : pyval) :
  keeps_losses (cancel_order_if_open tm order_id).
Proof.
  intros st r st' calls. unfold cancel_order_if_open, call. run_M.
  by intros [= <- <- <-].
Qed.

Lemma keeps_losses_cancel_if (tm : TradeManager) (b : bool) (order_id : pyval) :
  keeps_losses (if b then (_ ← cancel_order_if_open tm order_id; mret tt) else mret tt).
Proof.
  destruct b; [|apply keeps_losses_ret].
  apply keeps_losses_bind; [apply keeps_losses_cancel|intros; apply keeps_losses_ret].
Qed.

Lemma keeps_losses_destroy_slot (key : string) : keeps_losses (destroy_slot key).
Proof.
  intros st r st' calls H.
  destruct (destroy_slot_run key st) as (st2 & Hrun & Hl & _). congruence.
Qed.

Lemma keeps_losses_emergency_close (td : gmap string pyval) (key : string)
    (tm : TradeManager) : keeps_losses (_handle_emergency_close td key tm).
Proof.
  intros st r st' calls H.
  apply emergency_close_outcome in H as [[-> _]|[-> _]]; [done|].
  apply accumulated_losses_clear_active_trade.
Qed.

Lemma keeps_losses_handle_vanished (tm : TradeManager) (td : gmap string pyval)
    (key : string) : keeps_losses (handle_vanished_position tm td key).
Proof.
  unfold handle_vanished_position.
  apply keeps_losses_bind; [apply keeps_losses_gets|]. intros trade.
  destruct (truthy trade); [|apply keeps_losses_ret].
  apply keeps_losses_bind; [apply keeps_losses_lift|]. intros sl_id.
  apply keeps_losses_bind; [apply keeps_losses_lift|]. intros tp_id.
  apply keeps_losses_bind; [apply keeps_losses_cancel_if|]. intros _.
  apply keeps_losses_bind; [apply keeps_losses_cancel_if|]. intros _.
  apply keeps_losses_destroy_slot.
Qed.

Lemma keeps_losses_check_unprotected (tm : TradeManager) (key : string)
    (now_utc : Timestamp) : keeps_losses (check_unprotected tm key now_utc).
Proof.
  unfold check_unprotected.
  apply keeps_losses_bind; [apply keeps_losses_gets|]. intros trade.
  apply keeps_losses_bind; [apply keeps_losses_lift|]. intros details. cbv zeta.
  apply keeps_losses_bind; [apply keeps_losses_gets|]. intros sentinel.
  destruct (negb _); destruct (_ sentinel); try apply keeps_losses_ret;
    apply keeps_losses_modify; intros st.
  - apply accumulated_losses_set_active_trade.
  - apply accumulated_losses_clear_active_trade.
Qed.

Lemma keeps_losses_check_sl (use_martingale_config : bool) (tm : TradeManager)
    (td : gmap string pyval) (key : string) (sl_order_id tp_order_id pos : pyval)
    (entry quantity : Decimal) :
  use_martingale_config = false
  ∨ truthy sl_order_id && status_is (check_order_status tm sl_order_id) "FILLED" = false →
  keeps_losses (check_sl use_martingale_config tm td key sl_order_id tp_order_id pos
                  entry quantity).
Proof.
  intros H. unfold check_sl.
  destruct (truthy sl_order_id); [|apply keeps_losses_ret]. cbv zeta.
  destruct (status_is _ "FILLED").
  - destruct H as [->|H]; [|done].
    apply keeps_losses_bind; [apply keeps_losses_lift|]. intros n.
    apply keeps_losses_bind; [apply keeps_losses_lift|]. intros [[pnl ?] ?].
    cbn [andb].
    apply keeps_losses_bind; [apply keeps_losses_ret|]. intros _.
    apply keeps_losses_bind; [apply keeps_losses_cancel_if|]. intros _.
    apply keeps_losses_bind; [apply keeps_losses_destroy_slot|]. intros _.
    apply keeps_losses_ret.
  - destruct (status_is_gone _); [|apply keeps_losses_ret].
    apply keeps_losses_bind; [|intros; apply keeps_losses_ret].
    apply keeps_losses_modify. intros st. apply accumulated_losses_set_active_trade.
Qed.

Lemma keeps_losses_check_tp (use_martingale_config : bool) (tm : TradeManager)
    (td : gmap string pyval) (key : string) (sl_order_id tp_order_id pos : pyval)
    (entry quantity : Decimal) :
  use_martingale_config = false
  ∨ truthy tp_order_id && status_is (check_order_status tm tp_order_id) "FILLED" = false →
  keeps_losses (check_tp use_martingale_config tm td key sl_order_id tp_order_id pos
                  entry quantity).
Proof.
  intros H. unfold check_tp.
  destruct (truthy tp_order_id); [|apply keeps_losses_ret]. cbv zeta.
  destruct (status_is _ "FILLED"); [|apply keeps_losses_ret].
  destruct H as [->|H]; [|done].
  apply keeps_losses_bind; [apply keeps_losses_lift|]. intros n.
  apply keeps_losses_bind; [apply keeps_losses_lift|]. intros [[pnl ?] ?].
  cbn [andb].
  apply keeps_losses_bind; [apply keeps_losses_ret|]. intros _.
  apply keeps_losses_bind; [apply keeps_losses_cancel_if|]. intros _.
  apply keeps_losses_bind; [apply keeps_losses_destroy_slot|]. intros _.
  apply keeps_losses_ret.
Qed.

(** Property X9.  [manage_active_position] changes accumulated losses only through a
    closure reported FILLED while martingale is enabled: with martingale
    disabled, or with neither protective order FILLED, it leaves them as
    they are however it ends (position vanished, alert raised or cleared,
    exception). *)
Theorem losses_change_only_on_filled_closure (use_martingale_config : bool)
    (now_utc : Timestamp) (td : gmap string pyval) (key : string) (tm : TradeManager) :
  use_martingale_config = false ∨ (sl_not_filled tm td ∧ tp_not_filled tm td) →
  keeps_losses (manage_active_position use_martingale_config now_utc td key tm).
Proof.
  intros H. unfold manage_active_position.
  destruct (negb _); [apply keeps_losses_ret|]. cbv zeta.
  apply keeps_losses_bind; [apply keeps_losses_lift|]. intros [entry quantity].
  apply keeps_losses_bind.
  { apply keeps_losses_check_sl. destruct H as [->|[H _]]; [by left|by right]. }
  intros [[]|[sl_order_id' td']]; [apply keeps_losses_ret|].
  apply keeps_losses_bind.
  { apply keeps_losses_check_tp. destruct H as [->|[_ H]]; [by left|by right]. }
  intros closed. destruct closed; [apply keeps_losses_ret|].
  destruct (match get_active_position tm _ with Some _ => _ | None => _ end).
  - apply keeps_losses_handle_vanished.
  - apply keeps_losses_check_unprotected.
Qed.

(** Property X10.  Processing a filled entry order never changes accumulated losses,
    whether it opens the position, closes it in emergency or raises. *)
Theorem process_filled_order_keeps_losses (td : gmap string pyval) (key : string)
    (info : gmap string pyval) (tm : TradeManager) :
  keeps_losses (_process_filled_order td key info tm).
Proof.
  intros st r st' calls H.
  apply process_filled_order_outcome in H as [->|[[-> _]|(payload & -> & _)]].
  - done.
  - apply accumulated_losses_clear_active_trade.
  - apply accumulated_losses_set_active_trade.
Qed.

End frame.

Lemma losses_change_only_on_filled_closure_witness :
  keeps_losses
    (manage_active_position true closure_examples.now closure_examples.open_long
       "BTCUSDT_LONG" (closure_examples.closing_manager 0 Decimal_0)).
Proof.
  apply losses_change_only_on_filled_closure. right. split; reflexivity.
Defined.

Section position_checks.

Lemma append_ne (s t : string) : t ≠ ""%string → (s ++ t)%string ≠ s.
Proof.
  intros Ht. induction s as [|c s IH]; cbn; [done|].
  intros [= E]. by apply IH.
Qed.

Lemma truthy_PDict (d : gmap string pyval) : d ≠ ∅ → truthy (PDict d) = true.
Proof. intros H. cbn. by rewrite bool_decide_eq_false_2. Qed.

Lemma nested_order_id_dict (td : gmap string pyval) (field : string) :
  is_dict (dict_get_default td field (PDict ∅)) = true →
  nested_order_id td field = Returned (stored_order_id td field).
Proof.
  unfold nested_order_id, stored_order_id, dict_get_default, dict_get, order_id_of.
  destruct (td !! field) as [v|]; cbn; [by destruct v|].
  intros _. rewrite lookup_empty. reflexivity.
Qed.

Lemma check_sl_still_open (use_martingale_config : bool) (tm : TradeManager)
    (td : gmap string pyval) (key : string) (tp_order_id pos : pyval)
    (entry quantity : Decimal) (st : PersistentState) :
  sl_still_open tm td →
  check_sl use_martingale_config tm td key (stored_order_id td "sl_order_response")
    tp_order_id pos entry quantity st
  = (Returned (inr (stored_order_id td "sl_order_response", td)), st, []).
Proof.
  intros H. unfold check_sl. unfold sl_still_open in H. cbv zeta in H.
  destruct (truthy (stored_order_id td "sl_order_response")); [|done].
  destruct H as [H|[H1 H2]]; [done|]. by rewrite H1, H2.
Qed.

Lemma check_sl_gone (use_martingale_config : bool) (tm : TradeManager)
    (td : gmap string pyval) (key : string) (tp_order_id pos : pyval)
    (entry quantity : Decimal) (st : PersistentState) :
  sl_gone tm td →
  check_sl use_martingale_config tm td key (stored_order_id td "sl_order_response")
    tp_order_id pos entry quantity st
  = (Returned (inr (PNone, <["sl_order_response" := PNone]> td)),
     set_active_trade st key (PDict (<["sl_order_response" := PNone]> td)), []).
Proof.
  intros H. unfold sl_gone in H. cbv zeta in H. destruct H as (H1 & H2 & H3).
  unfold check_sl. rewrite H1, H2, H3. reflexivity.
Qed.

Lemma check_tp_not_filled (use_martingale_config : bool) (tm : TradeManager)
    (td : gmap string pyval) (key : string) (sl_order_id tp_order_id pos : pyval)
    (entry quantity : Decimal) (st : PersistentState) :
  truthy tp_order_id && status_is (check_order_status tm tp_order_id) "FILLED" = false →
  check_tp use_martingale_config tm td key sl_order_id tp_order_id pos entry quantity st
  = (Returned false, st, []).
Proof.
  intros H. unfold check_tp. destruct (truthy tp_order_id); [|done].
  cbn [andb] in H. by rewrite H.
Qed.

(** What [manage_active_position] does once both checks found no fill. *)
Lemma manage_after_checks (use_martingale_config : bool) (now_utc : Timestamp)
    (td td' : gmap string pyval) (key : string) (tm : TradeManager)
    (st st1 : PersistentState) (entry quantity : Decimal) (sl_order_id' : pyval) :
  td ≠ ∅ → position_figures td entry quantity →
  check_sl use_martingale_config tm td key (stored_order_id td "sl_order_response")
    (stored_order_id td "tp_order_response")
    (dict_get_default td "position_side_hedge_mode" (PStr "N/A")) entry quantity st
  = (Returned (inr (sl_order_id', td')), st1, []) →
  tp_not_filled tm td →
  manage_active_position use_martingale_config now_utc td key tm st
  = (if no_position_on_exchange tm td
     then handle_vanished_position tm td' key
     else check_unprotected tm key now_utc) st1.
Proof.
  intros Htd Hfig Hsl Htp. unfold manage_active_position.
  rewrite (truthy_PDict td Htd). cbn [negb]. cbv zeta.
  rewrite (manage_prologue td entry quantity Hfig).
  unfold stored_order_id in Hsl.
  unfold mbind at 1, M_bind at 1, lift at 1.
  unfold mbind at 1, M_bind at 1. rewrite Hsl.
  unfold mbind at 1, M_bind at 1.
  rewrite (check_tp_not_filled _ _ _ _ _ _ _ _ _ _ Htp).
  fold (no_position_on_exchange tm td).
  destruct (no_position_on_exchange tm td);
    [destruct (handle_vanished_position tm td' key st1) as [[r st2] c]
    |destruct (check_unprotected tm key now_utc st1) as [[r st2] c]]; reflexivity.
Qed.

(** Property X12.  When no protective order reports a fill, the exchange shows no position
    and the slot is still in the state, [manage_active_position] asks to
    cancel the protective orders that have an id, removes the slot and
    leaves the accumulated losses as they are. *)
Theorem vanished_position_cleans_slot (use_martingale_config : bool)
    (now_utc : Timestamp) (td : gmap string pyval) (key : string) (tm : TradeManager)
    (st : PersistentState) (entry quantity : Decimal) :
  key ≠ ""%string → td ≠ ∅ → position_figures td entry quantity →
  sl_still_open tm td → tp_not_filled tm td →
  no_position_on_exchange tm td = true →
  truthy (get_active_trade st key) = true →
  is_dict (dict_get_default td "sl_order_response" (PDict ∅)) = true →
  is_dict (dict_get_default td "tp_order_response" (PDict ∅)) = true →
  ∃ st',
    manage_active_position use_martingale_config now_utc td key tm st
    = (Returned tt, st',
       cancel_of (stored_order_id td "sl_order_response")
       ++ cancel_of (stored_order_id td "tp_order_response"))
    ∧ active_trades st' !! key = None
    ∧ accumulated_losses st' = accumulated_losses st.
Proof.
  intros Hk Htd Hfig Hsl Htp Hno Hslot Hd1 Hd2. apply valid_key_spec in Hk.
  rewrite (manage_after_checks _ _ td td key tm st st entry quantity
             (stored_order_id td "sl_order_response") Htd Hfig
             (check_sl_still_open _ _ _ _ _ _ _ _ _ Hsl) Htp).
  rewrite Hno. unfold handle_vanished_position.
  rewrite (nested_order_id_dict td _ Hd1), (nested_order_id_dict td _ Hd2).
  destruct (destroy_slot_run key st) as (st' & Hrun & Hl & Ha).
  exists st'. split; [|split; [by apply Ha|done]].
  unfold cancel_of. run_M. rewrite Hslot.
  destruct (truthy (stored_order_id td "sl_order_response"));
    destruct (truthy (stored_order_id td "tp_order_response"));
    cbn [app]; rewrite Hrun; reflexivity.
Qed.

(** Property X13.  When the stop-loss order is reported cancelled, expired or rejected and
    the exchange shows no position, [manage_active_position] stores the
    payload without its stop-loss answer and then raises [AttributeError]:
    the slot stays in the state and no cancel request is made. *)
Theorem vanished_position_after_sl_gone_raises (use_martingale_config : bool)
    (now_utc : Timestamp) (td : gmap string pyval) (key : string) (tm : TradeManager)
    (st : PersistentState) (entry quantity : Decimal) :
  key ≠ ""%string → td ≠ ∅ → position_figures td entry quantity →
  sl_gone tm td → tp_not_filled tm td →
  no_position_on_exchange tm td = true →
  manage_active_position use_martingale_config now_utc td key tm st
  = (Raised AttributeError,
     set_active_trade st key (PDict (<["sl_order_response" := PNone]> td)), [])
  ∧ get_active_trade
      (set_active_trade st key (PDict (<["sl_order_response" := PNone]> td))) key
    = PDict (<["sl_order_response" := PNone]> td).
Proof.
  intros Hk Htd Hfig Hsl Htp Hno.
  assert (Hget : get_active_trade
                   (set_active_trade st key (PDict (<["sl_order_response" := PNone]> td)))
                   key = PDict (<["sl_order_response" := PNone]> td)).
  { by apply get_after_set. }
  split; [|exact Hget].
  rewrite (manage_after_checks _ _ td _ key tm st _ entry quantity PNone Htd Hfig
             (check_sl_gone _ _ _ _ _ _ _ _ _ Hsl) Htp).
  rewrite Hno. unfold handle_vanished_position. run_M. rewrite Hget.
  rewrite truthy_PDict by apply insert_non_empty.
  unfold nested_order_id, dict_get_default. rewrite lookup_insert_eq. reflexivity.
Qed.

(** Property X14.  The alert for a position without a stop-loss order is raised once: the
    first run stores the sentinel with the time of the alert, and a second
    run on the resulting state changes nothing. *)
Theorem unprotected_alert_is_one_shot (use_martingale_config : bool)
    (now_utc later_utc : Timestamp) (td : gmap string pyval) (key : string)
    (tm : TradeManager) (st : PersistentState) (entry quantity : Decimal) :
  key ≠ ""%string → td ≠ ∅ → position_figures td entry quantity →
  get_active_trade st key = PDict td →
  truthy (stored_order_id td "sl_order_response") = false →
  tp_not_filled tm td →
  no_position_on_exchange tm td = false →
  truthy (get_active_trade st (alert_key_no_sl key)) = false →
  let st' := set_active_trade st (alert_key_no_sl key)
               (PDict {[ "alert_sent_timestamp" := PStr (isoformat now_utc) ]}) in
  manage_active_position use_martingale_config now_utc td key tm st = (Returned tt, st', [])
  ∧ manage_active_position use_martingale_config later_utc td key tm st'
    = (Returned tt, st', []).
Proof.
  intros Hk Htd Hfig Hslot Hsl Htp Hpos Hsent st'.
  assert (Hopen : sl_still_open tm td) by by left.
  assert (Hid : truthy (order_id_of (dict_get_default td "sl_order_response" (PDict ∅)))
                = false).
  { revert Hsl. unfold stored_order_id, dict_get, dict_get_default.
    by destruct (td !! "sl_order_response"). }
  assert (Hne : alert_key_no_sl key ≠ key).
  { unfold alert_key_no_sl. by apply append_ne. }
  assert (Hak : alert_key_no_sl key ≠ ""%string).
  { unfold alert_key_no_sl. apply valid_key_spec, valid_key_app. discriminate. }
  pose proof (get_after_set st (alert_key_no_sl key)
                (PDict {[ "alert_sent_timestamp" := PStr (isoformat now_utc) ]}) Hak)
    as Hs1.
  pose proof (get_after_set_other st (alert_key_no_sl key) key
                (PDict {[ "alert_sent_timestamp" := PStr (isoformat now_utc) ]}) Hak)
    as Hs2.
  split.
  - rewrite (manage_after_checks _ _ td td key tm st st entry quantity _ Htd Hfig
               (check_sl_still_open _ _ _ _ _ _ _ _ _ Hopen) Htp).
    rewrite Hpos. unfold check_unprotected. run_M. rewrite Hslot. cbn [app].
    fold (alert_key_no_sl key). rewrite Hid, Hsent. reflexivity.
  - rewrite (manage_after_checks _ _ td td key tm st' st' entry quantity _ Htd Hfig
               (check_sl_still_open _ _ _ _ _ _ _ _ _ Hopen) Htp).
    rewrite Hpos. unfold check_unprotected. run_M.
    fold (alert_key_no_sl key). subst st'.
    rewrite (Hs2 (not_eq_sym Hne)), Hslot, Hs1. cbn [app]. rewrite Hid.
    rewrite truthy_PDict by apply insert_non_empty. reflexivity.
Qed.

End position_checks.

Section rounding.











End rounding.

Section quantity_rounding.




End quantity_rounding.





Section formatting.


Lemma Forall_digit_take (n : nat) (l : list ascii) :
  Forall (λ c, is_digit c = true) l → Forall (λ c, is_digit c = true) (take n l).
Proof. apply Forall_take. Qed.



End formatting.


Section order_requests.

Lemma positive_of_checks (q : Decimal) :
  negb (Decimal_bool q) || Decimal_le q Decimal_0 = false → (0 < Decimal_Q q)%Q.
Proof.
  intros H. apply orb_false_iff in H as [_ H]. apply Decimal_le_false in H.
  by rewrite Decimal_Q_0 in H.
Qed.

(** Property X18.  [place_market_order] sends at most one request.  When it sends one, it
    is a market order for the given side whose quantity is the text of the
    quantity adjusted to the step, which is positive; in hedge mode with a
    position side the order carries that side and no [reduceOnly], otherwise
    it carries [reduceOnly] exactly when [reduce_only] is set; and the method
    then returns a dictionary, whatever the exchange answers. *)
Theorem market_order_request (self : TM.TradeManagerObject) (side : string)
    (quantity : Decimal) (reduce_only : bool) (client_order_id position_side_for_hedge
    : pyval) (symbol_target : option string)
    (r : TM.reply (option (gmap string pyval))) (requests : list TM.client_request) :
  TM.place_market_order self side quantity reduce_only client_order_id
    position_side_for_hedge symbol_target = (r, requests) →
  requests = []
  ∨ ∃ params,
      requests = [TM.CreateOrder params]
      ∧ market_request self side quantity reduce_only position_side_for_hedge
          (TM.target_of self symbol_target) params
      ∧ ∃ response, r = TM.Returns (Some response).
Proof.
  unfold TM.place_market_order. cbv zeta.
  destruct (TM.get_symbol_info_data self _) as [[s_info|]|e] eqn:Hinfo;
    [|intros [= <- <-]; by left..].
  destruct (adjust_quantity_to_step_size _ quantity) as [adjusted|] eqn:Hadj;
    [|intros [= <- <-]; by left].
  destruct (negb (Decimal_bool adjusted) || Decimal_le adjusted Decimal_0) eqn:Hpos;
    [intros [= <- <-]; by left|].
  destruct (TM._format_order_quantity (Some s_info) adjusted) as [text|] eqn:Htext;
    [|intros [= <- <-]; by left].
  fold (hedged self position_side_for_hedge).
  intros [= <- <-]. right. eexists. split; [reflexivity|]. split.
  - split.
    + destruct (truthy client_order_id), (hedged self _), reduce_only; by simplify_map_eq.
    + destruct (truthy client_order_id), (hedged self _), reduce_only; by simplify_map_eq.
    + destruct (truthy client_order_id), (hedged self _), reduce_only; by simplify_map_eq.
    + destruct (truthy client_order_id), (hedged self _), reduce_only; by simplify_map_eq.
    + destruct (truthy client_order_id), (hedged self _), reduce_only; by simplify_map_eq.
    + exists s_info, adjusted, text. split; [done|]. split; [done|].
      split; [by apply positive_of_checks|]. split; [done|].
      destruct (truthy client_order_id), (hedged self _), reduce_only; by simplify_map_eq.
  - destruct (TM.futures_create_order _ _) as [resp|[code|code|]]; cbn; eauto.
Qed.

Lemma protective_order_request_of (order_type : string) (self : TM.TradeManagerObject)
    (position_asset_side : string) (trigger_price : Decimal)
    (symbol_target : option string) (client_order_id : pyval)
    (r : TM.reply (option (gmap string pyval))) (requests : list TM.client_request) :
  TM.place_protective_order order_type self position_asset_side trigger_price
    symbol_target client_order_id = (r, requests) →
  requests = []
  ∨ ∃ params,
      requests = [TM.CreateOrder params]
      ∧ protective_request order_type self position_asset_side trigger_price
          (TM.target_of self symbol_target) params.
Proof.
  unfold TM.place_protective_order. cbv zeta.
  destruct (TM.get_symbol_info_data self _) as [s_info|e] eqn:Hinfo;
    [|intros [= <- <-]; by left].
  destruct (Decimal_bool (adjust_price_to_tick_size _ trigger_price)) eqn:Hnz;
    [|intros [= <- <-]; by left]. cbn [negb].
  destruct (TM._format_order_price s_info _) as [text|] eqn:Htext;
    [|intros [= <- <-]; by left].
  intros [= <- <-]. right. eexists. split; [reflexivity|].
  unfold TM.SIDE_BUY, TM.SIDE_SELL.
  split.
  - destruct (truthy client_order_id), (truthy (TM.is_hedge_mode_active self));
      by simplify_map_eq.
  - destruct (truthy client_order_id), (truthy (TM.is_hedge_mode_active self));
      by simplify_map_eq.
  - destruct (truthy client_order_id), (truthy (TM.is_hedge_mode_active self));
      by simplify_map_eq.
  - destruct (truthy client_order_id), (truthy (TM.is_hedge_mode_active self));
      by simplify_map_eq.
  - destruct (truthy client_order_id), (truthy (TM.is_hedge_mode_active self));
      by simplify_map_eq.
  - destruct (truthy client_order_id), (truthy (TM.is_hedge_mode_active self));
      by simplify_map_eq.
  - exists s_info, text. split; [done|]. split; [done|]. split; [done|].
    destruct (truthy client_order_id), (truthy (TM.is_hedge_mode_active self));
      by simplify_map_eq.
Qed.

(** Property X19.  [place_stop_loss_order] and [place_take_profit_order] send at most one
    request.  When they send one, it is a stop-market, respectively
    take-profit-market, order on the side opposite to the position, with
    [closePosition] set and no quantity, whose stop price is the text of the
    price adjusted to the tick, which is not zero; in hedge mode it names
    the position side. *)
Theorem protective_order_request (self : TM.TradeManagerObject)
    (position_asset_side : string) (trigger_price : Decimal)
    (symbol_target : option string) (client_order_id : pyval)
    (r : TM.reply (option (gmap string pyval))) (requests : list TM.client_request) :
  (TM.place_stop_loss_order self position_asset_side trigger_price symbol_target
     client_order_id = (r, requests) →
   requests = []
   ∨ ∃ params,
       requests = [TM.CreateOrder params]
       ∧ protective_request "STOP_MARKET" self position_asset_side trigger_price
           (TM.target_of self symbol_target) params)
  ∧ (TM.place_take_profit_order self position_asset_side trigger_price symbol_target
       client_order_id = (r, requests) →
     requests = []
     ∨ ∃ params,
         requests = [TM.CreateOrder params]
         ∧ protective_request "TAKE_PROFIT_MARKET" self position_asset_side trigger_price
             (TM.target_of self symbol_target) params).
Proof. split; apply protective_order_request_of. Qed.

End order_requests.

Section cancel_and_limit.

Lemma upper_ascii_idempotent (c : ascii) :
  TM.upper_ascii (TM.upper_ascii c) = TM.upper_ascii c.
Proof. destruct c as [[] [] [] [] [] [] [] []]; reflexivity. Qed.

Lemma upper_idempotent (s : string) : TM.upper (TM.upper s) = TM.upper s.
Proof.
  unfold TM.upper. rewrite list_ascii_of_string_of_list_ascii. f_equal.
  rewrite map_map. apply map_ext. apply upper_ascii_idempotent.
Qed.

Lemma upper_empty (s : string) : TM.upper s = ""%string → s = ""%string.
Proof. destruct s; [done|]. unfold TM.upper. cbn. discriminate. Qed.

Lemma target_of_target (self : TM.TradeManagerObject) (symbol_target : option string) :
  symbol_is_upper self →
  TM.target_of self (Some (TM.target_of self symbol_target))
  = TM.target_of self symbol_target.
Proof.
  intros Hu. unfold TM.target_of at 1.
  destruct (String.eqb _ "") eqn:E.
  - apply String.eqb_eq in E. revert E. unfold TM.target_of.
    destruct symbol_target as [s|]; [|done].
    destruct (String.eqb s "") eqn:E'; [done|]. intros E.
    apply upper_empty in E. subst. done.
  - unfold TM.target_of. destruct symbol_target as [s|]; [|done].
    destruct (String.eqb s ""); [done|apply upper_idempotent].
Qed.

Lemma status_lists_disjoint (status : pyval) :
  TM.status_in status final_statuses = true → TM.status_in status open_statuses = false.
Proof.
  destruct status as [| | |s| | | |]; try done. cbn.
  rewrite !orb_false_r. intros H.
  repeat (apply orb_prop in H as [H|H]); apply String.eqb_eq in H; subst; reflexivity.
Qed.

(** Property X21.  [cancel_order_if_open] sends at most one request, a cancellation, and
    only for an order whose status it found to be NEW, PARTIALLY_FILLED or
    PENDING_CANCEL.  For an order found in a final state it sends nothing and
    reports success; without an identifier, or when the status cannot be
    read, it sends nothing and reports failure. *)
Theorem cancel_only_open_orders (self : TM.TradeManagerObject)
    (order_id client_order_id : option TM.order_ref) (symbol_target : option string)
    (ok : bool) (requests : list TM.client_request) :
  TM.cancel_order_if_open self order_id client_order_id symbol_target = (ok, requests) →
  let target := TM.target_of self symbol_target in
  let order_info := TM.check_order_status self order_id client_order_id (Some target) in
  (requests = []
   ∨ ∃ selector info,
       requests = [TM.CancelOrder target selector]
       ∧ order_info = Some info
       ∧ TM.status_in (dict_get info "status") open_statuses = true)
  ∧ (∀ info, order_info = Some info →
       TM.status_in (dict_get info "status") final_statuses = true →
       ok = true ∧ requests = [])
  ∧ (order_info = None → ok = false ∧ requests = [])
  ∧ (TM.ref_truthy order_id = false → TM.ref_truthy client_order_id = false →
     ok = false ∧ requests = []).
Proof.
  intros H. cbv zeta. revert H.
  unfold TM.cancel_order_if_open. cbv zeta.
  fold open_statuses final_statuses.
  destruct (negb (TM.ref_truthy order_id) && negb (TM.ref_truthy client_order_id)) eqn:Hid.
  { intros [= <- <-]. split; [by left|]. split; [|done].
    intros info' Hinfo. unfold TM.check_order_status in Hinfo.
    apply andb_prop in Hid as [H1 H2].
    apply negb_true_iff in H1, H2. by rewrite H1, H2 in Hinfo. }
  destruct (TM.check_order_status self order_id client_order_id _) as [info|] eqn:Hinfo.
  2:{ intros [= <- <-]. split; [by left|]. split; [done|]. split; [done|].
      intros H1 H2. by rewrite H1, H2 in Hid. }
  assert (Hno : TM.ref_truthy order_id = false → TM.ref_truthy client_order_id = false →
                False).
  { intros H1 H2. by rewrite H1, H2 in Hid. }
  destruct (truthy (PDict info) && truthy (dict_get info "status")) eqn:Htruthy.
  2:{ intros [= <- <-]. split; [by left|]. split; [|split; [done|intros; exfalso; auto]].
      intros info' [= <-] Hfinal. exfalso.
      apply andb_false_iff in Htruthy as [H|H].
      - cbn in H. apply negb_false_iff, bool_decide_eq_true in H. subst info.
        unfold dict_get in Hfinal. by rewrite lookup_empty in Hfinal.
      - destruct (dict_get info "status") as [| | |s| | | |]; try done.
        cbn in H. apply negb_false_iff, String.eqb_eq in H. subst. done. }
  destruct (TM.status_in (dict_get info "status") open_statuses) eqn:Hopen.
  - destruct (if truthy _ then _ else _) as [selector|] eqn:Hsel.
    + intros [= <- <-]. split; [right; eauto|].
      split; [|split; [done|intros; exfalso; auto]].
      intros info' [= <-] Hfinal. apply status_lists_disjoint in Hfinal. congruence.
    + intros [= <- <-]. split; [by left|].
      split; [|split; [done|intros; exfalso; auto]].
      intros info' [= <-] Hfinal. apply status_lists_disjoint in Hfinal. congruence.
  - destruct (TM.status_in (dict_get info "status") final_statuses) eqn:Hfinal.
    + intros [= <- <-]. split; [by left|].
      split; [|split; [done|intros; exfalso; auto]]. done.
    + intros [= <- <-]. split; [by left|].
      split; [|split; [done|intros; exfalso; auto]].
      intros info' [= <-] Hf. congruence.
Qed.

(** Property X22.  When the exchange answers the status request with the API error -2013
    (no such order), [check_order_status] reports NOT_FOUND_OR_DELETED and
    [cancel_order_if_open] reports success without asking for a
    cancellation; on any other exception of the status request the
    cancellation is skipped and reported as failed. *)
Theorem cancel_of_unknown_order (self : TM.TradeManagerObject) (order : TM.order_ref)
    (symbol_target : option string) (e : TM.client_exception) :
  symbol_is_upper self →
  TM.ref_truthy (Some order) = true →
  TM.futures_get_order (TM.client self) (TM.target_of self symbol_target)
    (TM.ByOrderId (TM.ref_value (Some order))) = TM.Throws e →
  (∃ info, TM.check_order_status self (Some order) None symbol_target = Some info
           ∧ dict_get info "status"
             = PStr (match e with
                     | TM.BinanceAPIException code =>
                         if code =? -2013 then "NOT_FOUND_OR_DELETED" else "ERROR_API_CHECK"
                     | _ => "ERROR_UNEXPECTED_CHECK"
                     end))
  ∧ TM.cancel_order_if_open self (Some order) None symbol_target
    = (match e with TM.BinanceAPIException code => code =? -2013 | _ => false end, []).
Proof.
  intros Hu Hid Hget.
  assert (Hcheck : ∀ st, TM.target_of self st = TM.target_of self symbol_target →
            TM.check_order_status self (Some order) None st
            = Some (match e with
                    | TM.BinanceAPIException code =>
                        if code =? -2013
                        then <["orderId" := TM.order_id_text (Some order)]>
                               (TM.error_status "NOT_FOUND_OR_DELETED")
                        else <["exception_code" := PInt code]>
                               (<["orderId" := TM.order_id_text (Some order)]>
                                (TM.error_status "ERROR_API_CHECK"))
                    | _ => <["orderId" := TM.order_id_text (Some order)]>
                             (TM.error_status "ERROR_UNEXPECTED_CHECK")
                    end)).
  { intros st Hst. unfold TM.check_order_status. cbv zeta. rewrite Hid, Hst, Hget.
    destruct e as [code|code|]; [by destruct (code =? -2013)|done..]. }
  split.
  - eexists. split; [by apply Hcheck|].
    unfold dict_get, TM.error_status.
    destruct e as [code|code|]; [destruct (code =? -2013)|..]; by simplify_map_eq.
  - unfold TM.cancel_order_if_open. cbv zeta. rewrite Hid. cbn [negb andb].
    rewrite (Hcheck _ (target_of_target self symbol_target Hu)).
    unfold dict_get, dict_get_default, TM.error_status.
    destruct e as [code|code|]; [destruct (code =? -2013)|..]; by simplify_map_eq.
Qed.


End cancel_and_limit.










Lemma only_decimals_empty : only_decimals ∅.
Proof. intros k v Hk. by rewrite lookup_empty in Hk. Qed.






Lemma clear_empty_payload_not_saved_witness :
  get_active_trade (clear_active_trade restart_examples.saved_empty_payload "BTCUSDT_LONG")
    "BTCUSDT_LONG" = PNone
  ∧ get_active_trade
      (restart (clear_active_trade restart_examples.saved_empty_payload "BTCUSDT_LONG"))
      "BTCUSDT_LONG" = PDict ∅.
Proof.
  destruct (clear_empty_payload_not_saved restart_examples.saved_empty_payload
              "BTCUSDT_LONG") as (H1 & _ & H3).
  - done.
  - exact only_decimals_empty.
  - reflexivity.
  - reflexivity.
  - split; [exact H1|exact H3].
Defined.

Lemma reset_accumulated_loss_idempotent_witness :
  reset_accumulated_loss
    (reset_accumulated_loss restart_examples.saved "BTCUSDT_LONG") "BTCUSDT_LONG"
  = reset_accumulated_loss restart_examples.saved "BTCUSDT_LONG"
  ∧ reset_accumulated_loss
      (mkPersistentState ∅ {[ "BTCUSDT_LONG" := PDec Decimal_0 ]} None) "BTCUSDT_LONG"
    = mkPersistentState ∅ {[ "BTCUSDT_LONG" := PDec Decimal_0 ]} None.
Proof.
  split.
  - apply (reset_accumulated_loss_idempotent restart_examples.saved "BTCUSDT_LONG").
  - apply (proj2 (reset_accumulated_loss_idempotent
                    (mkPersistentState ∅ {[ "BTCUSDT_LONG" := PDec Decimal_0 ]} None)
                    "BTCUSDT_LONG") (PDec Decimal_0)); reflexivity.
Defined.

Lemma loss_operations_frame_witness :
  get_accumulated_loss
    (update_accumulated_loss restart_examples.saved "BTCUSDT_SHORT" (mkDecimal false 2 0))
    "BTCUSDT_LONG"
  = get_accumulated_loss restart_examples.saved "BTCUSDT_LONG".
Proof.
  destruct (loss_operations_frame restart_examples.saved "BTCUSDT_SHORT" "BTCUSDT_LONG"
              (mkDecimal false 2 0)) as (H & _).
  - done.
  - exact H.
Defined.

Lemma has_status_nonempty (td : gmap string pyval) (v : pyval) :
  td !! "status"%string = Some v → td ≠ ∅.
Proof. intros H E. rewrite E, lookup_empty in H. discriminate H. Qed.

Lemma vanished_position_cleans_slot_witness :
  ∃ st',
    manage_active_position true closure_examples.now closure_examples.open_long
      "BTCUSDT_LONG" vanished_examples.flat_manager closure_examples.state_with_open_long
    = (Returned tt, st', [CancelOrderIfOpen (PInt 21); CancelOrderIfOpen (PInt 22)])
    ∧ active_trades st' !! "BTCUSDT_LONG"%string = None
    ∧ accumulated_losses st' = accumulated_losses closure_examples.state_with_open_long.
Proof.
  apply (vanished_position_cleans_slot true closure_examples.now closure_examples.open_long
           "BTCUSDT_LONG" vanished_examples.flat_manager
           closure_examples.state_with_open_long
           (mkDecimal false 1000 (-1)) (mkDecimal false 5 (-1))).
  - done.
  - by apply (has_status_nonempty _ (PStr "POSITION_OPEN")).
  - split; reflexivity.
  - right. split; reflexivity.
  - reflexivity.
  - reflexivity.
  - reflexivity.
  - reflexivity.
  - reflexivity.
Defined.

Lemma vanished_position_after_sl_gone_raises_witness :
  ∃ st',
    manage_active_position true closure_examples.now closure_examples.open_long
      "BTCUSDT_LONG" vanished_examples.sl_canceled_manager
      closure_examples.state_with_open_long
    = (Raised AttributeError, st', [])
    ∧ is_side_busy st' "BTCUSDT_LONG" = true.
Proof.
  destruct (vanished_position_after_sl_gone_raises true closure_examples.now
              closure_examples.open_long "BTCUSDT_LONG"
              vanished_examples.sl_canceled_manager closure_examples.state_with_open_long
              (mkDecimal false 1000 (-1)) (mkDecimal false 5 (-1))) as (Hrun & Hget).
  - done.
  - by apply (has_status_nonempty _ (PStr "POSITION_OPEN")).
  - split; reflexivity.
  - split; [reflexivity|]. split; reflexivity.
  - reflexivity.
  - reflexivity.
  - eexists. split; [exact Hrun|]. unfold is_side_busy. by rewrite Hget.
Defined.

Lemma unprotected_alert_is_one_shot_witness :
  ∃ st',
    manage_active_position true closure_examples.now vanished_examples.unprotected_long
      "BTCUSDT_LONG" vanished_examples.holding_manager
      vanished_examples.state_with_unprotected_long
    = (Returned tt, st', [])
    ∧ manage_active_position true vanished_examples.later
        vanished_examples.unprotected_long "BTCUSDT_LONG"
        vanished_examples.holding_manager st'
      = (Returned tt, st', []).
Proof.
  eexists.
  apply (unprotected_alert_is_one_shot true closure_examples.now vanished_examples.later
           vanished_examples.unprotected_long "BTCUSDT_LONG"
           vanished_examples.holding_manager
           vanished_examples.state_with_unprotected_long
           (mkDecimal false 1000 (-1)) (mkDecimal false 5 (-1))).
  - done.
  - by apply (has_status_nonempty _ (PStr "POSITION_OPEN")).
  - split; reflexivity.
  - reflexivity.
  - reflexivity.
  - reflexivity.
  - reflexivity.
  - reflexivity.
Defined.

Lemma pair_eta {A B : Type} (p : A * B) : p = (p.1, p.2).
Proof. by destruct p. Qed.

Lemma market_order_request_witness :
  ∃ params,
    (TM.place_market_order (client_examples.manager true "NEW") "SELL"
       (mkDecimal false 5 (-1)) true PNone (PStr "LONG") None).2
    = [TM.CreateOrder params]
    ∧ params !! "positionSide"%string = Some (PStr "LONG")
    ∧ params !! "reduceOnly"%string = None.
Proof.
  destruct (market_order_request (client_examples.manager true "NEW") "SELL"
              (mkDecimal false 5 (-1)) true PNone (PStr "LONG") None _ _ (pair_eta _))
    as [H | (params & Hreq & Hmr & _)].
  - vm_compute in H. discriminate H.
  - exists params. split; [exact Hreq|].
    split; [exact (mr_position_side _ _ _ _ _ _ _ Hmr)|exact (mr_reduce_only _ _ _ _ _ _ _ Hmr)].
Defined.

Lemma protective_order_request_witness :
  ∃ params,
    (TM.place_stop_loss_order (client_examples.manager true "NEW") "BUY"
       (mkDecimal false 9907 (-2)) None PNone).2
    = [TM.CreateOrder params]
    ∧ params !! "side"%string = Some (PStr "SELL")
    ∧ params !! "closePosition"%string = Some (PStr "true")
    ∧ params !! "quantity"%string = None.
Proof.
  destruct (proj1 (protective_order_request (client_examples.manager true "NEW") "BUY"
                     (mkDecimal false 9907 (-2)) None PNone _ _) (pair_eta _))
    as [H | (params & Hreq & Hpr)].
  - vm_compute in H. discriminate H.
  - exists params. split; [exact Hreq|].
    split; [exact (pr_side _ _ _ _ _ _ Hpr)|].
    split; [exact (pr_close_position _ _ _ _ _ _ Hpr)|exact (pr_no_quantity _ _ _ _ _ _ Hpr)].
Defined.

Lemma cancel_only_open_orders_witness :
  (TM.cancel_order_if_open (client_examples.manager false "FILLED") (Some (TM.IdInt 21))
     None None).1 = true
  ∧ (TM.cancel_order_if_open (client_examples.manager false "FILLED") (Some (TM.IdInt 21))
       None None).2 = [].
Proof.
  destruct (cancel_only_open_orders (client_examples.manager false "FILLED")
              (Some (TM.IdInt 21)) None None _ _ (pair_eta _)) as (_ & H & _).
  apply (H (<["orderId" := PInt 21]> {[ "status" := PStr "FILLED" ]})); reflexivity.
Defined.

Lemma cancel_of_unknown_order_witness :
  TM.cancel_order_if_open (client_examples.manager false "NEW") (Some (TM.IdInt 99))
    None None = (true, []).
Proof.
  destruct (cancel_of_unknown_order (client_examples.manager false "NEW") (TM.IdInt 99)
              None (TM.BinanceAPIException (-2013))) as (_ & H).
  - reflexivity.
  - reflexivity.
  - reflexivity.
  - exact H.
Defined.


Section fill_then_close.

Lemma process_filled_order_returned_payload (td : gmap string pyval) (key : string)
    (info : gmap string pyval) (tm : TradeManager) (st st' : PersistentState)
    (payload : gmap string pyval) (calls : list exchange_call) :
  _process_filled_order td key info tm st = (Returned (PDict payload, true), st', calls) →
  key ≠ ""%string
  ∧ st' = set_active_trade st key (PDict payload)
  ∧ payload !! "status"%string = Some (PStr "POSITION_OPEN")
  ∧ payload !! "accumulated_loss_at_entry"%string = None.
Proof.
  unfold _process_filled_order. cbv zeta.
  destruct (Decimal_le _ Decimal_0).
  { intros H. by apply emergency_close_outcome in H as [[_ [e [=]]]|[_ [=]]]. }
  intros H.
  do 4 (apply bind_inv in H as [(? & _ & [=])|(? & ? & ? & ? & ? & H & ->)];
        match goal with H1 : lift _ _ = _ |- _ => apply lift_inv in H1 as (_ & -> & ->) end).
  apply bind_inv in H as [(? & _ & [=])|(? & ? & ? & ? & ? & H & ->)].
  match goal with
  | H1 : place_sl_after_fill _ _ _ _ _ _ = (Returned ?a, _, _) |- _ =>
      destruct a as [resp ok];
      apply place_sl_after_fill_outcome in H1 as [-> _]
  end.
  destruct ok; cbn [negb] in H.
  2:{ by apply emergency_close_outcome in H as [[_ [e [=]]]|[_ [=]]]. }
  apply bind_inv in H as [(? & _ & [=])|(? & ? & ? & ? & ? & H & ->)].
  match goal with
  | H1 : place_tp_after_fill _ _ _ _ _ _ = _ |- _ =>
      apply place_tp_after_fill_state in H1 as ->
  end.
  do 2 (apply bind_inv in H as [(? & _ & [=])|(? & ? & ? & ? & ? & H & ->)];
        match goal with H1 : lift _ _ = _ |- _ => apply lift_inv in H1 as (_ & -> & ->) end).
  revert H. run_M. intros [= Hr <- <-].
  unfold get_active_trade, set_active_trade in Hr |- *.
  destruct (valid_key key) eqn:Hk; [|done].
  cbn [save_state with_file active_trades] in Hr.
  unfold dict_get in Hr. rewrite lookup_insert_eq in Hr. cbn [default] in Hr.
  injection Hr as <-.
  split; [|split; [reflexivity|split; reflexivity]].
  intros ->. discriminate Hk.
Qed.

Lemma keeps_losses_check_tp_no_entry_loss (use_martingale_config : bool)
    (tm : TradeManager) (td : gmap string pyval) (key : string)
    (sl_order_id tp_order_id pos : pyval) (entry quantity : Decimal) :
  td !! "accumulated_loss_at_entry"%string = None →
  keeps_losses (check_tp use_martingale_config tm td key sl_order_id tp_order_id pos
                  entry quantity).
Proof.
  intros Hno. unfold check_tp.
  destruct (truthy tp_order_id); [|apply keeps_losses_ret]. cbv zeta.
  destruct (status_is _ "FILLED"); [|apply keeps_losses_ret].
  apply keeps_losses_bind; [apply keeps_losses_lift|]. intros n.
  apply keeps_losses_bind; [apply keeps_losses_lift|]. intros [[pnl ?] ?].
  apply keeps_losses_bind.
  { destruct (_ && _); [|apply keeps_losses_ret].
    unfold dict_get_default. rewrite Hno. cbn [default].
    assert (Hzero : Decimal_or_0 (PStr "0") = Returned Decimal_0) by reflexivity.
    rewrite Hzero. intros st r st' calls. run_M.
    change (Decimal_gt Decimal_0 Decimal_0) with false. cbv iota.
    by intros [= _ <- _]. }
  intros _.
  apply keeps_losses_bind; [apply keeps_losses_cancel_if|]. intros _.
  apply keeps_losses_bind; [apply keeps_losses_destroy_slot|]. intros _.
  apply keeps_losses_ret.
Qed.

End fill_then_close.

Section fill_then_take_profit.

Lemma keeps_losses_bind_run {A B : Type} (m : M A) (f : A → M B) :
  keeps_losses m →
  (∀ a st st' calls, m st = (Returned a, st', calls) → keeps_losses (f a)) →
  keeps_losses (m ≫= f).
Proof.
  intros Hm Hf st r st' calls H.
  apply bind_inv in H as [(e & H & _)|(a & st1 & c1 & c2 & H1 & H2 & _)].
  - by apply Hm in H.
  - rewrite (Hf a _ _ _ H1 _ _ _ _ H2). by apply Hm in H1.
Qed.

Lemma check_sl_details (use_martingale_config : bool) (tm : TradeManager)
    (td : gmap string pyval) (key : string) (sl_order_id tp_order_id pos : pyval)
    (entry quantity : Decimal) (st st' : PersistentState) (sl_order_id' : pyval)
    (td' : gmap string pyval) (calls : list exchange_call) :
  truthy sl_order_id && status_is (check_order_status tm sl_order_id) "FILLED" = false →
  check_sl use_martingale_config tm td key sl_order_id tp_order_id pos entry quantity st
  = (Returned (inr (sl_order_id', td')), st', calls) →
  td' = td ∨ td' = <["sl_order_response" := PNone]> td.
Proof.
  intros Hsl. unfold check_sl.
  destruct (truthy sl_order_id); [|run_M; intros [= _ <- _ _]; by left]. cbv zeta.
  cbn [andb] in Hsl. rewrite Hsl.
  destruct (status_is_gone _); run_M; intros [= _ <- _ _]; [by right|by left].
Qed.

(** Property X11.  A position opened by [_process_filled_order] carries no
    [accumulated_loss_at_entry].  When the function returns a payload, that
    payload is what the slot holds, its status is POSITION_OPEN and it has no
    such entry; so when [manage_active_position] manages it and the stop
    loss is not reported FILLED, the accumulated losses stay as they are
    however the call ends: a take profit of such a position does not reset
    them, with martingale enabled or not. *)
Theorem opened_position_tp_keeps_losses (td : gmap string pyval) (key : string)
    (info : gmap string pyval) (tm : TradeManager) (st st1 : PersistentState)
    (payload : gmap string pyval) (calls : list exchange_call) :
  _process_filled_order td key info tm st = (Returned (PDict payload, true), st1, calls) →
  get_active_trade st1 key = PDict payload
  ∧ payload !! "status"%string = Some (PStr "POSITION_OPEN")
  ∧ payload !! "accumulated_loss_at_entry"%string = None
  ∧ ∀ use_martingale_config now_utc tm',
      sl_not_filled tm' payload →
      keeps_losses (manage_active_position use_martingale_config now_utc payload key tm').
Proof.
  intros H.
  apply process_filled_order_returned_payload in H as (Hkey & -> & Hstatus & Hno).
  split; [|split; [exact Hstatus|split; [exact Hno|]]].
  { unfold get_active_trade, set_active_trade.
    destruct (valid_key key) eqn:Hk.
    - cbn [save_state with_file active_trades]. unfold dict_get.
      by rewrite lookup_insert_eq.
    - exfalso. apply Hkey. unfold valid_key in Hk.
      apply negb_false_iff in Hk. by apply String.eqb_eq in Hk. }
  intros use now tm' Hsl. unfold manage_active_position.
  destruct (negb _); [apply keeps_losses_ret|]. cbv zeta.
  apply keeps_losses_bind; [apply keeps_losses_lift|]. intros [entry quantity].
  apply keeps_losses_bind_run.
  { apply keeps_losses_check_sl. by right. }
  intros [[]|[sl_order_id' td']] st2 st3 calls2 Hrun; [apply keeps_losses_ret|].
  apply check_sl_details in Hrun; [|exact Hsl].
  apply keeps_losses_bind.
  { apply keeps_losses_check_tp_no_entry_loss.
    destruct Hrun as [->| ->]; [exact Hno|]. by rewrite lookup_insert_ne. }
  intros closed. destruct closed; [apply keeps_losses_ret|].
  destruct (match get_active_position tm' _ with Some _ => _ | None => _ end).
  - apply keeps_losses_handle_vanished.
  - apply keeps_losses_check_unprotected.
Qed.

End fill_then_take_profit.

Lemma opened_position_tp_keeps_losses_witness :
  _process_filled_order examples.pending_long "BTCUSDT_LONG" examples.filled_entry
    examples.accepting_manager examples.state_with_pending_long
  = (Returned (PDict fill_examples.opened_long, true),
     set_active_trade examples.state_with_pending_long "BTCUSDT_LONG"
       (PDict fill_examples.opened_long),
     [PlaceStopLossOrder SIDE_BUY (mkDecimal false 990 (-1));
      PlaceTakeProfitOrder SIDE_BUY (mkDecimal false 1030 (-1))])
  ∧ keeps_losses
      (manage_active_position true closure_examples.now fill_examples.opened_long
         "BTCUSDT_LONG" (closure_examples.closing_manager 22 (mkDecimal false 250 (-2)))).
Proof.
  assert (Hrun :
    _process_filled_order examples.pending_long "BTCUSDT_LONG" examples.filled_entry
      examples.accepting_manager examples.state_with_pending_long
    = (Returned (PDict fill_examples.opened_long, true),
       set_active_trade examples.state_with_pending_long "BTCUSDT_LONG"
         (PDict fill_examples.opened_long),
       [PlaceStopLossOrder SIDE_BUY (mkDecimal false 990 (-1));
        PlaceTakeProfitOrder SIDE_BUY (mkDecimal false 1030 (-1))]))
    by (vm_compute; reflexivity).
  split; [exact Hrun|].
  destruct (opened_position_tp_keeps_losses _ _ _ _ _ _ _ _ Hrun) as (_ & _ & _ & Hkeep).
  apply Hkeep. reflexivity.
Defined.

Section fill_check.

Lemma process_filled_order_flag (td : gmap string pyval) (key : string)
    (info : gmap string pyval) (tm : TradeManager) (st st' : PersistentState)
    (x : pyval) (flag : bool) (calls : list exchange_call) :
  _process_filled_order td key info tm st = (Returned (x, flag), st', calls) → flag = true.
Proof.
  unfold _process_filled_order. cbv zeta.
  destruct (Decimal_le _ Decimal_0).
  { intros H. by apply emergency_close_outcome in H as [[_ [e [=]]]|[_ [= _ <-]]]. }
  intros H.
  do 4 (apply bind_inv in H as [(? & _ & [=])|(? & ? & ? & ? & ? & H & ->)];
        match goal with H1 : lift _ _ = _ |- _ => apply lift_inv in H1 as (_ & -> & ->) end).
  apply bind_inv in H as [(? & _ & [=])|(? & ? & ? & ? & ? & H & ->)].
  match goal with
  | H1 : place_sl_after_fill _ _ _ _ _ _ = (Returned ?a, _, _) |- _ =>
      destruct a as [resp ok]; clear H1
  end.
  destruct ok; cbn [negb] in H.
  2:{ by apply emergency_close_outcome in H as [[_ [e [=]]]|[_ [= _ <-]]]. }
  apply bind_inv in H as [(? & _ & [=])|(? & ? & ? & ? & ? & H & ->)].
  do 2 (apply bind_inv in H as [(? & _ & [=])|(? & ? & ? & ? & ? & H & ->)];
        match goal with H1 : lift _ _ = _ |- _ => apply lift_inv in H1 as (_ & -> & ->) end).
  revert H. run_M. by intros [= _ <- _ _].
Qed.

Lemma fill_keeps_losses (td : gmap string pyval) (key : string)
    (info : gmap string pyval) (tm : TradeManager) :
  keeps_losses (_process_filled_order td key info tm).
Proof.
  intros st r st' calls H.
  apply process_filled_order_outcome in H as [->|[[-> _]|(payload & -> & _)]];
    [done|apply accumulated_losses_clear_active_trade
    |apply accumulated_losses_set_active_trade].
Qed.

(** Property X25.  The fill check of a pending order.  It never changes the accumulated
    losses.  It tells the caller to stop only when the entry order was
    reported FILLED, and then it has run [_process_filled_order].  For an
    order without id, without answer or in another status it sends nothing;
    it leaves the state as it is, except that for a status CANCELED, EXPIRED,
    REJECTED or NOT_FOUND_OR_DELETED it stores the payload with its order id
    and initial answer set to [None], the slot staying in its status. *)
Theorem check_entry_order_fill_spec (td : gmap string pyval) (key : string)
    (tm : TradeManager) (st st' : PersistentState) (r : result (pyval * bool))
    (calls : list exchange_call) :
  _check_entry_order_fill td key tm st = (r, st', calls) →
  accumulated_losses st' = accumulated_losses st
  ∧ (∀ x, r = Returned (x, true) →
       ∃ info, entry_order_status tm td (PStr "FILLED")
               ∧ check_order_status tm (dict_get td "current_entry_order_id") = Some info
               ∧ _process_filled_order td key info tm st = (r, st', calls))
  ∧ (¬ entry_order_status tm td (PStr "FILLED") →
     calls = []
     ∧ ∃ details,
         r = Returned (PDict details, false)
         ∧ details !! "status"%string = td !! "status"%string
         ∧ ((∃ status, entry_order_status tm td status
                       ∧ is_final_unfilled status = true
                       ∧ st' = set_active_trade st key (PDict details)
                       ∧ details !! "current_entry_order_id"%string = Some PNone)
            ∨ (st' = st ∧ details = td))).
Proof.
  unfold _check_entry_order_fill. cbv zeta.
  destruct (truthy (dict_get td "current_entry_order_id")) eqn:Hid; cbn [negb].
  2:{ run_M. intros [= <- <- <-]. split; [done|]. split; [by intros x [=]|].
      intros _. split; [done|]. exists td. eauto. }
  destruct (check_order_status tm _) as [info|] eqn:Hinfo.
  2:{ run_M. intros [= <- <- <-]. split; [done|]. split; [by intros x [=]|].
      intros _. split; [done|]. exists td. eauto. }
  destruct (truthy (PDict info)) eqn:Htr.
  2:{ run_M. intros [= <- <- <-]. split; [done|]. split; [by intros x [=]|].
      intros _. split; [done|]. exists td. eauto. }
  destruct (eq_str (dict_get info "status") "FILLED") eqn:Hf.
  { intros H. split; [exact (fill_keeps_losses _ _ _ _ _ _ _ _ H)|].
    assert (Hst : entry_order_status tm td (PStr "FILLED")).
    { split; [done|]. exists info. split; [done|]. split; [done|].
      destruct (dict_get info "status"); try done. cbn in Hf.
      by apply String.eqb_eq in Hf as ->. }
    split; [|done]. intros x _. exists info. done. }
  assert (Hnf : ¬ entry_order_status tm td (PStr "FILLED")).
  { intros (_ & info' & Hinfo' & _ & Hs). rewrite Hinfo in Hinfo'.
    injection Hinfo' as <-. by rewrite Hs in Hf. }
  destruct (is_final_unfilled (dict_get info "status")) eqn:Hfin.
  - run_M. intros [= <- <- <-].
    split; [apply accumulated_losses_set_active_trade|].
    split; [by intros x [=]|]. intros _. split; [done|].
    eexists. split; [reflexivity|]. split.
    { by rewrite !lookup_insert_ne. }
    left. exists (dict_get info "status"). split.
    { split; [done|]. exists info. done. }
    split; [done|]. split; [done|].
    rewrite lookup_insert_ne by done. by rewrite lookup_insert_eq.
  - run_M. intros [= <- <- <-]. split; [done|]. split; [by intros x [=]|].
    intros _. split; [done|]. exists td. eauto.
Qed.

End fill_check.

Lemma triple_eta {A B C : Type} (p : A * B * C) : p = (p.1.1, p.1.2, p.2).
Proof. by destruct p as [[? ?] ?]. Qed.

Lemma check_entry_order_fill_spec_witness :
  (_check_entry_order_fill fill_check_examples.pending_with_order "BTCUSDT_LONG"
     vanished_examples.sl_canceled_manager examples.state_with_pending_long).2 = []
  ∧ ∃ details,
      (_check_entry_order_fill fill_check_examples.pending_with_order "BTCUSDT_LONG"
         vanished_examples.sl_canceled_manager examples.state_with_pending_long).1.1
      = Returned (PDict details, false)
      ∧ details !! "status"%string = Some (PStr "PENDING_DYNAMIC_LIMIT").
Proof.
  destruct (check_entry_order_fill_spec fill_check_examples.pending_with_order
              "BTCUSDT_LONG" vanished_examples.sl_canceled_manager
              examples.state_with_pending_long _ _ _ (triple_eta _)) as (_ & _ & H).
  destruct H as (Hcalls & details & Hr & Hstatus & _).
  - intros (_ & info & Hinfo & _ & Hs). vm_compute in Hinfo.
    injection Hinfo as <-. vm_compute in Hs. discriminate Hs.
  - split; [exact Hcalls|]. exists details. split; [exact Hr|].
    rewrite Hstatus. reflexivity.
Defined.
